(** * The tee filter of MaxScale: a shallow embedding of
      [server/modules/filter/tee/tee.c] and the properties of its
      query duplication, session life cycle, loop detection and orphan
      reclamation.

    Conventions of the embedding.
    - C [int]s and bytes are [Z]; pointers are addresses ([nat]) into
      finite maps, [NULL] is [None].
    - A query buffer is one contiguous run of bytes: the filter asks for
      [RCAP_TYPE_CONTIGUOUS_INPUT], so [GWBUF_LENGTH] of the first link
      is the length of the whole packet.
    - Functions that touch shared objects run in a state-and-error monad
      over a [World]; [None] is a run that dereferences a pointer which
      is not allocated or calls through a [NULL] function pointer.
    - A call that leaves the file is recorded as an [event] in the
      world's trace, in the order of the calls.
    - Threads are not modelled: a function runs from its first statement
      to its last, and what the rest of the proxy does in between two
      calls is a step of its own.

    The file has the data model, the functions of [tee.c] in the order
    of their dependencies, the vocabulary of the properties, the
    configurations of the scenarios, and then the lemmas and theorems,
    each theorem with a run on a scenario at the end of the file. *)

From Stdlib Require Import ZArith String Ascii.
From stdpp Require Import gmap strings list fin_maps relations.

Open Scope string_scope.
Open Scope Z_scope.

Set Default Proof Using "Type".

Abbreviation addr := nat.

(** ** Protocol constants (the [#define]s at the top of the file) *)

Definition MYSQL_COM_QUIT : Z := 0x01.
Definition MYSQL_COM_INITDB : Z := 0x02.
Definition MYSQL_COM_FIELD_LIST : Z := 0x04.
Definition MYSQL_COM_CHANGE_USER : Z := 0x11.
Definition MYSQL_COM_STMT_PREPARE : Z := 0x16.
Definition MYSQL_COM_STMT_EXECUTE : Z := 0x17.
Definition MYSQL_COM_STMT_SEND_LONG_DATA : Z := 0x18.
Definition MYSQL_COM_STMT_CLOSE : Z := 0x19.
Definition MYSQL_COM_STMT_RESET : Z := 0x1a.
Definition MYSQL_COM_CONNECT : Z := 0x1b.

Definition PARENT : nat := 0.
Definition CHILD : nat := 1.

(** [required_packets[]], with its terminating [0]. *)
Definition required_packets : list Z :=
  [ MYSQL_COM_QUIT; MYSQL_COM_INITDB; MYSQL_COM_CHANGE_USER;
    MYSQL_COM_STMT_PREPARE; MYSQL_COM_STMT_EXECUTE;
    MYSQL_COM_STMT_SEND_LONG_DATA; MYSQL_COM_STMT_CLOSE;
    MYSQL_COM_STMT_RESET; MYSQL_COM_CONNECT; 0 ].

(** ** Buffers *)

Definition GWBUF := list Z.

Definition GWBUF_LENGTH (b : GWBUF) : Z := Z.of_nat (length b).

(** [ptr[i]] for [ptr = GWBUF_DATA(b)]; the callers check the length. *)
Definition GWBUF_DATA (b : GWBUF) (i : nat) : Z := nth i b 0.

(** Modelled from the spec: [gwbuf_clone_all] lives in the buffer
    module, outside this file; the spec asks of it a "full independent
    clone" of the buffer. Values are immutable here, so the clone is the
    same run of bytes. *)
Definition gwbuf_clone_all (b : GWBUF) : option GWBUF := Some b.

(** ** Objects of the proxy core that the filter reads and writes *)

(** [session_state_t] and [dcb_state_t] are declared in the core's
    headers; the filter tests four session states and one DCB state. *)
Inductive session_state_t :=
| SESSION_STATE_ALLOC
| SESSION_STATE_READY
| SESSION_STATE_ROUTER_READY
| SESSION_STATE_STOPPING
| SESSION_STATE_LISTENER
| SESSION_STATE_LISTENER_STOPPED
| SESSION_STATE_TO_BE_FREED
| SESSION_STATE_FREE
| SESSION_STATE_DUMMY.

Inductive dcb_state_t :=
| DCB_STATE_UNDEFINED
| DCB_STATE_ALLOC
| DCB_STATE_POLLING
| DCB_STATE_WAITING
| DCB_STATE_LISTENING
| DCB_STATE_DISCONNECTED
| DCB_STATE_NOPOLLING
| DCB_STATE_ZOMBIE.

#[global] Instance session_state_eq_dec : EqDecision session_state_t.
Proof. solve_decision. Defined.

#[global] Instance dcb_state_eq_dec : EqDecision dcb_state_t.
Proof. solve_decision. Defined.

(** The fields of [SESSION] that the filter touches. *)
Module SESSION.
Record t := mk {
  state : session_state_t;
  refcount : Z;
  client_dcb : option addr;
  service : addr
}.
Definition set_state (v : session_state_t) (s : t) : t :=
  mk v (refcount s) (client_dcb s) (service s).
End SESSION.
Abbreviation SESSION := SESSION.t.

Module DCB.
Record t := mk { state : dcb_state_t }.
End DCB.
Abbreviation DCB := DCB.t.

(** A compiled pattern stands for the text and flags it was compiled
    from; what it matches is a parameter of the development. *)
Record regex_t := mk_regex { re_pattern : string; re_cflags : Z }.

(** [TEE_INSTANCE]: the configuration of one filter instance. *)
Module TEE_INSTANCE.
Record t := mk {
  service : option addr;
  source : option string;
  userName : option string;
  match_ : option string;
  re : regex_t;
  nomatch : option string;
  nore : regex_t
}.
End TEE_INSTANCE.
Abbreviation TEE_INSTANCE := TEE_INSTANCE.t.

(** [FILTER_DEF] and [SERVICE], as far as [detect_loops] walks them:
    [filter] is [NULL] until the instance has been created. *)
Module FILTER_DEF.
Record t := mk { module : string; filter : option TEE_INSTANCE }.
End FILTER_DEF.
Abbreviation FILTER_DEF := FILTER_DEF.t.

Module SERVICE.
Record t := mk { name : string; filters : list FILTER_DEF }.
Definition n_filters (s : t) : Z := Z.of_nat (length (filters s)).
End SERVICE.
Abbreviation SERVICE := SERVICE.t.

(** One [FILTER_PARAMETER] of the configuration. *)
Module FILTER_PARAMETER.
Record t := mk { name : string; value : string }.
End FILTER_PARAMETER.
Abbreviation FILTER_PARAMETER := FILTER_PARAMETER.t.

(** ** The world outside the session structure *)

Inductive log_level := LOG_ERR | LOG_WARNING | LOG_INFO.

Inductive lock := orphanLock | ses_lock (ses : addr).

(** The blocks of storage of an instance: the structure and its strings. *)
Inductive storage :=
| ST_instance | ST_match | ST_nomatch | ST_source | ST_userName.

(** One line of [diagnostic] output. *)
Inductive diag_line :=
| DiagSource (s : string)
| DiagService (name : string)
| DiagUser (s : string)
| DiagMatch (s : string)
| DiagNomatch (s : string)
| DiagDuped (n : Z)
| DiagRejected (n : Z).

Inductive event :=
| EvLog (lvl : log_level) (msg : string)
| EvSpinlockAcquire (l : lock)
| EvSpinlockRelease (l : lock)
| EvDownRouteQuery (buf : GWBUF)
| EvSessionRouteQuery (ses : addr) (buf : GWBUF)
| EvUpClientReply (buf : GWBUF)
| EvGwbufFree (buf : GWBUF)
| EvRouterCloseSession (ses : addr)
| EvRouterFreeSession (ses : addr)
| EvFreeSession (ses : addr)
| EvFreeOrphan (ses : addr)
| EvFreeTeeSession
| EvDcbWrite (dcb : addr) (buf : GWBUF)
| EvDcbClone (dcb : option addr)
| EvSessionAlloc (service : option addr) (dcb : addr)
| EvDcbClose (dcb : addr)
| EvSessionPutRef (ses : addr)
| EvFilterFree (fdef : addr)
| EvHashtableFree
| EvFree (what : storage)
| EvRegfree (r : regex_t)
| EvDcbPrintf (dcb : addr) (line : diag_line).

(** The sessions and DCBs of the core: the part of the world that the
    other components of the proxy change as well. *)
Record Heap := mkHeap {
  sessions : gmap addr SESSION;
  dcbs : gmap addr DCB
}.

(** [allOrphans] is the list of [orphan_session_t] nodes from its head,
    each node given by the session it holds. [alloc_tape] decides the
    allocations that the code checks for [NULL], in the order they are
    made ([false]: the allocation fails; an exhausted tape: it
    succeeds). *)
Record World := mkWorld {
  heap : Heap;
  services : gmap addr SERVICE;
  allOrphans : list addr;
  alloc_tape : list bool;
  trace : list event
}.

Definition set_heap (h : Heap) (w : World) : World :=
  mkWorld h (services w) (allOrphans w) (alloc_tape w) (trace w).
Definition set_allOrphans (l : list addr) (w : World) : World :=
  mkWorld (heap w) (services w) l (alloc_tape w) (trace w).
Definition set_alloc_tape (t : list bool) (w : World) : World :=
  mkWorld (heap w) (services w) (allOrphans w) t (trace w).
Definition set_trace (t : list event) (w : World) : World :=
  mkWorld (heap w) (services w) (allOrphans w) (alloc_tape w) t.
Definition set_sessions (m : gmap addr SESSION) (h : Heap) : Heap :=
  mkHeap m (dcbs h).

(** ** The state-and-error monad of the filter's functions *)

Definition M (A : Type) : Type := World -> option (A * World).

Definition ret {A} (a : A) : M A := fun w => Some (a, w).
Definition bind {A B} (m : M A) (k : A -> M B) : M B :=
  fun w => match m w with
           | Some (a, w') => k a w'
           | None => None
           end.
Definition fault {A} : M A := fun _ => None.

Notation "'do' x <- m ; k" := (bind m (fun x => k))
  (at level 10, x pattern, m at level 100, k at level 200,
   format "'[v' 'do'  x  <-  m ; '/' k ']'").
Notation "m ;; k" := (bind m (fun _ => k))
  (at level 100, k at level 200, right associativity).

(** A call that leaves the file. *)
Definition emit (e : event) : M unit :=
  fun w => Some (tt, set_trace (trace w ++ [e]) w).

(** [p->...] for a session pointer [p]. *)
Definition get_session (p : addr) : M SESSION :=
  fun w => match sessions (heap w) !! p with
           | Some s => Some (s, w)
           | None => None
           end.
Definition put_session (p : addr) (s : SESSION) : M unit :=
  fun w => Some (tt, set_heap (set_sessions (<[p := s]> (sessions (heap w))) (heap w)) w).
Definition get_dcb (p : addr) : M DCB :=
  fun w => match dcbs (heap w) !! p with
           | Some d => Some (d, w)
           | None => None
           end.
Definition get_service (p : addr) : M SERVICE :=
  fun w => match services w !! p with
           | Some s => Some (s, w)
           | None => None
           end.
(** An allocation whose result the code checks. *)
Definition try_alloc : M bool :=
  fun w => match alloc_tape w with
           | b :: t => Some (b, set_alloc_tape t w)
           | [] => Some (true, w)
           end.
(** A call into another component that may change the core's objects. *)
Definition call_heap {A} (f : Heap -> A * Heap) : M A :=
  fun w => let '(a, h) := f (heap w) in Some (a, set_heap h w).

(** ** The session structure of the filter *)

(** [DOWNSTREAM] and [UPSTREAM]: the next component's entry point, with
    its instance and session bound. The callee may change the core's
    sessions and DCBs while it runs. *)
Module DOWNSTREAM.
Record t := mk { routeQuery : GWBUF -> Heap -> Z * Heap }.
End DOWNSTREAM.
Abbreviation DOWNSTREAM := DOWNSTREAM.t.

Module UPSTREAM.
Record t := mk { clientReply : GWBUF -> Heap -> Z * Heap }.
End UPSTREAM.
Abbreviation UPSTREAM := UPSTREAM.t.

(** [TEE_SESSION]. The two-element arrays are pairs, [PARENT] first.
    [tee_lock] has no state of its own here. *)
Module TEE_SESSION.
Record t := mk {
  down : option DOWNSTREAM;
  up : option UPSTREAM;
  dummy_filterdef : option addr;
  active : Z;
  use_ok : bool;
  client_multistatement : Z;
  multipacket : bool * bool;
  command : Z;
  waiting : bool * bool;
  eof : Z * Z;
  replies : Z * Z;
  reply_packets : Z * Z;
  branch_dcb : option addr;
  branch_session : option addr;
  instance : TEE_INSTANCE;
  n_duped : Z;
  n_rejected : Z;
  residual : Z;
  tee_replybuf : option GWBUF;
  tee_partials : option GWBUF * option GWBUF;
  queue : option GWBUF;
  client_dcb : option addr
}.

(** What [MXS_CALLOC(1, sizeof(TEE_SESSION))] returns, for an instance
    pointer stored afterwards. *)
Definition zero (i : TEE_INSTANCE) : t :=
  mk None None None 0 false 0 (false, false) 0 (false, false) (0, 0) (0, 0)
     (0, 0) None None i 0 0 0 None (None, None) None None.

Definition set_down (v : option DOWNSTREAM) (s : t) : t :=
  let '(mk _ b c d e f g h i j k l m n o p q r u x y z) := s in
  mk v b c d e f g h i j k l m n o p q r u x y z.
Definition set_up (v : option UPSTREAM) (s : t) : t :=
  let '(mk a _ c d e f g h i j k l m n o p q r u x y z) := s in
  mk a v c d e f g h i j k l m n o p q r u x y z.
Definition set_active (v : Z) (s : t) : t :=
  let '(mk a b c _ e f g h i j k l m n o p q r u x y z) := s in
  mk a b c v e f g h i j k l m n o p q r u x y z.
Definition set_client_multistatement (v : Z) (s : t) : t :=
  let '(mk a b c d e _ g h i j k l m n o p q r u x y z) := s in
  mk a b c d e v g h i j k l m n o p q r u x y z.
Definition set_multipacket (v : bool * bool) (s : t) : t :=
  let '(mk a b c d e f _ h i j k l m n o p q r u x y z) := s in
  mk a b c d e f v h i j k l m n o p q r u x y z.
Definition set_command (v : Z) (s : t) : t :=
  let '(mk a b c d e f g _ i j k l m n o p q r u x y z) := s in
  mk a b c d e f g v i j k l m n o p q r u x y z.
Definition set_waiting (v : bool * bool) (s : t) : t :=
  let '(mk a b c d e f g h _ j k l m n o p q r u x y z) := s in
  mk a b c d e f g h v j k l m n o p q r u x y z.
Definition set_eof (v : Z * Z) (s : t) : t :=
  let '(mk a b c d e f g h i _ k l m n o p q r u x y z) := s in
  mk a b c d e f g h i v k l m n o p q r u x y z.
Definition set_replies (v : Z * Z) (s : t) : t :=
  let '(mk a b c d e f g h i j _ l m n o p q r u x y z) := s in
  mk a b c d e f g h i j v l m n o p q r u x y z.
Definition set_reply_packets (v : Z * Z) (s : t) : t :=
  let '(mk a b c d e f g h i j k _ m n o p q r u x y z) := s in
  mk a b c d e f g h i j k v m n o p q r u x y z.
Definition set_branch_dcb (v : option addr) (s : t) : t :=
  let '(mk a b c d e f g h i j k l _ n o p q r u x y z) := s in
  mk a b c d e f g h i j k l v n o p q r u x y z.
Definition set_branch_session (v : option addr) (s : t) : t :=
  let '(mk a b c d e f g h i j k l m _ o p q r u x y z) := s in
  mk a b c d e f g h i j k l m v o p q r u x y z.
Definition set_n_duped (v : Z) (s : t) : t :=
  let '(mk a b c d e f g h i j k l m n o _ q r u x y z) := s in
  mk a b c d e f g h i j k l m n o v q r u x y z.
Definition set_client_dcb (v : option addr) (s : t) : t :=
  let '(mk a b c d e f g h i j k l m n o p q r u x y _) := s in
  mk a b c d e f g h i j k l m n o p q r u x y v.
End TEE_SESSION.
Abbreviation TEE_SESSION := TEE_SESSION.t.

(** [a[PARENT]] and [a[CHILD]] for a two-element array. *)
Definition at_side {A} (a : A * A) (side : nat) : A :=
  match side with
  | O => a.1
  | _ => a.2
  end.

(** [int] arithmetic: the counters wrap as two's-complement 32-bit
    integers do. *)
Definition wrap_int (z : Z) : Z := (z + 2 ^ 31) mod 2 ^ 32 - 2 ^ 31.

Section Tee.

(** ** Collaborators outside the file

    Functions of the C library and of the proxy core that the filter
    calls and whose code is elsewhere; the development holds for every
    behaviour of them. *)

(** [regcomp(&re, pattern, cflags)]: [0] when the pattern compiles. *)
Variable regcomp : string -> Z -> Z.
(** [regexec(&re, text, 0, NULL, 0)]: [0] when the text matches. *)
Variable regexec : regex_t -> string -> Z.
Variables REG_ICASE REG_EXTENDED : Z.
(** [modutil_get_SQL]: the SQL text of a packet, [NULL] when it has none. *)
Variable modutil_get_SQL : GWBUF -> option string.
Variable modutil_create_mysql_err_msg : Z -> Z -> Z -> string -> string -> GWBUF.
Variable service_find : string -> option addr.
Variable filter_standard_parameter : string -> bool.
(** [session_get_remote] and [session_getUser] of a session pointer. *)
Variable session_get_remote : addr -> option string.
Variable session_getUser : addr -> option string.
(** [dcb_clone] and [session_alloc] create objects of the core, or fail. *)
Variable dcb_clone : option addr -> Heap -> option addr * Heap.
Variable session_alloc : option addr -> addr -> Heap -> option addr * Heap.
Variable session_put_ref : addr -> Heap -> unit * Heap.

(** Leave out of a proof the collaborators that its statement does not
    mention. *)
Ltac clear_env :=
  try clear regcomp; try clear REG_ICASE; try clear REG_EXTENDED;
  try clear regexec; try clear modutil_get_SQL;
  try clear modutil_create_mysql_err_msg; try clear service_find;
  try clear filter_standard_parameter; try clear session_get_remote;
  try clear session_getUser; try clear dcb_clone; try clear session_alloc;
  try clear session_put_ref.

(** ** Match engine *)

(** The loop of [packet_is_required] over [required_packets], which
    stops at the terminating [0]. *)
Fixpoint required_scan (cmd : Z) (tbl : list Z) : Z :=
  match tbl with
  | [] => 0
  | r :: tbl' =>
      if r =? 0 then 0
      else if cmd =? r then 1
      else required_scan cmd tbl'
  end.

Definition packet_is_required (queue : GWBUF) : Z :=
  if 4 <? GWBUF_LENGTH queue
  then required_scan (GWBUF_DATA queue 4) required_packets
  else 0.

(** A C condition on a pointer or an [int]. *)
Definition non_null {A} (p : option A) : bool :=
  match p with Some _ => true | None => false end.
Definition truthy (z : Z) : bool := negb (z =? 0).

Definition clone_query (my_instance : TEE_INSTANCE) (my_session : TEE_SESSION)
    (buffer : GWBUF) : option GWBUF :=
  if (negb (non_null (TEE_INSTANCE.match_ my_instance))
      && negb (non_null (TEE_INSTANCE.nomatch my_instance)))
     || truthy (packet_is_required buffer)
  then gwbuf_clone_all buffer
  else
    match modutil_get_SQL buffer with
    | Some ptr =>
        if (non_null (TEE_INSTANCE.match_ my_instance)
            && (regexec (TEE_INSTANCE.re my_instance) ptr =? 0))
           || (non_null (TEE_INSTANCE.nomatch my_instance)
               && negb (regexec (TEE_INSTANCE.nore my_instance) ptr =? 0))
        then gwbuf_clone_all buffer
        else None
    | None => None
    end.

(** The commands that the spec lists as required, by name. *)
Definition required_commands : list Z :=
  [ MYSQL_COM_QUIT; MYSQL_COM_INITDB; MYSQL_COM_CHANGE_USER;
    MYSQL_COM_STMT_PREPARE; MYSQL_COM_STMT_EXECUTE;
    MYSQL_COM_STMT_SEND_LONG_DATA; MYSQL_COM_STMT_CLOSE;
    MYSQL_COM_STMT_RESET; MYSQL_COM_CONNECT ].

(** The command byte of a packet: the byte at offset 4, when the buffer
    is longer than 4 bytes. *)
Definition command_byte (b : GWBUF) : option Z :=
  if 4 <? GWBUF_LENGTH b then Some (GWBUF_DATA b 4) else None.

Definition has_required_command (b : GWBUF) : Prop :=
  exists c, command_byte b = Some c /\ In c required_commands.

(** ** Query router *)

(** The guard of [route_single_query]; [&&] reads the branch session
    only when the session is active and has one. *)
Definition branch_is_ready (my_session : TEE_SESSION) : M bool :=
  if truthy (TEE_SESSION.active my_session) then
    match TEE_SESSION.branch_session my_session with
    | Some b =>
        do bs <- get_session b;
        ret (bool_decide (SESSION.state bs = SESSION_STATE_ROUTER_READY))
    | None => ret false
    end
  else ret false.

Definition route_single_query (my_instance : TEE_INSTANCE)
    (my_session : TEE_SESSION) (buffer : GWBUF) (clone : option GWBUF)
    : M (Z * TEE_SESSION) :=
  do ready <- branch_is_ready my_session;
  if ready : bool then
    match TEE_SESSION.down my_session, TEE_SESSION.branch_session my_session with
    | Some d, Some b =>
        emit (EvDownRouteQuery buffer);;
        do rval <- call_heap (DOWNSTREAM.routeQuery d buffer);
        match clone with
        | Some c =>
            let my_session :=
              TEE_SESSION.set_n_duped
                (wrap_int (TEE_SESSION.n_duped my_session + 1)) my_session in
            do bs <- get_session b;
            if bool_decide (SESSION.state bs = SESSION_STATE_ROUTER_READY)
            then
              emit (EvSessionRouteQuery b c);;
              ret (rval, my_session)
            else
              emit (EvLog LOG_INFO
                      "Closed tee filter session: Child session in invalid state.");;
              emit (EvGwbufFree c);;
              ret (0, TEE_SESSION.set_active 0 my_session)
        | None => ret (rval, my_session)
        end
    | _, _ => fault
    end
  else ret (0, my_session).

Definition routeQuery (my_instance : TEE_INSTANCE) (my_session : TEE_SESSION)
    (queue : GWBUF) : M (Z * TEE_SESSION) :=
  let clone := clone_query my_instance my_session queue in
  route_single_query my_instance my_session queue clone.

Definition clientReply (my_instance : TEE_INSTANCE) (my_session : TEE_SESSION)
    (reply : GWBUF) : M Z :=
  match TEE_SESSION.up my_session with
  | Some u =>
      emit (EvUpClientReply reply);;
      call_heap (UPSTREAM.clientReply u reply)
  | None => fault
  end.

Definition setDownstream (my_session : TEE_SESSION) (downstream : DOWNSTREAM)
    : TEE_SESSION :=
  TEE_SESSION.set_down (Some downstream) my_session.

Definition setUpstream (my_session : TEE_SESSION) (upstream : UPSTREAM)
    : TEE_SESSION :=
  TEE_SESSION.set_up (Some upstream) my_session.

(** [reset_session_state]; no entry point of the filter calls it. The
    read of [buffer->start + 5] needs a sixth byte. *)
Definition reset_session_state (my_session : TEE_SESSION) (buffer : GWBUF)
    : option (Z * TEE_SESSION) :=
  if GWBUF_LENGTH buffer <? 5 then Some (0, my_session)
  else
    let command := GWBUF_DATA buffer 4 in
    let after_switch :=
      if command =? 0x1b then
        if 5 <? GWBUF_LENGTH buffer then
          Some (TEE_SESSION.set_multipacket (true, true)
                  (TEE_SESSION.set_client_multistatement
                     (GWBUF_DATA buffer 5) my_session))
        else None
      else if (command =? 0x03) || (command =? 0x16) || (command =? 0x17)
              || (command =? 0x04) || (command =? 0x0a)
      then Some (TEE_SESSION.set_multipacket (true, true) my_session)
      else Some (TEE_SESSION.set_multipacket (false, false) my_session) in
    match after_switch with
    | Some s =>
        Some (1, TEE_SESSION.set_command command
                   (TEE_SESSION.set_waiting (true, true)
                      (TEE_SESSION.set_eof (0, 0)
                         (TEE_SESSION.set_reply_packets (0, 0)
                            (TEE_SESSION.set_replies (0, 0) s)))))
    | None => None
    end.

(** ** Orphan reaper *)

Definition get_allOrphans : M (list addr) := fun w => Some (allOrphans w, w).
Definition put_allOrphans (l : list addr) : M unit :=
  fun w => Some (tt, set_allOrphans l w).

(** [MXS_FREE(ses)] for a session of the core. *)
Definition free_session (p : addr) : M unit :=
  (fun w => Some (tt, set_heap (set_sessions (delete p (sessions (heap w))) (heap w)) w));;
  emit (EvFreeSession p).

Definition create_orphan (ses : addr) : M unit :=
  do ok <- try_alloc;
  if ok : bool then
    emit (EvSpinlockAcquire orphanLock);;
    do l <- get_allOrphans;
    put_allOrphans (ses :: l);;
    emit (EvSpinlockRelease orphanLock)
  else ret tt.

(** The [while (ptr)] loop of [orphan_free], run under [orphanLock].
    [ptrs] are the nodes from [ptr] on and [finished] is the list of the
    same name. A node whose session is in [SESSION_STATE_TO_BE_FREED]
    is unlinked from [allOrphans] (as the head or behind the node found
    by the inner [while]) and pushed on [finished]; the other nodes stay
    in their order. The result is the rest of [allOrphans] from [ptr]
    on, and [finished]. *)
Fixpoint orphan_scan (ptrs finished : list addr) : M (list addr * list addr) :=
  match ptrs with
  | [] => ret ([], finished)
  | ptr :: next =>
      do s <- get_session ptr;
      let unlink := bool_decide (SESSION.state s = SESSION_STATE_TO_BE_FREED) in
      (if bool_decide (SESSION.state s = SESSION_STATE_STOPPING)
          && (SESSION.refcount s =? 0)
          && negb (non_null (SESSION.client_dcb s))
       then put_session ptr (SESSION.set_state SESSION_STATE_TO_BE_FREED s)
       else ret tt);;
      do r <- orphan_scan next (if unlink then ptr :: finished else finished);
      ret (if unlink then fst r else ptr :: fst r, snd r)
  end.

(** The [while (finished)] loop, run after the lock is released. *)
Fixpoint orphan_release (finished : list addr) : M unit :=
  match finished with
  | [] => ret tt
  | tmp :: rest =>
      do s <- get_session tmp;
      emit (EvRouterFreeSession tmp);;
      put_session tmp (SESSION.set_state SESSION_STATE_FREE s);;
      free_session tmp;;
      emit (EvFreeOrphan tmp);;
      orphan_release rest
  end.

(** The part of [orphan_free] between [spinlock_acquire] and
    [spinlock_release]; it leaves [allOrphans] without the unlinked
    nodes and returns [finished]. *)
Definition orphan_unlink : M (list addr) :=
  emit (EvSpinlockAcquire orphanLock);;
  do ptrs <- get_allOrphans;
  do r <- orphan_scan ptrs [];
  put_allOrphans (fst r);;
  emit (EvSpinlockRelease orphanLock);;
  ret (snd r).

Definition orphan_free : M unit :=
  do finished <- orphan_unlink;
  orphan_release finished.

(** ** Closing and freeing a session *)

Definition closeSession (my_instance : TEE_INSTANCE) (my_session : TEE_SESSION)
    : M TEE_SESSION :=
  if truthy (TEE_SESSION.active my_session) then
    (match TEE_SESSION.branch_session my_session with
     | Some bsession =>
         emit (EvSpinlockAcquire (ses_lock bsession));;
         do bs <- get_session bsession;
         (if bool_decide (SESSION.state bs <> SESSION_STATE_STOPPING)
          then put_session bsession (SESSION.set_state SESSION_STATE_STOPPING bs)
          else ret tt);;
         emit (EvSpinlockRelease (ses_lock bsession));;
         emit (EvRouterCloseSession bsession)
     | None => ret tt
     end);;
    (if at_side (TEE_SESSION.waiting my_session) PARENT then
       if negb (TEE_SESSION.command my_session =? 0x01) then
         match TEE_SESSION.client_dcb my_session with
         | Some dcb =>
             do d <- get_dcb dcb;
             if bool_decide (DCB.state d = DCB_STATE_POLLING) then
               emit (EvLog LOG_INFO "Tee session closed mid-query.");;
               emit (EvDcbWrite dcb
                       (modutil_create_mysql_err_msg 1 0 1 "00000" "Session closed."))
             else ret tt
         | None => ret tt
         end
       else ret tt
     else ret tt);;
    ret (TEE_SESSION.set_active 0 my_session)
  else ret my_session.

Definition freeSession (my_instance : TEE_INSTANCE) (my_session : TEE_SESSION)
    : M unit :=
  (match TEE_SESSION.branch_session my_session with
   | Some ses =>
       do s <- get_session ses;
       match SESSION.state s with
       | SESSION_STATE_ROUTER_READY =>
           emit (EvSessionPutRef ses);;
           call_heap (session_put_ref ses)
       | SESSION_STATE_TO_BE_FREED =>
           emit (EvRouterFreeSession ses);;
           put_session ses (SESSION.set_state SESSION_STATE_FREE s);;
           free_session ses
       | SESSION_STATE_STOPPING => create_orphan ses
       | _ => ret tt
       end
   | None => ret tt
   end);;
  (match TEE_SESSION.dummy_filterdef my_session with
   | Some fdef => emit (EvFilterFree fdef)
   | None => ret tt
   end);;
  (match TEE_SESSION.tee_replybuf my_session with
   | Some buf => emit (EvGwbufFree buf)
   | None => ret tt
   end);;
  emit EvFreeTeeSession;;
  orphan_free.

(** ** Loop detector *)

(** The table of visited service names. *)
Abbreviation HASHTABLE := (gset string).

(** Modelled from the spec: [hashtable_add] lives in the core's hash
    table module. It returns [0] and leaves the table as it is when the
    key is present ("if the current service's name is already present,
    report a loop"), and adds the key otherwise. *)
Definition hashtable_add (ht : HASHTABLE) (key : string) : Z * HASHTABLE :=
  if decide (key ∈ ht) then (0, ht) else (1, {[key]} ∪ ht).

(** The [for] loop of [detect_loops] over [svc->filters]; [recurse] is
    the recursive call of [detect_loops] on the target of a tee filter.
    A tee filter whose instance is still [NULL] is passed over. *)
Fixpoint detect_loops_filters
    (recurse : TEE_INSTANCE -> option HASHTABLE -> option addr
               -> option (Z * option HASHTABLE))
    (filters : list FILTER_DEF) (ht : option HASHTABLE)
    : option (Z * option HASHTABLE) :=
  match filters with
  | [] => Some (0, ht)
  | f :: filters' =>
      if String.eqb (FILTER_DEF.module f) "tee" then
        match FILTER_DEF.filter f with
        | None => detect_loops_filters recurse filters' ht
        | Some ninst =>
            let tgt := TEE_INSTANCE.service ninst in
            match recurse ninst ht tgt with
            | None => None
            | Some (r, ht') =>
                if truthy r then Some (1, ht')
                else detect_loops_filters recurse filters' ht'
            end
        end
      else detect_loops_filters recurse filters' ht
  end.

(** [detect_loops]. The C function recurses through the services that
    tee filters point to; [fuel] bounds the depth of the recursion and
    [None] is a run that exhausts it or follows a pointer to no service.
    The table is shared by all the calls, so each call returns it. *)
Fixpoint detect_loops (fuel : nat) (svcs : gmap addr SERVICE)
    (instance : TEE_INSTANCE) (ht : option HASHTABLE) (service : option addr)
    : option (Z * option HASHTABLE) :=
  match fuel with
  | O => None
  | S fuel' =>
      match ht with
      | None => Some (-1, None)
      | Some tbl =>
          match service ≫= (svcs !!.) with
          | None => None
          | Some svc =>
              let '(added, tbl1) := hashtable_add tbl (SERVICE.name svc) in
              if added =? 0 then Some (1, Some tbl1)
              else detect_loops_filters (detect_loops fuel' svcs)
                     (SERVICE.filters svc) (Some tbl1)
          end
      end
  end.

(** The depth of the recursion is at most the number of services, plus
    one for the call that finds its name in the table. *)
Definition loop_fuel (svcs : gmap addr SERVICE) : nat := S (size svcs).

(** ** Session creation *)

Definition get_services : M (gmap addr SERVICE) := fun w => Some (services w, w).

Definition deref_service (p : option addr) : M SERVICE :=
  match p with
  | Some a => get_service a
  | None => fault
  end.

(** The two activation gates of [newSession]. *)
Definition source_gate (my_instance : TEE_INSTANCE) (session : addr)
    (my_session : TEE_SESSION) : M TEE_SESSION :=
  match TEE_INSTANCE.source my_instance, session_get_remote session with
  | Some source, Some remote =>
      if negb (String.eqb remote source) then
        emit (EvLog LOG_WARNING "Tee filter is not active.");;
        ret (TEE_SESSION.set_active 0 my_session)
      else ret my_session
  | _, _ => ret my_session
  end.

Definition user_gate (my_instance : TEE_INSTANCE) (session : addr)
    (my_session : TEE_SESSION) : M TEE_SESSION :=
  match TEE_INSTANCE.userName my_instance, session_getUser session with
  | Some name, Some userName =>
      if negb (String.eqb userName name) then
        emit (EvLog LOG_WARNING "Tee filter is not active.");;
        ret (TEE_SESSION.set_active 0 my_session)
      else ret my_session
  | _, _ => ret my_session
  end.

Definition newSession (my_instance : TEE_INSTANCE) (session : addr)
    : M (option TEE_SESSION) :=
  do ses <- get_session session;
  do target <- deref_service (TEE_INSTANCE.service my_instance);
  do own <- get_service (SESSION.service ses);
  if String.eqb (SERVICE.name target) (SERVICE.name own) then
    emit (EvLog LOG_ERR "Recursive use of tee filter in service.");;
    ret None
  else
    do ok <- try_alloc;
    do svcs <- get_services;
    let ht := if ok : bool then Some (∅ : HASHTABLE) else None in
    match detect_loops (loop_fuel svcs) svcs my_instance ht
            (Some (SESSION.service ses)) with
    | None => fault
    | Some (is_loop, _) =>
        emit EvHashtableFree;;
        if truthy is_loop then
          emit (EvLog LOG_ERR "Recursive use of tee filter in service.");;
          ret None
        else
          do ok <- try_alloc;
          if ok : bool then
            let my_session :=
              TEE_SESSION.set_client_dcb (SESSION.client_dcb ses)
                (TEE_SESSION.set_active 1 (TEE_SESSION.zero my_instance)) in
            do my_session <- source_gate my_instance session my_session;
            do my_session <- user_gate my_instance session my_session;
            if truthy (TEE_SESSION.active my_session) then
              emit (EvDcbClone (SESSION.client_dcb ses));;
              do dcb <- call_heap (dcb_clone (SESSION.client_dcb ses));
              match dcb with
              | None =>
                  freeSession my_instance my_session;;
                  emit (EvLog LOG_ERR
                          "Creating client DCB for Tee filter failed. Terminating session.");;
                  ret None
              | Some dcb =>
                  emit (EvSessionAlloc (TEE_INSTANCE.service my_instance) dcb);;
                  do bses <- call_heap
                               (session_alloc (TEE_INSTANCE.service my_instance) dcb);
                  match bses with
                  | None =>
                      emit (EvDcbClose dcb);;
                      freeSession my_instance my_session;;
                      emit (EvLog LOG_ERR
                              "Creating client session for Tee filter failed. Terminating session.");;
                      ret None
                  | Some bses =>
                      ret (Some (TEE_SESSION.set_branch_dcb (Some dcb)
                                   (TEE_SESSION.set_branch_session (Some bses)
                                      my_session)))
                  end
              end
            else ret (Some my_session)
          else ret None
    end.

(** ** Instance construction *)

(** [tolower] on the ASCII letters, for [strcasecmp]. *)
Definition tolower (c : ascii) : ascii :=
  let n := N_of_ascii c in
  if ((65 <=? n) && (n <=? 90))%N then ascii_of_N (n + 32) else c.

Fixpoint lowercase (s : string) : string :=
  match s with
  | EmptyString => EmptyString
  | String c s' => String (tolower c) (lowercase s')
  end.

(** [!strcasecmp(a, b)]. *)
Definition strcasecmp_eq (a b : string) : bool :=
  String.eqb (lowercase a) (lowercase b).

Definition regex_zero : regex_t := mk_regex "" 0.

Definition set_service (v : option addr) (i : TEE_INSTANCE) : TEE_INSTANCE :=
  let '(TEE_INSTANCE.mk _ b c d e f g) := i in TEE_INSTANCE.mk v b c d e f g.
Definition set_source (v : option string) (i : TEE_INSTANCE) : TEE_INSTANCE :=
  let '(TEE_INSTANCE.mk a _ c d e f g) := i in TEE_INSTANCE.mk a v c d e f g.
Definition set_userName (v : option string) (i : TEE_INSTANCE) : TEE_INSTANCE :=
  let '(TEE_INSTANCE.mk a b _ d e f g) := i in TEE_INSTANCE.mk a b v d e f g.
Definition set_match (v : option string) (i : TEE_INSTANCE) : TEE_INSTANCE :=
  let '(TEE_INSTANCE.mk a b c _ e f g) := i in TEE_INSTANCE.mk a b c v e f g.
Definition set_re (v : regex_t) (i : TEE_INSTANCE) : TEE_INSTANCE :=
  let '(TEE_INSTANCE.mk a b c d _ f g) := i in TEE_INSTANCE.mk a b c d v f g.
Definition set_nomatch (v : option string) (i : TEE_INSTANCE) : TEE_INSTANCE :=
  let '(TEE_INSTANCE.mk a b c d e _ g) := i in TEE_INSTANCE.mk a b c d e v g.
Definition set_nore (v : regex_t) (i : TEE_INSTANCE) : TEE_INSTANCE :=
  let '(TEE_INSTANCE.mk a b c d e f _) := i in TEE_INSTANCE.mk a b c d e f v.

(** One round of the [for] loop over [params]. *)
Definition read_param (p : FILTER_PARAMETER) (my_instance : TEE_INSTANCE)
    : M TEE_INSTANCE :=
  if String.eqb (FILTER_PARAMETER.name p) "service" then
    let svc := service_find (FILTER_PARAMETER.value p) in
    (if non_null svc then ret tt
     else emit (EvLog LOG_ERR ("tee: service not found: " ++ FILTER_PARAMETER.value p)));;
    ret (set_service svc my_instance)
  else if String.eqb (FILTER_PARAMETER.name p) "match" then
    ret (set_match (Some (FILTER_PARAMETER.value p)) my_instance)
  else if String.eqb (FILTER_PARAMETER.name p) "exclude" then
    ret (set_nomatch (Some (FILTER_PARAMETER.value p)) my_instance)
  else if String.eqb (FILTER_PARAMETER.name p) "source" then
    ret (set_source (Some (FILTER_PARAMETER.value p)) my_instance)
  else if String.eqb (FILTER_PARAMETER.name p) "user" then
    ret (set_userName (Some (FILTER_PARAMETER.value p)) my_instance)
  else if negb (filter_standard_parameter (FILTER_PARAMETER.name p)) then
    emit (EvLog LOG_ERR ("tee: Unexpected parameter: " ++ FILTER_PARAMETER.name p));;
    ret my_instance
  else ret my_instance.

Fixpoint read_params (params : list FILTER_PARAMETER) (my_instance : TEE_INSTANCE)
    : M TEE_INSTANCE :=
  match params with
  | [] => ret my_instance
  | p :: rest =>
      do my_instance <- read_param p my_instance;
      read_params rest my_instance
  end.

(** One round of the [for] loop over [options]. *)
Definition read_option (o : string) (cflags : Z) : M Z :=
  if strcasecmp_eq o "ignorecase" then ret (Z.lor cflags REG_ICASE)
  else if strcasecmp_eq o "case" then ret (Z.land cflags (Z.lnot REG_ICASE))
  else if strcasecmp_eq o "extended" then ret (Z.lor cflags REG_EXTENDED)
  else
    emit (EvLog LOG_ERR ("tee: unsupported option: " ++ o));;
    ret cflags.

Fixpoint read_options (options : list string) (cflags : Z) : M Z :=
  match options with
  | [] => ret cflags
  | o :: rest =>
      do cflags <- read_option o cflags;
      read_options rest cflags
  end.

(** [MXS_FREE(p)] of a string of the instance; nothing for [NULL]. *)
Definition mxs_free (what : storage) (p : option string) : M unit :=
  if non_null p then emit (EvFree what) else ret tt.

(** [regcomp(&re, pattern, cflags)] is non-zero. *)
Definition regcomp_fails (pattern : option string) (cflags : Z) : bool :=
  match pattern with
  | Some p => truthy (regcomp p cflags)
  | None => false
  end.

Definition compiled (pattern : option string) (cflags : Z) (old : regex_t)
    : regex_t :=
  match pattern with
  | Some p => mk_regex p cflags
  | None => old
  end.

Definition createInstance (name : string) (options : option (list string))
    (params : option (list FILTER_PARAMETER)) : M (option TEE_INSTANCE) :=
  do ok <- try_alloc;
  if ok : bool then
    (if non_null options then
       emit (EvLog LOG_ERR
               "tee: The tee filter has been passed an option, this filter does not support any options.")
     else ret tt);;
    let my_instance :=
      TEE_INSTANCE.mk None None None None regex_zero None regex_zero in
    do my_instance <-
      match params with
      | Some ps => read_params ps my_instance
      | None => ret my_instance
      end;
    do cflags <-
      match options with
      | Some os => read_options os REG_ICASE
      | None => ret REG_ICASE
      end;
    if negb (non_null (TEE_INSTANCE.service my_instance)) then
      mxs_free ST_match (TEE_INSTANCE.match_ my_instance);;
      mxs_free ST_source (TEE_INSTANCE.source my_instance);;
      emit (EvFree ST_instance);;
      ret None
    else if regcomp_fails (TEE_INSTANCE.match_ my_instance) cflags then
      emit (EvLog LOG_ERR "tee: Invalid regular expression for the match parameter.");;
      mxs_free ST_match (TEE_INSTANCE.match_ my_instance);;
      mxs_free ST_nomatch (TEE_INSTANCE.nomatch my_instance);;
      mxs_free ST_source (TEE_INSTANCE.source my_instance);;
      emit (EvFree ST_instance);;
      ret None
    else
      let my_instance :=
        set_re (compiled (TEE_INSTANCE.match_ my_instance) cflags
                  (TEE_INSTANCE.re my_instance)) my_instance in
      if regcomp_fails (TEE_INSTANCE.nomatch my_instance) cflags then
        emit (EvLog LOG_ERR "tee: Invalid regular expression for the nomatch paramter.");;
        (if non_null (TEE_INSTANCE.match_ my_instance) then
           emit (EvRegfree (TEE_INSTANCE.re my_instance));;
           emit (EvFree ST_match)
         else ret tt);;
        mxs_free ST_nomatch (TEE_INSTANCE.nomatch my_instance);;
        mxs_free ST_source (TEE_INSTANCE.source my_instance);;
        emit (EvFree ST_instance);;
        ret None
      else
        ret (Some (set_nore (compiled (TEE_INSTANCE.nomatch my_instance) cflags
                               (TEE_INSTANCE.nore my_instance)) my_instance))
  else ret None.

(** ** Diagnostics *)

Definition diagnostic (my_instance : TEE_INSTANCE)
    (my_session : option TEE_SESSION) (dcb : addr) : M unit :=
  (match TEE_INSTANCE.source my_instance with
   | Some s => emit (EvDcbPrintf dcb (DiagSource s))
   | None => ret tt
   end);;
  do svc <- deref_service (TEE_INSTANCE.service my_instance);
  emit (EvDcbPrintf dcb (DiagService (SERVICE.name svc)));;
  (match TEE_INSTANCE.userName my_instance with
   | Some s => emit (EvDcbPrintf dcb (DiagUser s))
   | None => ret tt
   end);;
  (match TEE_INSTANCE.match_ my_instance with
   | Some s => emit (EvDcbPrintf dcb (DiagMatch s))
   | None => ret tt
   end);;
  (match TEE_INSTANCE.nomatch my_instance with
   | Some s => emit (EvDcbPrintf dcb (DiagNomatch s))
   | None => ret tt
   end);;
  match my_session with
  | Some s =>
      emit (EvDcbPrintf dcb (DiagDuped (TEE_SESSION.n_duped s)));;
      emit (EvDcbPrintf dcb (DiagRejected (TEE_SESSION.n_rejected s)))
  | None => ret tt
  end.

(** ** The calls of the core on a live session *)

Inductive call :=
| Call_setDownstream (downstream : DOWNSTREAM)
| Call_setUpstream (upstream : UPSTREAM)
| Call_routeQuery (queue : GWBUF)
| Call_clientReply (reply : GWBUF)
| Call_diagnostic (dcb : addr)
| Call_closeSession.

Definition run_call (my_instance : TEE_INSTANCE) (c : call)
    (my_session : TEE_SESSION) : M TEE_SESSION :=
  match c with
  | Call_setDownstream d => ret (setDownstream my_session d)
  | Call_setUpstream u => ret (setUpstream my_session u)
  | Call_routeQuery queue =>
      do r <- routeQuery my_instance my_session queue;
      ret (snd r)
  | Call_clientReply reply =>
      clientReply my_instance my_session reply;;
      ret my_session
  | Call_diagnostic dcb =>
      diagnostic my_instance (Some my_session) dcb;;
      ret my_session
  | Call_closeSession => closeSession my_instance my_session
  end.

(** One step in the life of a session: a call of the core on it, or any
    change of the world by the rest of the proxy, which has no pointer
    to the session structure. *)
Inductive step (my_instance : TEE_INSTANCE)
  : TEE_SESSION * World -> TEE_SESSION * World -> Prop :=
| step_call c s w s' w' :
    run_call my_instance c s w = Some (s', w') ->
    step my_instance (s, w) (s', w')
| step_world s w w' :
    step my_instance (s, w) (s, w').

(** * The vocabulary of the properties *)

(** ** Query router *)

(** The session after [n_duped++]. *)
Definition count_duped (s : TEE_SESSION) : TEE_SESSION :=
  TEE_SESSION.set_n_duped (wrap_int (TEE_SESSION.n_duped s + 1)) s.

(** The events of a dispatch whose clone is dropped. *)
Definition dropped_clone_events (buffer clone : GWBUF) : list event :=
  [ EvDownRouteQuery buffer;
    EvLog LOG_INFO "Closed tee filter session: Child session in invalid state.";
    EvGwbufFree clone ].

(** ** The session structure under the calls of the core *)

(** The fields that no call of the core writes, and [active], which the
    calls only ever clear. *)
Definition keeps_private (s s' : TEE_SESSION) : Prop :=
  TEE_SESSION.waiting s' = TEE_SESSION.waiting s
  /\ TEE_SESSION.branch_session s' = TEE_SESSION.branch_session s
  /\ TEE_SESSION.branch_dcb s' = TEE_SESSION.branch_dcb s
  /\ (TEE_SESSION.active s' = TEE_SESSION.active s
      \/ TEE_SESSION.active s' = 0).

(** The events that [closeSession] adds for the branch session. *)
Definition close_branch_events (b : option addr) : list event :=
  match b with
  | Some bsession =>
      [ EvSpinlockAcquire (ses_lock bsession);
        EvSpinlockRelease (ses_lock bsession);
        EvRouterCloseSession bsession ]
  | None => []
  end.

Definition is_client_write (e : event) : bool :=
  match e with EvDcbWrite _ _ => true | _ => false end.

(** ** Session creation *)

(** The next [n] checked allocations succeed. *)
Definition allocations_succeed (n : nat) (w : World) : Prop :=
  forall i, (i < n)%nat -> alloc_tape w !! i <> Some false.

(** The client fails an activation gate: a source address is configured,
    the core knows the client's address ([session_get_remote] is not
    [NULL]) and it is another one; or a user name is configured, the
    core knows the client's user ([session_getUser] is not [NULL]) and
    it is another one. *)
Definition gate_mismatch (my_instance : TEE_INSTANCE) (session : addr) : Prop :=
  (exists source remote,
      TEE_INSTANCE.source my_instance = Some source
      /\ session_get_remote session = Some remote
      /\ remote <> source)
  \/ (exists name user,
         TEE_INSTANCE.userName my_instance = Some name
         /\ session_getUser session = Some user
         /\ user <> name).

(** The session passes the two recursion checks of [newSession]: the
    service of the session is not the target of the instance, and
    [detect_loops] returns [false]. *)
Definition no_recursion (my_instance : TEE_INSTANCE) (session : addr)
    (w : World) : Prop :=
  exists ses t target own ht,
    sessions (heap w) !! session = Some ses
    /\ TEE_INSTANCE.service my_instance = Some t
    /\ services w !! t = Some target
    /\ services w !! SESSION.service ses = Some own
    /\ SERVICE.name target <> SERVICE.name own
    /\ detect_loops (loop_fuel (services w)) (services w) my_instance
         (Some ∅) (Some (SESSION.service ses)) = Some (0, ht).



(** ** Loop detector *)

(** The names of the configured services. *)
Definition service_names (svcs : gmap addr SERVICE) : gset string :=
  map_img (SERVICE.name <$> svcs).

(** Every resolved tee filter of every service points to a service. *)
Definition services_wf (svcs : gmap addr SERVICE) : Prop :=
  forall a svc f ninst,
    svcs !! a = Some svc ->
    In f (SERVICE.filters svc) ->
    FILTER_DEF.module f = "tee" ->
    FILTER_DEF.filter f = Some ninst ->
    exists t, TEE_INSTANCE.service ninst = Some t /\ is_Some (svcs !! t).

(** The result of a walk that ends: a truth value and a larger table. *)
Definition walk_result (ht : HASHTABLE) (res : option (Z * option HASHTABLE))
    : Prop :=
  exists r ht', res = Some (r, Some ht') /\ ht ⊆ ht' /\ (r = 0 \/ r = 1).

(** ** Configurations of services *)

Definition recursion_error : event :=
  EvLog LOG_ERR "Recursive use of tee filter in service.".

(** A tee instance that duplicates to the service at [t], and a filter
    definition holding it. *)
Definition tee_instance_to (t : addr) : TEE_INSTANCE :=
  TEE_INSTANCE.mk (Some t) None None None regex_zero None regex_zero.
Definition tee_to (t : addr) : FILTER_DEF :=
  FILTER_DEF.mk "tee" (Some (tee_instance_to t)).
(** A tee filter whose instance has not been created yet. *)
Definition tee_unresolved : FILTER_DEF := FILTER_DEF.mk "tee" None.

(** Services A, B and C at the addresses 1, 2 and 3. *)
Definition chain_ABA : gmap addr SERVICE :=
  <[1%nat := SERVICE.mk "A" [tee_to 2]]>
    (<[2%nat := SERVICE.mk "B" [tee_to 1]]> ∅).
Definition chain_ABC : gmap addr SERVICE :=
  <[1%nat := SERVICE.mk "A" [tee_to 2]]>
    (<[2%nat := SERVICE.mk "B" [tee_to 3]]>
       (<[3%nat := SERVICE.mk "C" []]> ∅)).
Definition chain_AB_unresolved : gmap addr SERVICE :=
  <[1%nat := SERVICE.mk "A" [tee_to 2]]>
    (<[2%nat := SERVICE.mk "B" [tee_unresolved]]> ∅).

(** A client session at address 10 on service A, with its DCB at 20. *)
Definition client_session : SESSION :=
  SESSION.mk SESSION_STATE_ROUTER_READY 1 (Some 20%nat) 1%nat.
Definition client_heap : Heap :=
  mkHeap {[10%nat := client_session]} {[20%nat := DCB.mk DCB_STATE_POLLING]}.
Definition config_world (svcs : gmap addr SERVICE) : World :=
  mkWorld client_heap svcs [] [] [].

(** ** Instance construction *)

(** The value that the configuration gives a parameter: the one of its
    last occurrence in [params]. *)
Fixpoint param_value (key : string) (params : list FILTER_PARAMETER)
    : option string :=
  match params with
  | [] => None
  | p :: rest =>
      match param_value key rest with
      | Some v => Some v
      | None =>
          if String.eqb (FILTER_PARAMETER.name p) key
          then Some (FILTER_PARAMETER.value p)
          else None
      end
  end.

Definition is_log (e : event) : bool :=
  match e with EvLog _ _ => true | _ => false end.

(** A run that only writes to the log. *)
Definition logs_only {A} (m : M A) (w : World) (a : A) : Prop :=
  exists evs,
    m w = Some (a, set_trace (trace w ++ evs) w)
    /\ Forall (fun e => is_log e = true) evs.

Arguments logs_only : simpl never.

(** The fields of the instance after one parameter. *)
Definition after_param (p : FILTER_PARAMETER) (i i1 : TEE_INSTANCE) : Prop :=
  let named k := String.eqb (FILTER_PARAMETER.name p) k in
  let v := FILTER_PARAMETER.value p in
  TEE_INSTANCE.service i1 = (if named "service" then service_find v
                             else TEE_INSTANCE.service i)
  /\ TEE_INSTANCE.match_ i1 = (if named "match" then Some v
                               else TEE_INSTANCE.match_ i)
  /\ TEE_INSTANCE.nomatch i1 = (if named "exclude" then Some v
                                else TEE_INSTANCE.nomatch i)
  /\ TEE_INSTANCE.source i1 = (if named "source" then Some v
                               else TEE_INSTANCE.source i)
  /\ TEE_INSTANCE.userName i1 = (if named "user" then Some v
                                 else TEE_INSTANCE.userName i)
  /\ TEE_INSTANCE.re i1 = TEE_INSTANCE.re i
  /\ TEE_INSTANCE.nore i1 = TEE_INSTANCE.nore i.

(** The fields of the instance after all the parameters. *)
Definition after_params (params : list FILTER_PARAMETER) (i i1 : TEE_INSTANCE)
    : Prop :=
  TEE_INSTANCE.service i1
  = match param_value "service" params with
    | Some v => service_find v
    | None => TEE_INSTANCE.service i
    end
  /\ TEE_INSTANCE.match_ i1
     = from_option Some (TEE_INSTANCE.match_ i) (param_value "match" params)
  /\ TEE_INSTANCE.nomatch i1
     = from_option Some (TEE_INSTANCE.nomatch i) (param_value "exclude" params)
  /\ TEE_INSTANCE.source i1
     = from_option Some (TEE_INSTANCE.source i) (param_value "source" params)
  /\ TEE_INSTANCE.userName i1
     = from_option Some (TEE_INSTANCE.userName i) (param_value "user" params)
  /\ TEE_INSTANCE.re i1 = TEE_INSTANCE.re i
  /\ TEE_INSTANCE.nore i1 = TEE_INSTANCE.nore i.

(** What one option does to the flags of [regcomp]. *)
Definition option_cflags (cflags : Z) (o : string) : Z :=
  if strcasecmp_eq o "ignorecase" then Z.lor cflags REG_ICASE
  else if strcasecmp_eq o "case" then Z.land cflags (Z.lnot REG_ICASE)
  else if strcasecmp_eq o "extended" then Z.lor cflags REG_EXTENDED
  else cflags.

(** The flags that the patterns are compiled with. *)
Definition configured_cflags (options : option (list string)) : Z :=
  fold_left option_cflags (default [] options) REG_ICASE.

Definition blank_instance : TEE_INSTANCE :=
  TEE_INSTANCE.mk None None None None regex_zero None regex_zero.

(** The instance that [createInstance] returns for the fields [i1] read
    from the parameters: the two patterns compiled. *)
Definition with_patterns (cflags : Z) (i1 : TEE_INSTANCE) : TEE_INSTANCE :=
  let i2 := set_re (compiled (TEE_INSTANCE.match_ i1) cflags (TEE_INSTANCE.re i1)) i1 in
  set_nore (compiled (TEE_INSTANCE.nomatch i2) cflags (TEE_INSTANCE.nore i2)) i2.

(** The errors of a configuration that make [createInstance] fail: no
    [service] parameter or one that names no service; a [match] pattern
    that does not compile; an [exclude] pattern that does not compile. *)
Definition config_error (options : option (list string))
    (params : option (list FILTER_PARAMETER)) : Prop :=
  (param_value "service" (default [] params) ≫= service_find) = None
  \/ (exists m, param_value "match" (default [] params) = Some m
                /\ regcomp m (configured_cflags options) <> 0)
  \/ (exists n, param_value "exclude" (default [] params) = Some n
                /\ regcomp n (configured_cflags options) <> 0).

(** ** Orphan reaper *)

(** The test of [orphan_free] on a node: stopping, no reference and no
    client handle. *)
Definition quiescent (s : SESSION) : Prop :=
  SESSION.state s = SESSION_STATE_STOPPING
  /\ SESSION.refcount s = 0
  /\ SESSION.client_dcb s = None.

Definition quiescentb (s : SESSION) : bool :=
  bool_decide (SESSION.state s = SESSION_STATE_STOPPING)
  && (SESSION.refcount s =? 0)
  && negb (non_null (SESSION.client_dcb s)).

Definition to_be_freed (m : gmap addr SESSION) (p : addr) : Prop :=
  SESSION.state <$> m !! p = Some SESSION_STATE_TO_BE_FREED.

#[local] Instance to_be_freed_dec m p : Decision (to_be_freed m p).
Proof. unfold to_be_freed. apply _. Defined.

(** The sessions after the scan has looked at the node of [p]. *)
Definition mark (m : gmap addr SESSION) (p : addr) : gmap addr SESSION :=
  match m !! p with
  | Some s =>
      if quiescentb s
      then <[p := SESSION.set_state SESSION_STATE_TO_BE_FREED s]> m
      else m
  | None => m
  end.

Definition mark_all (ptrs : list addr) (m : gmap addr SESSION)
    : gmap addr SESSION :=
  foldl mark m ptrs.

Definition free_all (finished : list addr) (m : gmap addr SESSION)
    : gmap addr SESSION :=
  foldl (fun m p => delete p m) m finished.

Definition with_sessions (m : gmap addr SESSION) (w : World) : World :=
  set_heap (set_sessions m (heap w)) w.

Definition release_events (p : addr) : list event :=
  [EvRouterFreeSession p; EvFreeSession p; EvFreeOrphan p].

(** The sessions whose memory a trace releases, in the order of the
    calls. *)
Fixpoint freed_sessions (tr : list event) : list addr :=
  match tr with
  | [] => []
  | EvFreeSession p :: tr' => p :: freed_sessions tr'
  | _ :: tr' => freed_sessions tr'
  end.

(** The registry as the calls on it leave it: a session is handed over
    once, by the session structure that owns it, and is not handed over
    again after it has been freed; between the calls the rest of the
    proxy does what it likes to its sessions. *)
Inductive registry_step : World -> World -> Prop :=
| registry_create ses w w' :
    ses ∉ allOrphans w ->
    ses ∉ freed_sessions (trace w) ->
    create_orphan ses w = Some (tt, w') ->
    registry_step w w'
| registry_scan w w' :
    orphan_free w = Some (tt, w') ->
    registry_step w w'
| registry_world w w' :
    allOrphans w' = allOrphans w ->
    trace w' = trace w ->
    registry_step w w'.

(** No session is twice in the registry, or in the registry and freed,
    or freed twice. *)
Definition registry_inv (w : World) : Prop :=
  NoDup (allOrphans w ++ freed_sessions (trace w)).

(** Every node of the registry holds a session that is allocated. *)
Definition registry_allocated (w : World) : Prop :=
  forall q, q ∈ allOrphans w -> is_Some (sessions (heap w) !! q).

Definition is_branch_route (e : event) : bool :=
  match e with EvSessionRouteQuery _ _ => true | _ => false end.

(** ** Session state and closing *)

(** The commands for which [reset_session_state] expects a reply of
    more than one packet. *)
Definition multipacket_command (c : Z) : bool :=
  (c =? 0x1b) || (c =? 0x03) || (c =? 0x16) || (c =? 0x17) || (c =? 0x04)
  || (c =? 0x0a).

(** The error packet that [closeSession] writes to a client that waits
    for a reply. *)
Definition session_closed_reply : GWBUF :=
  modutil_create_mysql_err_msg 1 0 1 "00000" "Session closed.".

(** The client of the session waits for the reply to a command other
    than [COM_QUIT] and its DCB, at [dcb], is polling. *)
Definition closed_mid_query (s : TEE_SESSION) (w : World) (dcb : addr) : Prop :=
  (TEE_SESSION.waiting s).1 = true
  /\ TEE_SESSION.command s <> 0x01
  /\ TEE_SESSION.client_dcb s = Some dcb
  /\ DCB.state <$> dcbs (heap w) !! dcb = Some DCB_STATE_POLLING.

(** ** Freeing a session *)

(** What [freeSession] releases besides the branch session: the dummy
    filter definition and the reply buffer, when the session has them,
    and the session structure. *)
Definition free_aux_events (s : TEE_SESSION) : list event :=
  (match TEE_SESSION.dummy_filterdef s with
   | Some fdef => [EvFilterFree fdef]
   | None => []
   end
   ++ match TEE_SESSION.tee_replybuf s with
      | Some buf => [EvGwbufFree buf]
      | None => []
      end
   ++ [EvFreeTeeSession])%list.

(** The world in which [freeSession] starts its scan of the registry,
    after it has dealt with the branch session in the world [w1]. *)
Definition before_scan (s : TEE_SESSION) (w1 : World) : World :=
  set_trace (trace w1 ++ free_aux_events s) w1.

(** ** Locks *)

#[global] Instance lock_eq_dec : EqDecision lock.
Proof. solve_decision. Defined.

(** The discipline of a trace under the lock [held] at its start: a
    lock is taken only when none is held, the lock released is the one
    held, no other call leaves the file while a lock is held, and no
    lock is held at the end. *)
Fixpoint locks_ok (held : option lock) (tr : list event) : bool :=
  match tr with
  | [] => negb (non_null held)
  | EvSpinlockAcquire l :: tr' => negb (non_null held) && locks_ok (Some l) tr'
  | EvSpinlockRelease l :: tr' =>
      bool_decide (held = Some l) && locks_ok None tr'
  | _ :: tr' => negb (non_null held) && locks_ok held tr'
  end.

Definition is_lock_event (e : event) : bool :=
  match e with
  | EvSpinlockAcquire _ | EvSpinlockRelease _ => true
  | _ => false
  end.

(** An event that takes no lock and releases no session of the core. *)
Definition is_quiet (e : event) : bool :=
  match e with
  | EvSpinlockAcquire _ | EvSpinlockRelease _ | EvFreeSession _ => false
  | _ => true
  end.

(** ** Fields that the entry points leave alone *)

(** The fields of the session structure that no call of the core on a
    live session writes. *)
Definition keeps_unused (s s' : TEE_SESSION) : Prop :=
  TEE_SESSION.n_rejected s' = TEE_SESSION.n_rejected s
  /\ TEE_SESSION.dummy_filterdef s' = TEE_SESSION.dummy_filterdef s
  /\ TEE_SESSION.tee_replybuf s' = TEE_SESSION.tee_replybuf s
  /\ TEE_SESSION.command s' = TEE_SESSION.command s
  /\ TEE_SESSION.client_dcb s' = TEE_SESSION.client_dcb s
  /\ TEE_SESSION.instance s' = TEE_SESSION.instance s.

Definition is_aux_release (e : event) : bool :=
  match e with
  | EvFilterFree _ | EvGwbufFree _ => true
  | _ => false
  end.

(** ** Options of the instance *)

(** Whether the patterns are matched without regard to case: they are
    unless the last of the options [ignorecase] and [case] is [case]. *)
Definition ignores_case (options : list string) : bool :=
  fold_left
    (fun b o =>
       if strcasecmp_eq o "ignorecase" then true
       else if strcasecmp_eq o "case" then false
       else b)
    options true.

Definition uses_extended (options : list string) : bool :=
  existsb (fun o => strcasecmp_eq o "extended") options.

(** The flags of [regcomp] for the options. *)
Definition option_flags (options : list string) : Z :=
  Z.lor (if ignores_case options then REG_ICASE else 0)
        (if uses_extended options then REG_EXTENDED else 0).

(** ** Session creation *)

(** The session structure of [newSession] before the activation gates,
    for the client session [ses]. *)
Definition fresh_session (my_instance : TEE_INSTANCE) (ses : SESSION)
    : TEE_SESSION :=
  TEE_SESSION.set_client_dcb (SESSION.client_dcb ses)
    (TEE_SESSION.set_active 1 (TEE_SESSION.zero my_instance)).

(** The world after the recursion checks of [newSession] and its two
    allocations: the hash table is gone again. *)
Definition after_checks (w : World) : World :=
  set_alloc_tape (tail (tail (alloc_tape w)))
    (set_trace (trace w ++ [EvHashtableFree]) w).

Definition clone_error : event :=
  EvLog LOG_ERR "Creating client DCB for Tee filter failed. Terminating session.".
Definition alloc_error : event :=
  EvLog LOG_ERR "Creating client session for Tee filter failed. Terminating session.".

(** ** Chains of tee filters *)

(** The service at [a] has a tee filter, with its instance created,
    that duplicates to the service at [b]. *)
Definition tees_to (svcs : gmap addr SERVICE) (a b : addr) : Prop :=
  exists svc f ninst,
    svcs !! a = Some svc
    /\ In f (SERVICE.filters svc)
    /\ FILTER_DEF.module f = "tee"
    /\ FILTER_DEF.filter f = Some ninst
    /\ TEE_INSTANCE.service ninst = Some b.

(** A tee filter whose instance has been created. *)
Definition resolved_tee (f : FILTER_DEF) : bool :=
  String.eqb (FILTER_DEF.module f) "tee" && non_null (FILTER_DEF.filter f).

(** The service with its resolved tee filters and no other filter. *)
Definition only_resolved_tees (svc : SERVICE) : SERVICE :=
  SERVICE.mk (SERVICE.name svc)
    (List.filter resolved_tee (SERVICE.filters svc)).

(** * Scenarios

    Stand-ins for the collaborators, and the configurations of the
    spec's scenarios, on which the theorems are run. *)

(** A pattern compiles unless it is an open parenthesis; it matches the
    texts that start with it. *)
Definition sim_regcomp (pattern : string) (cflags : Z) : Z :=
  if String.eqb pattern "(" then 1 else 0.
Definition sim_regexec (re : regex_t) (text : string) : Z :=
  if String.prefix (re_pattern re) text then 0 else 1.

Fixpoint string_of_bytes (b : list Z) : string :=
  match b with
  | [] => EmptyString
  | c :: b' => String (ascii_of_N (Z.to_N c)) (string_of_bytes b')
  end.
Fixpoint bytes_of_string (s : string) : list Z :=
  match s with
  | EmptyString => []
  | String c s' => Z.of_N (N_of_ascii c) :: bytes_of_string s'
  end.

(** A [COM_QUERY] packet: three bytes of length, the sequence number,
    the command byte [0x03] and the text. *)
Definition com_query (sql : string) : GWBUF :=
  ([Z.of_nat (S (String.length sql)); 0; 0; 0; 0x03] ++ bytes_of_string sql)%list.
(** A [COM_QUIT] packet. *)
Definition com_quit : GWBUF := [1; 0; 0; 0; MYSQL_COM_QUIT].

Definition sim_get_SQL (b : GWBUF) : option string :=
  if (4 <? GWBUF_LENGTH b) && (GWBUF_DATA b 4 =? 0x03)
  then Some (string_of_bytes (drop 5 b))
  else None.
Definition sim_err_msg (_ _ _ : Z) (_ msg : string) : GWBUF :=
  bytes_of_string msg.
Definition sim_service_find (name : string) : option addr :=
  if String.eqb name "branch_svc" then Some 2%nat else None.
Definition sim_standard_parameter (name : string) : bool :=
  String.eqb name "type" || String.eqb name "module".
Definition sim_remote (_ : addr) : option string := Some "10.0.0.9".
Definition sim_user (_ : addr) : option string := Some "app".
Definition sim_dcb_clone (_ : option addr) (h : Heap) : option addr * Heap :=
  (Some 21%nat,
   mkHeap (sessions h) (<[21%nat := DCB.mk DCB_STATE_POLLING]> (dcbs h))).
Definition sim_session_alloc (svc : option addr) (dcb : addr) (h : Heap)
    : option addr * Heap :=
  (Some 11%nat,
   mkHeap (<[11%nat := SESSION.mk SESSION_STATE_ROUTER_READY 1 (Some dcb)
                         (default 0%nat svc)]> (sessions h))
          (dcbs h)).
Definition sim_put_ref (_ : addr) (h : Heap) : unit * Heap := (tt, h).
Definition sim_REG_ICASE : Z := 2.
Definition sim_REG_EXTENDED : Z := 1.

(** The service of the client at 1, with the tee filter that duplicates
    to the branch service at 2. *)
Definition scenario_services : gmap addr SERVICE :=
  <[1%nat := SERVICE.mk "main_svc" [tee_to 2]]>
    (<[2%nat := SERVICE.mk "branch_svc" []]> ∅).
Definition scenario_world : World := config_world scenario_services.

(** [{service: "branch_svc", source: "10.0.0.5"}]. *)
Definition source_instance : TEE_INSTANCE :=
  TEE_INSTANCE.mk (Some 2%nat) (Some "10.0.0.5") None None regex_zero None
    regex_zero.
(** [{service: "branch_svc", match: "SELECT", exclude: "SELECT secret"}]. *)
Definition pattern_instance : TEE_INSTANCE :=
  TEE_INSTANCE.mk (Some 2%nat) None None (Some "SELECT")
    (mk_regex "SELECT" sim_REG_ICASE) (Some "SELECT secret")
    (mk_regex "SELECT secret" sim_REG_ICASE).

(** A downstream that accepts every query, and one during whose call the
    router of the branch session at 11 tears the session down. *)
Definition accepting_downstream : DOWNSTREAM :=
  DOWNSTREAM.mk (fun _ h => (1, h)).
Definition teardown_downstream : DOWNSTREAM :=
  DOWNSTREAM.mk
    (fun _ h =>
       (1, mkHeap (alter (SESSION.set_state SESSION_STATE_STOPPING) 11%nat
                     (sessions h))
                  (dcbs h))).

(** An active session with its branch session at 11, and a world that
    holds that session, ready. *)
Definition branch_session_11 : SESSION :=
  SESSION.mk SESSION_STATE_ROUTER_READY 1 (Some 21%nat) 2%nat.
Definition active_session (d : DOWNSTREAM) : TEE_SESSION :=
  TEE_SESSION.set_down (Some d)
    (TEE_SESSION.set_branch_dcb (Some 21%nat)
       (TEE_SESSION.set_branch_session (Some 11%nat)
          (TEE_SESSION.set_client_dcb (Some 20%nat)
             (TEE_SESSION.set_active 1 (TEE_SESSION.zero (tee_instance_to 2)))))).
Definition active_world : World :=
  mkWorld
    (mkHeap (<[11%nat := branch_session_11]> (sessions client_heap))
            (<[21%nat := DCB.mk DCB_STATE_POLLING]> (dcbs client_heap)))
    scenario_services [] [] [].

(** The same world with the branch session stopping. *)
Definition stopping_world : World :=
  mkWorld
    (mkHeap (<[11%nat := SESSION.set_state SESSION_STATE_STOPPING branch_session_11]>
               (sessions client_heap))
            (<[21%nat := DCB.mk DCB_STATE_POLLING]> (dcbs client_heap)))
    scenario_services [] [] [].

(** A registry with one orphan, the session at 30: stopping, without a
    reference and without a client handle. *)
Definition orphan_30 : SESSION :=
  SESSION.mk SESSION_STATE_STOPPING 0 None 2%nat.
Definition orphan_world : World :=
  mkWorld (mkHeap {[30%nat := orphan_30]} ∅) scenario_services [30%nat] [] [].

(** ** Further configurations *)

(** [{service: "branch_svc", match: "SELECT"}] and
    [{service: "branch_svc", exclude: "SELECT secret"}]. *)
Definition include_instance : TEE_INSTANCE :=
  TEE_INSTANCE.mk (Some 2%nat) None None (Some "SELECT")
    (mk_regex "SELECT" sim_REG_ICASE) None regex_zero.
Definition exclude_instance : TEE_INSTANCE :=
  TEE_INSTANCE.mk (Some 2%nat) None None None regex_zero
    (Some "SELECT secret") (mk_regex "SELECT secret" sim_REG_ICASE).

(** [{service: "branch_svc", source: "10.0.0.9", user: "app"}]: the
    address and the user of the client of the scenarios. *)
Definition matching_instance : TEE_INSTANCE :=
  TEE_INSTANCE.mk (Some 2%nat) (Some "10.0.0.9") (Some "app") None regex_zero
    None regex_zero.

(** A core that cannot clone a DCB, and one that cannot create a
    session. *)
Definition failing_dcb_clone (_ : option addr) (h : Heap) : option addr * Heap :=
  (None, h).
Definition failing_session_alloc (_ : option addr) (_ : addr) (h : Heap)
    : option addr * Heap :=
  (None, h).

(** The world of the active session with the branch session marked as
    to be freed. *)
Definition marked_world : World :=
  mkWorld
    (mkHeap (<[11%nat := SESSION.set_state SESSION_STATE_TO_BE_FREED
                           branch_session_11]>
               (sessions client_heap))
            (<[21%nat := DCB.mk DCB_STATE_POLLING]> (dcbs client_heap)))
    scenario_services [] [] [].

(** The world of the scenarios with no memory for the next allocation. *)
Definition no_memory_world : World := set_alloc_tape [false] scenario_world.

(** The active session after [reset_session_state] on a query. *)
Definition waiting_session : TEE_SESSION :=
  TEE_SESSION.set_command 0x03
    (TEE_SESSION.set_waiting (true, true)
       (TEE_SESSION.set_multipacket (true, true)
          (active_session accepting_downstream))).

(** Service A duplicates to B and to C, and both duplicate to D: no
    chain leads back to a service. *)
Definition diamond : gmap addr SERVICE :=
  <[1%nat := SERVICE.mk "A" [tee_to 2; tee_to 3]]>
    (<[2%nat := SERVICE.mk "B" [tee_to 4]]>
       (<[3%nat := SERVICE.mk "C" [tee_to 4]]>
          (<[4%nat := SERVICE.mk "D" []]> ∅))).

(** A configuration with a match pattern given twice, and options. *)
Definition repeated_params : list FILTER_PARAMETER :=
  [ FILTER_PARAMETER.mk "service" "branch_svc";
    FILTER_PARAMETER.mk "match" "SELECT";
    FILTER_PARAMETER.mk "match" "INSERT";
    FILTER_PARAMETER.mk "user" "app" ].

(** * Properties *)

(** ** Reasoning about runs *)

Lemma bind_Some {A B} (m : M A) (k : A -> M B) w r :
  bind m k w = Some r <-> exists a w1, m w = Some (a, w1) /\ k a w1 = Some r.
Proof.
  unfold bind. split.
  - destruct (m w) as [[a w1]|]; [eauto | discriminate].
  - intros (a & w1 & -> & H). exact H.
Qed.

Lemma truthy_false z : truthy z = false <-> z = 0.
Proof.
  unfold truthy. rewrite negb_false_iff. apply Z.eqb_eq.
Qed.

Lemma truthy_true z : truthy z = true <-> z <> 0.
Proof.
  unfold truthy. rewrite negb_true_iff. apply Z.eqb_neq.
Qed.

(** ** Match engine *)

Lemma required_scan_table c :
  required_scan c required_packets = 1 <-> In c required_commands.
Proof.
  clear_env.
  unfold required_packets, required_commands. cbn [required_scan In].
  unfold MYSQL_COM_QUIT, MYSQL_COM_INITDB, MYSQL_COM_CHANGE_USER,
    MYSQL_COM_STMT_PREPARE, MYSQL_COM_STMT_EXECUTE,
    MYSQL_COM_STMT_SEND_LONG_DATA, MYSQL_COM_STMT_CLOSE,
    MYSQL_COM_STMT_RESET, MYSQL_COM_CONNECT.
  cbn [Z.eqb Pos.eqb].
  repeat match goal with
         | |- context [c =? ?k] => destruct (Z.eqb_spec c k)
         end; split; intros H; try reflexivity; try discriminate;
    try (subst; tauto); try lia.
Qed.

Lemma required_scan_bit c tbl : required_scan c tbl = 0 \/ required_scan c tbl = 1.
Proof.
  induction tbl as [|r tbl IH]; cbn; [now left |].
  destruct (r =? 0); [now left |]. destruct (c =? r); [now right | exact IH].
Qed.

(** [packet_is_required] is non-zero exactly for the packets that carry
    one of the required commands. *)
Lemma packet_is_required_spec b :
  truthy (packet_is_required b) = true <-> has_required_command b.
Proof.
  unfold packet_is_required, has_required_command, command_byte.
  destruct (4 <? GWBUF_LENGTH b).
  - rewrite truthy_true. split.
    + intros H. exists (GWBUF_DATA b 4). split; [reflexivity |].
      apply required_scan_table.
      destruct (required_scan_bit (GWBUF_DATA b 4) required_packets); congruence.
    + intros (c & [= <-] & Hin). apply required_scan_table in Hin. lia.
  - split; [discriminate |]. intros (c & [=] & _).
Qed.

(** C2. A packet is cloned in full when no pattern is configured, and
    when its command byte is one of the required commands (QUIT,
    INIT_DB, CHANGE_USER, STMT_PREPARE, STMT_EXECUTE,
    STMT_SEND_LONG_DATA, STMT_CLOSE, STMT_RESET, CONNECT), whatever the
    include and exclude patterns are. *)
Theorem clone_query_unfiltered_or_required
    (my_instance : TEE_INSTANCE) (my_session : TEE_SESSION) (buffer : GWBUF) :
  (TEE_INSTANCE.match_ my_instance = None
   /\ TEE_INSTANCE.nomatch my_instance = None)
  \/ has_required_command buffer ->
  clone_query my_instance my_session buffer = Some buffer.
Proof.
  intros H. unfold clone_query.
  destruct H as [[-> ->] | H].
  - reflexivity.
  - apply packet_is_required_spec in H. rewrite H, orb_true_r. reflexivity.
Qed.

(** C3. For a packet without a required command, with both an include
    and an exclude pattern configured: when its SQL text can be
    extracted, a clone is produced if and only if the text matches the
    include pattern or does not match the exclude pattern; when the
    extraction fails, no clone is produced. *)
Theorem clone_query_both_patterns
    (my_instance : TEE_INSTANCE) (my_session : TEE_SESSION) (buffer : GWBUF)
    (incl excl : string) :
  TEE_INSTANCE.match_ my_instance = Some incl ->
  TEE_INSTANCE.nomatch my_instance = Some excl ->
  ~ has_required_command buffer ->
  (forall sql, modutil_get_SQL buffer = Some sql ->
     (clone_query my_instance my_session buffer = Some buffer <->
      regexec (TEE_INSTANCE.re my_instance) sql = 0
      \/ regexec (TEE_INSTANCE.nore my_instance) sql <> 0)
     /\ (clone_query my_instance my_session buffer = None <->
         ~ (regexec (TEE_INSTANCE.re my_instance) sql = 0
            \/ regexec (TEE_INSTANCE.nore my_instance) sql <> 0)))
  /\ (modutil_get_SQL buffer = None ->
      clone_query my_instance my_session buffer = None).
Proof.
  clear_env.
  intros Hm Hn Hreq.
  assert (Hp : truthy (packet_is_required buffer) = false).
  { destruct (truthy (packet_is_required buffer)) eqn:E; [| reflexivity].
    apply packet_is_required_spec in E. contradiction. }
  unfold clone_query. rewrite Hm, Hn, Hp. cbn [non_null negb andb orb].
  split.
  - intros sql ->.
    destruct (Z.eqb_spec (regexec (TEE_INSTANCE.re my_instance) sql) 0) as [E1|E1];
      destruct (Z.eqb_spec (regexec (TEE_INSTANCE.nore my_instance) sql) 0) as [E2|E2];
      cbn [negb orb gwbuf_clone_all]; unfold gwbuf_clone_all;
      (split; split; intros H; try reflexivity; try discriminate; try tauto).
  - intros ->. reflexivity.
Qed.

(** ** Query router *)

(** A session that fails the guard of [route_single_query] gets status
    [0] and nothing else happens: the buffer is not forwarded. *)
Lemma route_single_query_not_ready my_instance my_session buffer clone w :
  branch_is_ready my_session w = Some (false, w) ->
  route_single_query my_instance my_session buffer clone w
  = Some ((0, my_session), w).
Proof.
  intros H. unfold route_single_query, bind. rewrite H. reflexivity.
Qed.

Lemma branch_is_ready_inactive my_session w :
  TEE_SESSION.active my_session = 0 ->
  branch_is_ready my_session w = Some (false, w).
Proof.
  intros H. unfold branch_is_ready. rewrite H. reflexivity.
Qed.

Lemma branch_is_ready_no_branch my_session w :
  TEE_SESSION.branch_session my_session = None ->
  branch_is_ready my_session w = Some (false, w).
Proof.
  intros H. unfold branch_is_ready. rewrite H.
  destruct (truthy _); reflexivity.
Qed.

Lemma branch_is_ready_state my_session w b bs :
  truthy (TEE_SESSION.active my_session) = true ->
  TEE_SESSION.branch_session my_session = Some b ->
  sessions (heap w) !! b = Some bs ->
  branch_is_ready my_session w
  = Some (bool_decide (SESSION.state bs = SESSION_STATE_ROUTER_READY), w).
Proof.
  intros Ha Hb Hs. unfold branch_is_ready, bind, get_session.
  rewrite Ha, Hb, Hs. reflexivity.
Qed.

(** A session that is not active, or has no branch session, has none of
    its queries forwarded: [routeQuery] returns [0] and the world is as
    it was. *)
Lemma routeQuery_without_branch my_instance my_session queue w :
  TEE_SESSION.active my_session = 0
  \/ TEE_SESSION.branch_session my_session = None ->
  routeQuery my_instance my_session queue w = Some ((0, my_session), w).
Proof.
  intros H. unfold routeQuery. apply route_single_query_not_ready.
  destruct H; [by apply branch_is_ready_inactive
              | by apply branch_is_ready_no_branch].
Qed.

(** The branch session leaves the ready state while the primary buffer
    is routed downstream: the clone is freed, the session is deactivated
    and the status is [0], whatever the downstream returned. *)
Lemma route_single_query_branch_lost
    my_instance my_session buffer clone w b bs d rval h' bs' :
  truthy (TEE_SESSION.active my_session) = true ->
  TEE_SESSION.branch_session my_session = Some b ->
  TEE_SESSION.down my_session = Some d ->
  sessions (heap w) !! b = Some bs ->
  SESSION.state bs = SESSION_STATE_ROUTER_READY ->
  DOWNSTREAM.routeQuery d buffer (heap w) = (rval, h') ->
  sessions h' !! b = Some bs' ->
  SESSION.state bs' <> SESSION_STATE_ROUTER_READY ->
  route_single_query my_instance my_session buffer (Some clone) w
  = Some ((0, TEE_SESSION.set_active 0 (count_duped my_session)),
          set_trace (trace w ++ dropped_clone_events buffer clone)
            (set_heap h' w)).
Proof.
  intros Ha Hb Hd Hs Hst Hr Hs' Hst'.
  unfold route_single_query.
  apply bind_Some. exists true, w. split.
  { rewrite (branch_is_ready_state _ _ _ _ Ha Hb Hs), bool_decide_true; done. }
  rewrite Hd, Hb. destruct my_session; cbn in *.
  unfold bind, emit, call_heap, get_session, ret; cbn.
  rewrite Hr; cbn. rewrite Hs'; cbn.
  rewrite bool_decide_false by done. cbn.
  unfold set_trace, set_heap, dropped_clone_events; cbn.
  rewrite <- !app_assoc. reflexivity.
Qed.

(** The branch session is still ready after the primary buffer is
    routed: the clone goes to the branch and the status is the one of
    the primary path. *)
Lemma route_single_query_duplicates
    my_instance my_session buffer clone w b bs d rval h' bs' :
  truthy (TEE_SESSION.active my_session) = true ->
  TEE_SESSION.branch_session my_session = Some b ->
  TEE_SESSION.down my_session = Some d ->
  sessions (heap w) !! b = Some bs ->
  SESSION.state bs = SESSION_STATE_ROUTER_READY ->
  DOWNSTREAM.routeQuery d buffer (heap w) = (rval, h') ->
  sessions h' !! b = Some bs' ->
  SESSION.state bs' = SESSION_STATE_ROUTER_READY ->
  route_single_query my_instance my_session buffer (Some clone) w
  = Some ((rval, count_duped my_session),
          set_trace (trace w ++ [EvDownRouteQuery buffer; EvSessionRouteQuery b clone])
            (set_heap h' w)).
Proof.
  intros Ha Hb Hd Hs Hst Hr Hs' Hst'.
  unfold route_single_query.
  apply bind_Some. exists true, w. split.
  { rewrite (branch_is_ready_state _ _ _ _ Ha Hb Hs), bool_decide_true; done. }
  rewrite Hd, Hb. destruct my_session; cbn in *.
  unfold bind, emit, call_heap, get_session, ret; cbn.
  rewrite Hr; cbn. rewrite Hs'; cbn.
  rewrite bool_decide_true by done. cbn.
  unfold set_trace, set_heap; cbn.
  rewrite <- !app_assoc. reflexivity.
Qed.

(** ** What the calls of the core do to the session structure *)

Lemma get_session_Some p w s w' :
  get_session p w = Some (s, w') <-> sessions (heap w) !! p = Some s /\ w' = w.
Proof.
  unfold get_session. destruct (sessions (heap w) !! p); split; intros H; try discriminate; [by simplify_eq | by destruct H as [[= ->] ->] | by destruct H].
Qed.

Lemma get_dcb_Some p w d w' :
  get_dcb p w = Some (d, w') <-> dcbs (heap w) !! p = Some d /\ w' = w.
Proof.
  unfold get_dcb. destruct (dcbs (heap w) !! p); split; intros H; try discriminate; [by simplify_eq | by destruct H as [[= ->] ->] | by destruct H].
Qed.

Lemma get_service_Some p w s w' :
  get_service p w = Some (s, w') <-> services w !! p = Some s /\ w' = w.
Proof.
  unfold get_service. destruct (services w !! p); split; intros H; try discriminate; [by simplify_eq | by destruct H as [[= ->] ->] | by destruct H].
Qed.

Lemma call_heap_Some {A} (f : Heap -> A * Heap) w a w' :
  call_heap f w = Some (a, w') <-> a = (f (heap w)).1 /\ w' = set_heap (f (heap w)).2 w.
Proof.
  unfold call_heap. destruct (f (heap w)); cbn; split; intros H; [by simplify_eq | by destruct H as [-> ->]].
Qed.

(** Inversion of a run that returned: one hypothesis per call made. *)
Ltac run_inv :=
  repeat match goal with
         | H : bind _ _ _ = Some _ |- _ =>
             apply bind_Some in H as (? & ? & ? & H)
         | H : ret _ _ = Some _ |- _ => unfold ret in H; simplify_eq
         | H : emit _ _ = Some _ |- _ => unfold emit in H; simplify_eq
         | H : put_session _ _ _ = Some _ |- _ =>
             unfold put_session in H; simplify_eq
         | H : fault _ = Some _ |- _ => discriminate H
         | H : get_session _ _ = Some _ |- _ =>
             apply get_session_Some in H as [H ->]
         | H : get_dcb _ _ = Some _ |- _ => apply get_dcb_Some in H as [H ->]
         | H : get_service _ _ = Some _ |- _ =>
             apply get_service_Some in H as [H ->]
         | H : call_heap _ _ = Some _ |- _ =>
             apply call_heap_Some in H as [-> ->]
         | H : (match ?x with _ => _ end) _ = Some _ |- _ => destruct x eqn:?
         | H : (let (_, _) := ?x in _) _ = Some _ |- _ => destruct x eqn:?
         end.

Lemma route_single_query_session my_instance s buffer clone w r s' w' :
  route_single_query my_instance s buffer clone w = Some ((r, s'), w') ->
  s' = s \/ s' = count_duped s \/ s' = TEE_SESSION.set_active 0 (count_duped s).
Proof.
  intros H. unfold route_single_query, branch_is_ready in H.
  run_inv; auto.
Qed.

Lemma closeSession_session my_instance s w s' w' :
  closeSession my_instance s w = Some (s', w') ->
  (TEE_SESSION.active s = 0 /\ s' = s /\ w' = w)
  \/ s' = TEE_SESSION.set_active 0 s.
Proof.
  intros H. unfold closeSession in H.
  destruct (truthy (TEE_SESSION.active s)) eqn:Ha.
  - right. run_inv; reflexivity.
  - left. apply truthy_false in Ha. unfold ret in H. by simplify_eq.
Qed.

Lemma keeps_private_refl s : keeps_private s s.
Proof. unfold keeps_private. auto. Qed.

Lemma keeps_private_trans s1 s2 s3 :
  keeps_private s1 s2 -> keeps_private s2 s3 -> keeps_private s1 s3.
Proof.
  unfold keeps_private. intros (A1 & B1 & C1 & D1) (A2 & B2 & C2 & D2).
  repeat split; try congruence.
  destruct D1, D2; [left | right | right | right]; congruence.
Qed.

Lemma run_call_keeps_private my_instance c s w s' w' :
  run_call my_instance c s w = Some (s', w') -> keeps_private s s'.
Proof.
  destruct c; cbn [run_call]; intros H.
  - unfold ret in H. simplify_eq. destruct s. unfold keeps_private. cbn. auto.
  - unfold ret in H. simplify_eq. destruct s. unfold keeps_private. cbn. auto.
  - apply bind_Some in H as ([r s1] & w1 & H & Hret).
    unfold ret in Hret. simplify_eq. cbn.
    apply route_single_query_session in H as [-> | [-> | ->]];
      destruct s; unfold keeps_private; cbn; auto.
  - apply bind_Some in H as (r & w1 & _ & Hret).
    unfold ret in Hret. simplify_eq. apply keeps_private_refl.
  - apply bind_Some in H as (r & w1 & _ & Hret).
    unfold ret in Hret. simplify_eq. apply keeps_private_refl.
  - apply closeSession_session in H as [(_ & -> & _) | ->].
    + apply keeps_private_refl.
    + destruct s; unfold keeps_private; cbn; auto.
Qed.

Lemma step_keeps_private my_instance x y :
  step my_instance x y -> keeps_private x.1 y.1.
Proof.
  intros [c s w s' w' H | s w w']; cbn.
  - eapply run_call_keeps_private, H.
  - apply keeps_private_refl.
Qed.

Lemma steps_keep_private my_instance x y :
  rtc (step my_instance) x y -> keeps_private x.1 y.1.
Proof.
  induction 1 as [x | x y z Hxy _ IH].
  - apply keeps_private_refl.
  - eapply keeps_private_trans; [| exact IH].
    eapply step_keeps_private, Hxy.
Qed.

(** Once [active] is [0] it stays [0]. *)
Lemma inactive_forever my_instance s w s' w' :
  TEE_SESSION.active s = 0 ->
  rtc (step my_instance) (s, w) (s', w') ->
  TEE_SESSION.active s' = 0.
Proof.
  intros H0 Hr. apply steps_keep_private in Hr as (_ & _ & _ & [H | H]);
    cbn in *; congruence.
Qed.

(** With no reply owed to the client, closing a session only closes the
    branch session. *)
Lemma closeSession_not_waiting my_instance s w s' w' :
  (TEE_SESSION.waiting s).1 = false ->
  closeSession my_instance s w = Some (s', w') ->
  trace w' = (trace w
              ++ (if truthy (TEE_SESSION.active s)
                  then close_branch_events (TEE_SESSION.branch_session s)
                  else []))%list.
Proof.
  intros Hw H. unfold closeSession in H. cbn [at_side PARENT] in H.
  rewrite Hw in H.
  destruct (truthy (TEE_SESSION.active s)).
  - destruct (TEE_SESSION.branch_session s) as [b|]; run_inv; cbn;
      rewrite <- ?app_assoc, ?app_nil_r; reflexivity.
  - unfold ret in H. simplify_eq. by rewrite app_nil_r.
Qed.

(** ** Closing a session *)

Lemma closeSession_inactive my_instance s w :
  TEE_SESSION.active s = 0 -> closeSession my_instance s w = Some (s, w).
Proof.
  intros H. unfold closeSession. rewrite H. reflexivity.
Qed.

Lemma set_active_active v s : TEE_SESSION.active (TEE_SESSION.set_active v s) = v.
Proof. destruct s. reflexivity. Qed.

(** C8. Closing is idempotent: once [closeSession] has run on a session,
    [active] is [0], and a second call, in the world the first call left
    or in any later one, returns the session and the world as they are;
    it adds no event, so it asks for no second close of the branch
    session by its router and writes no second error reply. *)
Theorem closeSession_idempotent
    (my_instance : TEE_INSTANCE) (s s1 : TEE_SESSION) (w w1 : World) :
  closeSession my_instance s w = Some (s1, w1) ->
  TEE_SESSION.active s1 = 0
  /\ closeSession my_instance s1 w1 = Some (s1, w1)
  /\ forall w2, closeSession my_instance s1 w2 = Some (s1, w2).
Proof.
  intros H.
  assert (Ha : TEE_SESSION.active s1 = 0).
  { apply closeSession_session in H as [(Ha & -> & _) | ->];
      [exact Ha | apply set_active_active]. }
  split; [exact Ha |].
  split; [| intros w2]; apply closeSession_inactive, Ha.
Qed.

(** ** Session creation *)

Lemma try_alloc_succeeds n w :
  allocations_succeed (S n) w ->
  try_alloc w = Some (true, set_alloc_tape (tail (alloc_tape w)) w)
  /\ allocations_succeed n (set_alloc_tape (tail (alloc_tape w)) w).
Proof.
  intros H. unfold try_alloc. destruct w as [h sv o tape tr]; cbn in *.
  destruct tape as [|b tape]; cbn.
  - split; [reflexivity |]. intros i _. cbn. by rewrite lookup_nil.
  - destruct b.
    + split; [reflexivity |]. intros i Hi. cbn.
      apply (H (S i)). lia.
    + exfalso. apply (H O); [lia | reflexivity].
Qed.

Lemma try_alloc_world ok w w1 :
  try_alloc w = Some (ok, w1) ->
  heap w1 = heap w /\ services w1 = services w
  /\ allOrphans w1 = allOrphans w /\ trace w1 = trace w.
Proof.
  unfold try_alloc. destruct (alloc_tape w); intros H; simplify_eq; done.
Qed.

Lemma source_gate_session my_instance session s w s' w' :
  source_gate my_instance session s w = Some (s', w') ->
  s' = s \/ s' = TEE_SESSION.set_active 0 s.
Proof.
  unfold source_gate. intros H. run_inv; auto.
Qed.

Lemma user_gate_session my_instance session s w s' w' :
  user_gate my_instance session s w = Some (s', w') ->
  s' = s \/ s' = TEE_SESSION.set_active 0 s.
Proof.
  unfold user_gate. intros H. run_inv; auto.
Qed.

(** A session structure as [newSession] returns it: the residual-state
    fields are all zero. *)
Lemma newSession_fresh my_instance session w s0 w0 :
  newSession my_instance session w = Some (Some s0, w0) ->
  TEE_SESSION.waiting s0 = (false, false)
  /\ TEE_SESSION.command s0 = 0
  /\ TEE_SESSION.multipacket s0 = (false, false)
  /\ TEE_SESSION.n_duped s0 = 0
  /\ TEE_SESSION.n_rejected s0 = 0.
Proof.
  intros H. unfold newSession in H. run_inv;
    repeat match goal with
           | H : source_gate _ _ _ _ = Some _ |- _ =>
               apply source_gate_session in H as [-> | ->]
           | H : user_gate _ _ _ _ = Some _ |- _ =>
               apply user_gate_session in H as [-> | ->]
           end; cbn; auto.
Qed.

(** C10. From a session structure as [newSession] returns it, no call of
    the core and no change of the world sets the [waiting] flags; so in
    every state that the session reaches [waiting[PARENT]] is false and
    [closeSession] writes no "Session closed." reply to the client: it
    adds the events of closing the branch session and nothing else.
    [reset_session_state], which would set the flags, is called by no
    entry point. *)
Theorem waiting_never_set
    (my_instance : TEE_INSTANCE) (session : addr) (w w0 w1 : World)
    (s0 s1 : TEE_SESSION) :
  newSession my_instance session w = Some (Some s0, w0) ->
  rtc (step my_instance) (s0, w0) (s1, w1) ->
  TEE_SESSION.waiting s1 = (false, false)
  /\ (forall s2 w2,
        closeSession my_instance s1 w1 = Some (s2, w2) ->
        exists evs,
          trace w2 = (trace w1 ++ evs)%list
          /\ Forall (fun e => is_client_write e = false) evs)
  /\ (forall buffer s2,
        reset_session_state s1 buffer = Some (1, s2) ->
        TEE_SESSION.waiting s2 = (true, true)).
Proof.
  intros Hnew Hrun.
  apply newSession_fresh in Hnew as (Hw0 & _).
  apply steps_keep_private in Hrun as (Hw & _). cbn in Hw.
  rewrite Hw0 in Hw. split; [exact Hw |]. split.
  - intros s2 w2 Hclose.
    apply closeSession_not_waiting in Hclose; [| by rewrite Hw].
    eexists. split; [exact Hclose |].
    destruct (truthy _); [| constructor].
    destruct (TEE_SESSION.branch_session s1); cbn; repeat constructor.
  - intros buffer s2 H. unfold reset_session_state in H.
    repeat case_match; simplify_eq; destruct s1; reflexivity.
Qed.

Lemma bind_run {A B} (m : M A) (k : A -> M B) w a w1 :
  m w = Some (a, w1) -> bind m k w = k a w1.
Proof. intros H. unfold bind. rewrite H. reflexivity. Qed.

Lemma allocations_succeed_tape n w w' :
  alloc_tape w' = alloc_tape w ->
  allocations_succeed n w -> allocations_succeed n w'.
Proof. unfold allocations_succeed. intros ->. auto. Qed.






(** ** Loop detector *)

Lemma service_names_elem svcs a svc :
  svcs !! a = Some svc -> SERVICE.name svc ∈ service_names svcs.
Proof.
  intros H. unfold service_names. apply elem_of_map_img. exists a.
  rewrite lookup_fmap, H. reflexivity.
Qed.

Lemma service_names_size svcs : (size (service_names svcs) <= size svcs)%nat.
Proof.
  unfold service_names.
  induction svcs as [|a svc m Hnone IH] using map_ind.
  - rewrite fmap_empty, map_img_empty_L, size_empty. lia.
  - rewrite fmap_insert, map_img_insert_notin_L by (by rewrite lookup_fmap, Hnone).
    rewrite map_size_insert_None by done.
    rewrite size_union_alt, size_singleton.
    assert (size (map_img (SERVICE.name <$> m) ∖ {[SERVICE.name svc]} : gset string)
            <= size (map_img (SERVICE.name <$> m) : gset string))%nat
      by (apply subseteq_size, subseteq_difference_l; reflexivity).
    lia.
Qed.

(** Adding a name of the configuration that is not in the table leaves
    fewer names to visit. *)
Lemma unvisited_decreases (names ht : gset string) (n : string) :
  n ∈ names -> n ∉ ht ->
  (size (names ∖ ({[n]} ∪ ht)) < size (names ∖ ht))%nat.
Proof.
  clear_env.
  intros Hin Hnot. apply subset_size. split.
  - apply difference_mono_l, union_subseteq_r.
  - intros Hsub.
    assert (Hn : n ∈ names ∖ ht) by (by apply elem_of_difference).
    apply Hsub, elem_of_difference in Hn as [_ Hn].
    apply Hn, elem_of_union. left. by apply elem_of_singleton.
Qed.

Section Walk.

Variable svcs : gmap addr SERVICE.
Hypothesis Hwf : services_wf svcs.

Lemma detect_loops_filters_total fuel filters :
  (forall inst ht t,
      is_Some (svcs !! t) ->
      (size (service_names svcs ∖ ht) < fuel)%nat ->
      walk_result ht (detect_loops fuel svcs inst (Some ht) (Some t))) ->
  (forall f ninst,
      In f filters -> FILTER_DEF.module f = "tee" ->
      FILTER_DEF.filter f = Some ninst ->
      exists t, TEE_INSTANCE.service ninst = Some t /\ is_Some (svcs !! t)) ->
  forall ht,
    (size (service_names svcs ∖ ht) < fuel)%nat ->
    walk_result ht
      (detect_loops_filters (detect_loops fuel svcs) filters (Some ht)).
Proof.
  clear_env. clear Hwf.
  intros IH. induction filters as [|f fs IHfs]; intros Hfs ht Hsize.
  - cbn. exists 0, ht. auto.
  - assert (Hfs' : forall f ninst, In f fs -> FILTER_DEF.module f = "tee" ->
                     FILTER_DEF.filter f = Some ninst ->
                     exists t, TEE_INSTANCE.service ninst = Some t
                               /\ is_Some (svcs !! t))
      by (intros; eapply Hfs; [right |..]; eauto).
    cbn. destruct (String.eqb_spec (FILTER_DEF.module f) "tee") as [Htee|];
      [| by apply IHfs].
    destruct (FILTER_DEF.filter f) as [ninst|] eqn:Hf; [| by apply IHfs].
    destruct (Hfs f ninst) as (t & -> & Ht); [by left | done | done |].
    destruct (IH ninst ht t Ht Hsize) as (r & ht1 & -> & Hsub & Hr).
    destruct Hr as [-> | ->]; cbn.
    + destruct (IHfs Hfs' ht1) as (r & ht2 & -> & Hsub2 & Hr).
      * eapply Nat.le_lt_trans; [| exact Hsize].
        by apply subseteq_size, difference_mono_l.
      * exists r, ht2. split; [done |]. split; [by etrans | done].
    + exists 1, ht1. auto.
Qed.

(** On a well-formed configuration the walk ends within the fuel that
    the names not yet in the table allow. *)
Lemma detect_loops_total fuel :
  forall inst ht t,
    is_Some (svcs !! t) ->
    (size (service_names svcs ∖ ht) < fuel)%nat ->
    walk_result ht (detect_loops fuel svcs inst (Some ht) (Some t)).
Proof using Hwf.
  clear_env.
  induction fuel as [|fuel IH]; intros inst ht t [svc Ht] Hsize; [lia |].
  cbn. rewrite Ht. cbn. unfold hashtable_add.
  destruct (decide (SERVICE.name svc ∈ ht)) as [Hin|Hnot]; cbn.
  - exists 1, ht. auto.
  - pose proof (unvisited_decreases (service_names svcs) ht (SERVICE.name svc)
                  (service_names_elem _ _ _ Ht) Hnot) as Hlt.
    destruct (detect_loops_filters_total fuel (SERVICE.filters svc) IH)
      with (ht := {[SERVICE.name svc]} ∪ ht) as (r & ht' & -> & Hsub & Hr).
    + intros f ninst Hf. eapply Hwf; eauto.
    + lia.
    + exists r, ht'. split; [done |]. split; [| done].
      etrans; [apply union_subseteq_r | exact Hsub].
Qed.

End Walk.

Lemma detect_loops_filters_mono
    (rec1 rec2 : TEE_INSTANCE -> option HASHTABLE -> option addr
                 -> option (Z * option HASHTABLE)) :
  (forall i ht t x, rec1 i ht t = Some x -> rec2 i ht t = Some x) ->
  forall filters ht x,
    detect_loops_filters rec1 filters ht = Some x ->
    detect_loops_filters rec2 filters ht = Some x.
Proof.
  intros Hrec. induction filters as [|f fs IH]; intros ht x; cbn; [done |].
  destruct (String.eqb _ _); [| by apply IH].
  destruct (FILTER_DEF.filter f) as [ninst|]; [| by apply IH].
  destruct (rec1 ninst ht _) as [[r ht']|] eqn:E; [| done].
  rewrite (Hrec _ _ _ _ E). destruct (truthy r); [done | by apply IH].
Qed.

(** More fuel does not change the result of a walk that ends. *)
Lemma detect_loops_fuel_mono svcs n :
  forall m inst ht t x,
    (n <= m)%nat ->
    detect_loops n svcs inst ht t = Some x ->
    detect_loops m svcs inst ht t = Some x.
Proof.
  induction n as [|n IH]; intros m inst ht t x Hle; [done |].
  destruct m as [|m]; [lia |]. cbn.
  destruct ht as [tbl|]; [| done].
  destruct (t ≫= (svcs !!.)) as [svc|]; [| done].
  destruct (hashtable_add tbl (SERVICE.name svc)) as [added tbl1].
  destruct (added =? 0); [done |].
  apply detect_loops_filters_mono.
  intros i ht' t' x'. apply IH. lia.
Qed.

(** The fuel that [newSession] passes is enough on every well-formed
    configuration, and no larger fuel gives another answer. *)
Lemma loop_fuel_enough svcs inst a :
  services_wf svcs -> is_Some (svcs !! a) ->
  exists r ht,
    (r = 0 \/ r = 1)
    /\ forall fuel,
         (loop_fuel svcs <= fuel)%nat ->
         detect_loops fuel svcs inst (Some ∅) (Some a) = Some (r, Some ht).
Proof.
  intros Hwf Ha.
  destruct (detect_loops_total svcs Hwf (loop_fuel svcs) inst ∅ a Ha)
    as (r & ht & Hrun & _ & Hr).
  { unfold loop_fuel. pose proof (service_names_size svcs).
    assert (size (service_names svcs ∖ ∅) <= size (service_names svcs))%nat
      by (apply subseteq_size, subseteq_difference_l; reflexivity).
    lia. }
  exists r, ht. split; [done |].
  intros fuel Hle. eapply detect_loops_fuel_mono; eauto.
Qed.

(** *** Refusal of recursive configurations *)

Lemma newSession_same_service my_instance session w ses t target own :
  sessions (heap w) !! session = Some ses ->
  TEE_INSTANCE.service my_instance = Some t ->
  services w !! t = Some target ->
  services w !! SESSION.service ses = Some own ->
  SERVICE.name target = SERVICE.name own ->
  newSession my_instance session w
  = Some (None, set_trace (trace w ++ [recursion_error]) w).
Proof.
  intros Hs Ht Htg Hown Heq. unfold newSession.
  erewrite bind_run by (apply get_session_Some; eauto).
  rewrite Ht. cbn [deref_service].
  erewrite bind_run by (apply get_service_Some; eauto).
  erewrite bind_run by (apply get_service_Some; eauto).
  rewrite Heq, String.eqb_refl. reflexivity.
Qed.

Lemma newSession_loop my_instance session w ses t target own ok w1 r ht :
  sessions (heap w) !! session = Some ses ->
  TEE_INSTANCE.service my_instance = Some t ->
  services w !! t = Some target ->
  services w !! SESSION.service ses = Some own ->
  SERVICE.name target <> SERVICE.name own ->
  try_alloc w = Some (ok, w1) ->
  detect_loops (loop_fuel (services w)) (services w) my_instance
    (if ok then Some ∅ else None) (Some (SESSION.service ses)) = Some (r, ht) ->
  r <> 0 ->
  newSession my_instance session w
  = Some (None, set_trace (trace w1 ++ [EvHashtableFree; recursion_error]) w1).
Proof.
  intros Hs Ht Htg Hown Hne Hal Hloop Hr. unfold newSession.
  erewrite bind_run by (apply get_session_Some; eauto).
  rewrite Ht. cbn [deref_service].
  erewrite bind_run by (apply get_service_Some; eauto).
  erewrite bind_run by (apply get_service_Some; eauto).
  apply String.eqb_neq in Hne. rewrite Hne.
  erewrite bind_run by exact Hal.
  erewrite (bind_run get_services) by reflexivity.
  destruct (try_alloc_world _ _ _ Hal) as (_ & -> & _).
  rewrite Hloop. apply truthy_true in Hr. rewrite Hr.
  unfold bind, emit, ret. cbn. rewrite <- app_assoc. reflexivity.
Qed.

(** A session that passes the recursion checks, with no activation gate
    configured, gets a branch session when the core can clone the client
    handle and create the session. *)
Lemma newSession_accepts my_instance session w ses dcb h1 bses h2 :
  no_recursion my_instance session w ->
  allocations_succeed 2 w ->
  sessions (heap w) !! session = Some ses ->
  TEE_INSTANCE.source my_instance = None ->
  TEE_INSTANCE.userName my_instance = None ->
  dcb_clone (SESSION.client_dcb ses) (heap w) = (Some dcb, h1) ->
  session_alloc (TEE_INSTANCE.service my_instance) dcb h1 = (Some bses, h2) ->
  exists s0 w0,
    newSession my_instance session w = Some (Some s0, w0)
    /\ TEE_SESSION.active s0 = 1
    /\ TEE_SESSION.branch_session s0 = Some bses
    /\ TEE_SESSION.branch_dcb s0 = Some dcb
    /\ heap w0 = h2.
Proof.
  intros (ses' & t & target & own & ht & Hs & Ht & Htg & Hown & Hne & Hloop)
    Halloc Hs' Hsrc Husr Hclone Hsalloc.
  assert (ses' = ses) as -> by congruence.
  destruct (try_alloc_succeeds 1 w Halloc) as [Hal1 Halloc1].
  set (w1 := set_alloc_tape (tail (alloc_tape w)) w) in *.
  set (w2 := set_trace (trace w1 ++ [EvHashtableFree]) w1).
  assert (Halloc2 : allocations_succeed 1 w2)
    by (eapply allocations_succeed_tape; [| exact Halloc1]; reflexivity).
  destruct (try_alloc_succeeds 0 w2 Halloc2) as [Hal2 _].
  set (w3 := set_alloc_tape (tail (alloc_tape w2)) w2) in *.
  eexists _, _. split.
  - unfold newSession.
    erewrite bind_run by (apply get_session_Some; eauto).
    rewrite Ht. cbn [deref_service].
    erewrite bind_run by (apply get_service_Some; eauto).
    erewrite bind_run by (apply get_service_Some; eauto).
    apply String.eqb_neq in Hne. rewrite Hne.
    erewrite bind_run by exact Hal1.
    erewrite (bind_run get_services) by reflexivity.
    change (services w1) with (services w). rewrite Hloop.
    erewrite bind_run by reflexivity.
    change (truthy 0) with false. cbv iota.
    erewrite bind_run by exact Hal2.
    unfold source_gate, user_gate. rewrite Hsrc, Husr.
    erewrite bind_run by reflexivity. erewrite bind_run by reflexivity.
    match goal with
    | |- context [truthy (TEE_SESSION.active ?x)] =>
        change (truthy (TEE_SESSION.active x)) with true
    end.
    cbv iota.
    erewrite bind_run by reflexivity.
    unfold bind at 1, call_heap at 1. subst w1 w2 w3.
    cbn [heap set_trace set_alloc_tape]. rewrite Hclone.
    erewrite bind_run by reflexivity.
    unfold bind at 1, call_heap at 1. cbn [heap set_trace set_heap].
    rewrite <- Ht, Hsalloc. reflexivity.
  - cbn. auto.
Qed.


Lemma chain_ABA_loop :
  exists ht, detect_loops (loop_fuel chain_ABA) chain_ABA (tee_instance_to 2)
               (Some ∅) (Some 1%nat) = Some (1, ht).
Proof. eexists. vm_compute. reflexivity. Qed.

Lemma chain_ABC_no_loop :
  exists ht, detect_loops (loop_fuel chain_ABC) chain_ABC (tee_instance_to 2)
               (Some ∅) (Some 1%nat) = Some (0, ht).
Proof. eexists. vm_compute. reflexivity. Qed.

Lemma chain_AB_unresolved_no_loop :
  exists ht, detect_loops (loop_fuel chain_AB_unresolved) chain_AB_unresolved
               (tee_instance_to 2) (Some ∅) (Some 1%nat) = Some (0, ht).
Proof. eexists. vm_compute. reflexivity. Qed.

Lemma config_world_no_recursion svcs target own ht :
  svcs !! 2%nat = Some target ->
  svcs !! 1%nat = Some own ->
  SERVICE.name target <> SERVICE.name own ->
  detect_loops (loop_fuel svcs) svcs (tee_instance_to 2) (Some ∅) (Some 1%nat)
  = Some (0, ht) ->
  no_recursion (tee_instance_to 2) 10 (config_world svcs).
Proof.
  intros Ht Ho Hne Hloop. exists client_session, 2%nat, target, own, ht.
  repeat split; auto.
Qed.

(** C5. [newSession] returns no session when the service of the session
    has the name of the target service of the instance, and when
    [detect_loops], walking the services that tee filters chain
    together, comes to a service whose name is in the table of visited
    names. The chain A -> B -> A is refused; the chain A -> B -> C passes
    the checks and gets its branch session; a tee filter whose instance
    is not resolved yet is passed over by the walk and is not reported
    as a loop. *)
Theorem newSession_refuses_recursion :
  (forall my_instance session w ses t target own,
      sessions (heap w) !! session = Some ses ->
      TEE_INSTANCE.service my_instance = Some t ->
      services w !! t = Some target ->
      services w !! SESSION.service ses = Some own ->
      SERVICE.name target = SERVICE.name own
      \/ (exists r ht,
             r <> 0
             /\ detect_loops (loop_fuel (services w)) (services w) my_instance
                  (Some ∅) (Some (SESSION.service ses)) = Some (r, ht)) ->
      exists w', newSession my_instance session w = Some (None, w'))
  /\ (exists w', newSession (tee_instance_to 2) 10 (config_world chain_ABA)
                 = Some (None, w'))
  /\ (no_recursion (tee_instance_to 2) 10 (config_world chain_ABC)
      /\ forall dcb h1 bses h2,
           dcb_clone (Some 20%nat) client_heap = (Some dcb, h1) ->
           session_alloc (Some 2%nat) dcb h1 = (Some bses, h2) ->
           exists s0 w0,
             newSession (tee_instance_to 2) 10 (config_world chain_ABC)
             = Some (Some s0, w0)
             /\ TEE_SESSION.active s0 = 1
             /\ TEE_SESSION.branch_session s0 = Some bses)
  /\ (forall recurse filters ht,
         detect_loops_filters recurse (tee_unresolved :: filters) ht
         = detect_loops_filters recurse filters ht)
  /\ no_recursion (tee_instance_to 2) 10 (config_world chain_AB_unresolved).
Proof.
  assert (Hgen : forall my_instance session w ses t target own,
      sessions (heap w) !! session = Some ses ->
      TEE_INSTANCE.service my_instance = Some t ->
      services w !! t = Some target ->
      services w !! SESSION.service ses = Some own ->
      SERVICE.name target = SERVICE.name own
      \/ (exists r ht,
             r <> 0
             /\ detect_loops (loop_fuel (services w)) (services w) my_instance
                  (Some ∅) (Some (SESSION.service ses)) = Some (r, ht)) ->
      exists w', newSession my_instance session w = Some (None, w')).
  { intros my_instance session w ses t target own Hs Ht Htg Hown Hrec.
    destruct (decide (SERVICE.name target = SERVICE.name own)) as [Heq|Hne].
    { eexists. eapply newSession_same_service; eauto. }
    destruct Hrec as [Heq | (r & ht & Hr & Hloop)]; [done |].
    destruct (try_alloc w) as [[ok w1]|] eqn:Hal.
    - destruct ok.
      + eexists. eapply newSession_loop; eauto.
      + eexists.
        eapply (newSession_loop _ _ _ _ _ _ _ false w1 (-1) None); eauto; done.
    - unfold try_alloc in Hal. destruct (alloc_tape w); discriminate. }
  split; [exact Hgen |]. split; [| split; [| split]].
  - destruct chain_ABA_loop as [ht Hloop].
    eapply (Hgen _ _ (config_world chain_ABA)); [reflexivity.. |].
    right. exists 1, ht. split; [done | exact Hloop].
  - destruct chain_ABC_no_loop as [ht Hloop].
    assert (Hrec : no_recursion (tee_instance_to 2) 10 (config_world chain_ABC))
      by (eapply config_world_no_recursion; [reflexivity | reflexivity | done | eauto]).
    split; [exact Hrec |].
    intros dcb h1 bses h2 Hclone Hsalloc.
    assert (Hall : allocations_succeed 2 (config_world chain_ABC))
      by (intros i _; cbn; by rewrite lookup_nil).
    destruct (newSession_accepts (tee_instance_to 2) 10 (config_world chain_ABC)
                client_session dcb h1 bses h2 Hrec Hall eq_refl eq_refl eq_refl
                Hclone Hsalloc)
      as (s0 & w0 & Hnew & Ha & Hb & _).
    exists s0, w0. auto.
  - intros recurse filters ht. reflexivity.
  - destruct chain_AB_unresolved_no_loop as [ht Hloop].
    eapply config_world_no_recursion; [reflexivity | reflexivity | done | eauto].
Qed.

(** ** Instance construction *)

Lemma logs_only_ret {A} (a : A) w : logs_only (ret a) w a.
Proof.
  exists []. split; [| constructor]. unfold ret. rewrite app_nil_r.
  by destruct w.
Qed.

Lemma logs_only_emit lvl msg w : logs_only (emit (EvLog lvl msg)) w tt.
Proof. exists [EvLog lvl msg]. split; [reflexivity | by repeat constructor]. Qed.

Lemma logs_only_bind {A B} (m : M A) (k : A -> M B) w a b :
  logs_only m w a ->
  (forall w1, logs_only (k a) w1 b) ->
  logs_only (bind m k) w b.
Proof.
  intros (e1 & Hm & F1) Hk.
  destruct (Hk (set_trace (trace w ++ e1) w)) as (e2 & Hk' & F2).
  exists (e1 ++ e2)%list. split; [| by apply Forall_app].
  erewrite bind_run by exact Hm. rewrite Hk'. cbn.
  by rewrite app_assoc.
Qed.

Ltac solve_logs_only :=
  repeat first
    [ apply logs_only_ret
    | apply logs_only_emit
    | apply logs_only_bind with (a := tt); [| intros ?]
    | match goal with
      | |- logs_only (if ?b then _ else _) _ _ => destruct b
      end ].

Lemma read_param_run p i w :
  exists i1, logs_only (read_param p i) w i1 /\ after_param p i i1.
Proof.
  unfold read_param, after_param. cbv beta zeta.
  destruct i as [sv so us ma r no nr].
  destruct (String.eqb (FILTER_PARAMETER.name p) "service") eqn:E1,
    (String.eqb (FILTER_PARAMETER.name p) "match") eqn:E2,
    (String.eqb (FILTER_PARAMETER.name p) "exclude") eqn:E3,
    (String.eqb (FILTER_PARAMETER.name p) "source") eqn:E4,
    (String.eqb (FILTER_PARAMETER.name p) "user") eqn:E5;
    repeat match goal with
           | H : String.eqb _ _ = true |- _ => apply String.eqb_eq in H
           end;
    try congruence.
  all: eexists; split; [| shelve].
  all: solve_logs_only.
  Unshelve. all: by repeat split.
Qed.

Lemma read_params_run params :
  forall i w,
    exists i1, logs_only (read_params params i) w i1 /\ after_params params i i1.
Proof.
  induction params as [|p rest IH]; intros i w; cbn [read_params].
  - exists i. split; [apply logs_only_ret | by repeat split].
  - destruct (read_param_run p i w) as (i1 & Hrun1 & H1).
    assert (Hrest : forall w1, exists i2,
               logs_only (read_params rest i1) w1 i2 /\ after_params rest i1 i2)
      by (intros; apply IH).
    destruct (Hrest w) as (i2 & _ & H2).
    exists i2. split.
    + eapply logs_only_bind; [exact Hrun1 |]. intros w1.
      destruct (Hrest w1) as (i2' & Hrun2 & H2').
      assert (i2' = i2) as ->; [| exact Hrun2].
      destruct i2', i2. unfold after_params in *. cbn in *.
      destruct H2 as (? & ? & ? & ? & ? & ? & ?).
      destruct H2' as (? & ? & ? & ? & ? & ? & ?). congruence.
    + unfold after_params, after_param in *. cbn [param_value].
      destruct H1 as (A1 & B1 & C1 & D1 & E1 & F1 & G1).
      destruct H2 as (A2 & B2 & C2 & D2 & E2 & F2 & G2).
      rewrite A2, B2, C2, D2, E2, F2, G2, A1, B1, C1, D1, E1, F1, G1.
      repeat split;
        repeat match goal with
               | |- context [param_value ?k rest] => destruct (param_value k rest)
               | |- context [String.eqb ?a ?b] => destruct (String.eqb a b)
               end; reflexivity.
Qed.

Lemma read_options_run options :
  forall cflags w,
    logs_only (read_options options cflags) w
      (fold_left option_cflags options cflags).
Proof.
  induction options as [|o rest IH]; intros cflags w; cbn [read_options fold_left].
  - apply logs_only_ret.
  - apply logs_only_bind with (a := option_cflags cflags o); [| intros; apply IH].
    unfold read_option, option_cflags.
    repeat match goal with
           | |- context [strcasecmp_eq ?a ?b] => destruct (strcasecmp_eq a b)
           end; solve_logs_only.
Qed.

Ltac find_in := first [reflexivity | left; find_in | right; find_in].

Lemma createInstance_run name options params w :
  allocations_succeed 1 w ->
  exists i1 r evs,
    after_params (default [] params) blank_instance i1
    /\ createInstance name options params w
       = Some (r, set_trace (trace w ++ evs)
                    (set_alloc_tape (tail (alloc_tape w)) w))
    /\ (r = None <->
        TEE_INSTANCE.service i1 = None
        \/ regcomp_fails (TEE_INSTANCE.match_ i1) (configured_cflags options) = true
        \/ regcomp_fails (TEE_INSTANCE.nomatch i1) (configured_cflags options) = true)
    /\ (r = None ->
        In (EvFree ST_instance) evs
        /\ (is_Some (TEE_INSTANCE.match_ i1) -> In (EvFree ST_match) evs)
        /\ (is_Some (TEE_INSTANCE.source i1) -> In (EvFree ST_source) evs))
    /\ (forall i, r = Some i -> i = with_patterns (configured_cflags options) i1).
Proof.
  intros Halloc.
  destruct (try_alloc_succeeds 0 w Halloc) as [Hal _].
  set (w0 := set_alloc_tape (tail (alloc_tape w)) w) in *.
  set (e0 := if non_null options
             then [EvLog LOG_ERR
                     "tee: The tee filter has been passed an option, this filter does not support any options."]
             else []).
  assert (H0 : (if non_null options
                then emit (EvLog LOG_ERR
                             "tee: The tee filter has been passed an option, this filter does not support any options.")
                else ret tt) w0 = Some (tt, set_trace (trace w0 ++ e0) w0)).
  { subst e0. destruct options; cbn; [reflexivity |].
    unfold ret. rewrite app_nil_r. reflexivity. }
  set (wa := set_trace (trace w0 ++ e0) w0) in *.
  destruct (read_params_run (default [] params) blank_instance wa)
    as (i1 & (e1 & H1 & _) & Hfields).
  set (wb := set_trace (trace wa ++ e1) wa) in *.
  destruct (read_options_run (default [] options) REG_ICASE wb)
    as (e2 & H2 & _).
  fold (configured_cflags options) in H2.
  set (cflags := configured_cflags options) in *.
  set (wc := set_trace (trace wb ++ e2) wb) in *.
  assert (Hrun : createInstance name options params w
    = (if negb (non_null (TEE_INSTANCE.service i1)) then
         mxs_free ST_match (TEE_INSTANCE.match_ i1);;
         mxs_free ST_source (TEE_INSTANCE.source i1);;
         emit (EvFree ST_instance);;
         ret None
       else if regcomp_fails (TEE_INSTANCE.match_ i1) cflags then
         emit (EvLog LOG_ERR "tee: Invalid regular expression for the match parameter.");;
         mxs_free ST_match (TEE_INSTANCE.match_ i1);;
         mxs_free ST_nomatch (TEE_INSTANCE.nomatch i1);;
         mxs_free ST_source (TEE_INSTANCE.source i1);;
         emit (EvFree ST_instance);;
         ret None
       else
         let my_instance :=
           set_re (compiled (TEE_INSTANCE.match_ i1) cflags
                     (TEE_INSTANCE.re i1)) i1 in
         if regcomp_fails (TEE_INSTANCE.nomatch my_instance) cflags then
           emit (EvLog LOG_ERR "tee: Invalid regular expression for the nomatch paramter.");;
           (if non_null (TEE_INSTANCE.match_ my_instance) then
              emit (EvRegfree (TEE_INSTANCE.re my_instance));;
              emit (EvFree ST_match)
            else ret tt);;
           mxs_free ST_nomatch (TEE_INSTANCE.nomatch my_instance);;
           mxs_free ST_source (TEE_INSTANCE.source my_instance);;
           emit (EvFree ST_instance);;
           ret None
         else
           ret (Some (set_nore (compiled (TEE_INSTANCE.nomatch my_instance) cflags
                                  (TEE_INSTANCE.nore my_instance)) my_instance))) wc).
  { unfold createInstance.
    erewrite bind_run by exact Hal. cbv iota.
    erewrite bind_run by exact H0.
    erewrite (bind_run _ _ wa i1 wb)
      by (destruct params; [exact H1 | exact H1]).
    erewrite (bind_run _ _ wb cflags wc)
      by (destruct options; [exact H2 | exact H2]).
    reflexivity. }
  exists i1. rewrite Hrun. clear Hrun H0 H1 H2 Hal.
  unfold with_patterns.
  destruct i1 as [sv so us ma r0 no nr]. cbn [TEE_INSTANCE.service
    TEE_INSTANCE.match_ TEE_INSTANCE.nomatch TEE_INSTANCE.source set_re
    TEE_INSTANCE.re TEE_INSTANCE.nore] in *.
  unfold regcomp_fails, mxs_free.
  destruct sv as [sv|], ma as [ma|], no as [no|], so as [so|];
    repeat match goal with
           | |- context [truthy (regcomp ?p cflags)] =>
               destruct (truthy (regcomp p cflags)) eqn:?
           end;
    cbn [non_null negb];
    unfold bind, emit, ret; cbn [set_trace trace].
  all: eexists _, _; split; [exact Hfields |].
  all: split;
    [ subst wc wb wa w0; unfold set_trace;
      cbn [heap services allOrphans alloc_tape trace set_alloc_tape];
      rewrite <- ?app_assoc; reflexivity |].
  all: split;
    [ split;
      [ intros Hr; first [discriminate Hr | auto]
      | intros Hr; first [reflexivity
                         | exfalso; destruct Hr as [Hr|[Hr|Hr]]; congruence] ] |].
  all: split;
    [ intros Hr; first
        [ discriminate Hr
        | rewrite ?in_app_iff; cbn [In];
          split; [find_in |];
          split; intros [? Hx]; first [discriminate Hx | find_in] ]
    | intros i Hr; first [discriminate Hr | by simplify_eq] ].
Qed.

Lemma regcomp_fails_spec pattern cflags :
  regcomp_fails pattern cflags = true
  <-> exists p, pattern = Some p /\ regcomp p cflags <> 0.
Proof.
  unfold regcomp_fails. destruct pattern as [p|].
  - rewrite truthy_true. split; [eauto |]. by intros (? & [= <-] & ?).
  - split; [discriminate |]. by intros (? & [=] & _).
Qed.

Lemma from_option_Some_None {A} (o : option A) : from_option Some None o = o.
Proof. by destruct o. Qed.

(** C9, as the code has it. When the instance structure can be
    allocated, [createInstance] returns no instance exactly when the
    target service is missing or names no service, or the [match]
    pattern does not compile, or the [exclude] pattern does not compile;
    a parameter or an option that the filter does not support is written
    to the log and does not make the construction fail. When it fails,
    the instance structure and the [match] and [source] strings are
    released. *)
Theorem createInstance_fails_iff_config_error
    (name : string) (options : option (list string))
    (params : option (list FILTER_PARAMETER)) (w : World) :
  allocations_succeed 1 w ->
  exists r evs,
    createInstance name options params w
    = Some (r, set_trace (trace w ++ evs)
                 (set_alloc_tape (tail (alloc_tape w)) w))
    /\ (r = None <-> config_error options params)
    /\ (r = None ->
        In (EvFree ST_instance) evs
        /\ (is_Some (param_value "match" (default [] params)) ->
            In (EvFree ST_match) evs)
        /\ (is_Some (param_value "source" (default [] params)) ->
            In (EvFree ST_source) evs)).
Proof.
  clear_env.
  intros Halloc.
  destruct (createInstance_run name options params w Halloc)
    as (i1 & r & evs & Hf & Hrun & Hiff & Hfree & _).
  destruct Hf as (Hsv & Hma & Hno & Hso & _).
  cbn [blank_instance TEE_INSTANCE.service TEE_INSTANCE.match_
         TEE_INSTANCE.nomatch TEE_INSTANCE.source] in *.
  rewrite from_option_Some_None in Hma, Hno, Hso.
  exists r, evs. split; [exact Hrun |]. split.
  - rewrite Hiff, Hsv, Hma, Hno, !regcomp_fails_spec. unfold config_error.
    destruct (param_value "service" (default [] params)); cbn; tauto.
  - intros Hr. rewrite <- Hma, <- Hso. auto.
Qed.

(** ** Orphan reaper *)

Lemma quiescentb_spec s : quiescentb s = true <-> quiescent s.
Proof.
  clear_env.
  unfold quiescentb, quiescent.
  rewrite !andb_true_iff, bool_decide_eq_true, Z.eqb_eq, negb_true_iff.
  destruct (SESSION.client_dcb s); cbn; intuition congruence.
Qed.

Lemma filter_ext_elem {A} (P Q : A -> Prop)
    `{!forall x, Decision (P x), !forall x, Decision (Q x)} (l : list A) :
  (forall x, x ∈ l -> P x <-> Q x) -> filter P l = filter Q l.
Proof.
  clear_env.
  induction l as [|a l IH]; intros Hext; [done |].
  rewrite !filter_cons.
  rewrite IH by (intros x Hx; apply Hext; by right).
  pose proof (Hext a (list_elem_of_here _ _)) as Ha.
  destruct (decide (P a)), (decide (Q a)); tauto.
Qed.

Lemma mark_lookup_ne m p q : p <> q -> mark m p !! q = m !! q.
Proof.
  intros Hne. unfold mark. destruct (m !! p) as [s|]; [| done].
  destruct (quiescentb s); [| done]. by rewrite lookup_insert_ne.
Qed.

Lemma with_sessions_id w : with_sessions (sessions (heap w)) w = w.
Proof. by destruct w as [[] ? ? ? ?]. Qed.

(** The scan of a list of distinct nodes, when it returns: the nodes
    kept, the nodes unlinked (the last one first) and the sessions
    marked. *)
Lemma orphan_scan_inv ptrs :
  forall fin w r w',
    NoDup ptrs ->
    orphan_scan ptrs fin w = Some (r, w') ->
    r.1 = filter (fun p => ~ to_be_freed (sessions (heap w)) p) ptrs
    /\ r.2 = (reverse (filter (to_be_freed (sessions (heap w))) ptrs) ++ fin)%list
    /\ w' = with_sessions (mark_all ptrs (sessions (heap w))) w.
Proof.
  induction ptrs as [|p rest IH]; intros fin w r w' Hnd H; cbn [orphan_scan] in H.
  - unfold ret in H. simplify_eq. cbn.
    split; [done |]. split; [done |]. by rewrite with_sessions_id.
  - apply NoDup_cons in Hnd as [Hp Hnd].
    apply bind_Some in H as (s & w0 & Hs & H).
    apply get_session_Some in Hs as [Hs ->].
    apply bind_Some in H as ([] & w1 & Hmark & H).
    apply bind_Some in H as (r' & w2 & Hrec & H).
    unfold ret in H. simplify_eq.
    fold (quiescentb s) in Hmark.
    assert (Hw1 : w1 = with_sessions (mark (sessions (heap w)) p) w).
    { unfold mark. rewrite Hs. destruct (quiescentb s).
      - unfold put_session in Hmark. by simplify_eq.
      - unfold ret in Hmark. simplify_eq. by rewrite with_sessions_id. }
    subst w1.
    apply IH in Hrec as (Hk & Hf & Hw); [| done].
    assert (Hagree : forall q, q ∈ rest ->
               to_be_freed (sessions (heap (with_sessions (mark (sessions (heap w)) p) w))) q
               <-> to_be_freed (sessions (heap w)) q).
    { intros q Hq. unfold to_be_freed. cbn.
      rewrite mark_lookup_ne; [done |]. intros ->. done. }
    rewrite (filter_ext_elem _ (fun q => ~ to_be_freed (sessions (heap w)) q)) in Hk
      by (intros q Hq; by rewrite Hagree).
    rewrite (filter_ext_elem _ (to_be_freed (sessions (heap w)))) in Hf
      by (intros q Hq; by rewrite Hagree).
    rewrite !filter_cons.
    assert (Hb : bool_decide (SESSION.state s = SESSION_STATE_TO_BE_FREED) = true
                 <-> to_be_freed (sessions (heap w)) p).
    { rewrite bool_decide_eq_true. unfold to_be_freed. rewrite Hs. cbn.
      split; congruence. }
    split; [| split].
    + destruct (bool_decide _) eqn:E; cbn [fst].
      * rewrite decide_False by (intros Hn; apply Hn, Hb; done). exact Hk.
      * rewrite decide_True; [by rewrite Hk |].
        intros Hn. apply Hb in Hn. congruence.
    + cbn [snd]. rewrite Hf. destruct (bool_decide _) eqn:E.
      * rewrite decide_True by (by apply Hb).
        rewrite reverse_cons, <- app_assoc. done.
      * rewrite decide_False; [done |]. intros Hn. apply Hb in Hn. congruence.
    + rewrite Hw. by destruct w as [[] ? ? ? ?].
Qed.

Lemma mark_is_Some m p q : is_Some (mark m p !! q) <-> is_Some (m !! q).
Proof.
  destruct (decide (p = q)) as [->|Hne]; [| by rewrite mark_lookup_ne].
  unfold mark. destruct (m !! q) as [s|] eqn:E; [| by rewrite E].
  destruct (quiescentb s); [| by rewrite E].
  rewrite lookup_insert_eq. split; eauto.
Qed.

Lemma orphan_scan_total ptrs :
  forall fin w,
    (forall p, p ∈ ptrs -> is_Some (sessions (heap w) !! p)) ->
    is_Some (orphan_scan ptrs fin w).
Proof.
  induction ptrs as [|p rest IH]; intros fin w Hall; cbn [orphan_scan].
  - eexists. reflexivity.
  - destruct (Hall p (list_elem_of_here _ _)) as [s Hs].
    erewrite bind_run by (apply get_session_Some; eauto).
    fold (quiescentb s).
    assert (Hm : exists w1,
               (if quiescentb s
                then put_session p (SESSION.set_state SESSION_STATE_TO_BE_FREED s)
                else ret tt) w = Some (tt, w1)
               /\ w1 = with_sessions (mark (sessions (heap w)) p) w).
    { unfold mark. rewrite Hs. destruct (quiescentb s); eexists; split; try done.
      unfold ret. by rewrite with_sessions_id. }
    destruct Hm as (w1 & Hm & ->).
    erewrite bind_run by exact Hm.
    destruct (IH (if bool_decide (SESSION.state s = SESSION_STATE_TO_BE_FREED)
                  then p :: fin else fin)
                (with_sessions (mark (sessions (heap w)) p) w)) as [[r w2] Hr].
    { intros q Hq. cbn. apply mark_is_Some, Hall. by right. }
    erewrite bind_run by exact Hr. eexists. reflexivity.
Qed.

(** The release loop, when it returns. *)
Lemma orphan_release_inv finished :
  forall w w',
    orphan_release finished w = Some (tt, w') ->
    w' = set_trace (trace w ++ flat_map release_events finished)
           (with_sessions (free_all finished (sessions (heap w))) w).
Proof.
  induction finished as [|p rest IH]; intros w w' H; cbn [orphan_release] in H.
  - unfold ret in H. injection H as <-. cbn. rewrite app_nil_r.
    by destruct w as [[] ? ? ? ?].
  - unfold free_session in H. run_inv.
    match goal with H : orphan_release _ _ = _ |- _ => apply IH in H as -> end.
    match goal with w : World |- _ => destruct w as [[] ? ? ? ?] end. cbn.
    unfold with_sessions, set_trace, set_heap, set_sessions. cbn.
    rewrite delete_insert_eq, <- !app_assoc. reflexivity.
Qed.

Lemma orphan_release_total finished :
  forall w,
    NoDup finished ->
    (forall p, p ∈ finished -> is_Some (sessions (heap w) !! p)) ->
    is_Some (orphan_release finished w).
Proof.
  induction finished as [|p rest IH]; intros w Hnd Hall; cbn [orphan_release].
  - eexists. reflexivity.
  - apply NoDup_cons in Hnd as [Hp Hnd].
    destruct (Hall p (list_elem_of_here _ _)) as [s Hs].
    erewrite bind_run by (apply get_session_Some; eauto).
    erewrite bind_run by reflexivity.
    erewrite bind_run by reflexivity.
    unfold free_session.
    erewrite bind_run by (erewrite bind_run by reflexivity; reflexivity).
    erewrite bind_run by reflexivity.
    apply IH; [done |].
    intros q Hq. cbn.
    rewrite lookup_delete_ne by (intros ->; done).
    rewrite lookup_insert_ne by (intros ->; done).
    apply Hall. by right.
Qed.

(** The locked part of [orphan_free] on a registry of distinct nodes. *)
Lemma orphan_unlink_inv w finished w1 :
  NoDup (allOrphans w) ->
  orphan_unlink w = Some (finished, w1) ->
  finished = reverse (filter (to_be_freed (sessions (heap w))) (allOrphans w))
  /\ w1 = set_trace
            (trace w ++ [EvSpinlockAcquire orphanLock; EvSpinlockRelease orphanLock])
            (set_allOrphans
               (filter (fun p => ~ to_be_freed (sessions (heap w)) p) (allOrphans w))
               (with_sessions (mark_all (allOrphans w) (sessions (heap w))) w)).
Proof.
  intros Hnd H. unfold orphan_unlink, get_allOrphans, put_allOrphans in H.
  run_inv.
  match goal with H : orphan_scan _ _ _ = _ |- _ =>
    apply orphan_scan_inv in H as (Hk & Hf & ->); [| done] end.
  cbn in Hk, Hf. rewrite Hk, Hf, app_nil_r. split; [done |].
  match goal with w : World |- _ => destruct w as [[] ? ? ? ?] end. cbn.
  unfold with_sessions, set_trace, set_heap, set_sessions, set_allOrphans. cbn.
  rewrite <- app_assoc. reflexivity.
Qed.

Lemma orphan_unlink_total w :
  (forall p, p ∈ allOrphans w -> is_Some (sessions (heap w) !! p)) ->
  is_Some (orphan_unlink w).
Proof.
  intros Hall. unfold orphan_unlink.
  erewrite bind_run by reflexivity.
  unfold get_allOrphans. erewrite bind_run by reflexivity.
  destruct (orphan_scan_total (allOrphans w) []
              (set_trace (trace w ++ [EvSpinlockAcquire orphanLock]) w))
    as [[r w1] Hr]; [exact Hall |].
  cbn [allOrphans set_trace]. erewrite bind_run by exact Hr.
  eexists. reflexivity.
Qed.

Lemma freed_sessions_app tr1 tr2 :
  freed_sessions (tr1 ++ tr2) = (freed_sessions tr1 ++ freed_sessions tr2)%list.
Proof.
  induction tr1 as [|e tr1 IH]; [done |].
  destruct e; cbn; by rewrite IH.
Qed.

Lemma freed_sessions_release finished :
  freed_sessions (flat_map release_events finished) = finished.
Proof.
  induction finished as [|p rest IH]; [done |]. cbn. by rewrite IH.
Qed.

(** The run of [orphan_free] on a registry of distinct nodes, when it
    returns. *)
Lemma orphan_free_inv w w' :
  NoDup (allOrphans w) ->
  orphan_free w = Some (tt, w') ->
  let finished := reverse (filter (to_be_freed (sessions (heap w))) (allOrphans w)) in
  allOrphans w' = filter (fun p => ~ to_be_freed (sessions (heap w)) p) (allOrphans w)
  /\ trace w'
     = (trace w ++ [EvSpinlockAcquire orphanLock; EvSpinlockRelease orphanLock]
        ++ flat_map release_events finished)%list
  /\ sessions (heap w')
     = free_all finished (mark_all (allOrphans w) (sessions (heap w))).
Proof.
  intros Hnd H. unfold orphan_free in H.
  apply bind_Some in H as (fin & w1 & Hu & Hr).
  apply orphan_unlink_inv in Hu as [-> ->]; [| done].
  apply orphan_release_inv in Hr as ->.
  cbn. rewrite <- app_assoc. done.
Qed.

Lemma create_orphan_inv ses w w' :
  create_orphan ses w = Some (tt, w') ->
  freed_sessions (trace w') = freed_sessions (trace w)
  /\ (allOrphans w' = ses :: allOrphans w \/ allOrphans w' = allOrphans w).
Proof.
  unfold create_orphan, get_allOrphans, put_allOrphans. intros H.
  apply bind_Some in H as (ok & w1 & Hal & H).
  apply try_alloc_world in Hal as (_ & _ & Ho & Ht).
  destruct ok.
  - run_inv. cbn. rewrite Ht, Ho, !freed_sessions_app. cbn.
    rewrite !app_nil_r. auto.
  - unfold ret in H. simplify_eq. rewrite Ht, Ho. auto.
Qed.

Lemma registry_step_inv w w' :
  registry_inv w -> registry_step w w' -> registry_inv w'.
Proof.
  clear_env.
  unfold registry_inv. intros Hinv Hs.
  destruct Hs as [ses w0 w1 Hreg Hfreed Hc | w0 w1 Hf | w0 w1 Ho Ht].
  - apply create_orphan_inv in Hc as [-> [-> | ->]]; [| done].
    cbn. apply NoDup_cons. split; [| done].
    rewrite elem_of_app. tauto.
  - pose proof Hinv as Hnd. apply NoDup_app in Hnd as [Hnd _].
    apply orphan_free_inv in Hf as (-> & -> & _); [| done].
    rewrite !freed_sessions_app, freed_sessions_release. cbn.
    rewrite reverse_Permutation.
    rewrite (Permutation_app_comm (freed_sessions (trace w0))), app_assoc.
    rewrite (Permutation_app_comm (filter _ _) (filter _ _)).
    rewrite filter_app_complement. done.
  - by rewrite Ho, Ht.
Qed.

Lemma registry_steps_inv w w' :
  registry_inv w -> rtc registry_step w w' -> registry_inv w'.
Proof.
  intros Hinv Hr. induction Hr as [|w0 w1 w2 Hs _ IH]; [done |].
  apply IH. eapply registry_step_inv; eauto.
Qed.

Lemma orphan_scan_trace ptrs :
  forall fin w r w', orphan_scan ptrs fin w = Some (r, w') -> trace w' = trace w.
Proof.
  induction ptrs as [|q l IH]; intros f w r w' H; cbn [orphan_scan] in H.
  - unfold ret in H. by simplify_eq.
  - apply bind_Some in H as (s & w0 & Hs & H).
    apply get_session_Some in Hs as [_ ->].
    apply bind_Some in H as ([] & w1 & Hm & H).
    apply bind_Some in H as (r' & w2 & Hrec & H).
    unfold ret in H. simplify_eq. apply IH in Hrec as ->.
    destruct (_ && _); unfold put_session, ret in Hm; by simplify_eq.
Qed.

Lemma orphan_unlink_trace w finished w1 :
  orphan_unlink w = Some (finished, w1) ->
  trace w1
  = (trace w ++ [EvSpinlockAcquire orphanLock; EvSpinlockRelease orphanLock])%list.
Proof.
  unfold orphan_unlink, get_allOrphans, put_allOrphans. intros H. run_inv.
  match goal with
  | H : orphan_scan _ _ _ = Some _ |- _ => apply orphan_scan_trace in H
  end.
  cbn in *.
  match goal with H : trace _ = _ |- _ => rewrite H end.
  by rewrite <- app_assoc.
Qed.

(** A session that has been freed stays among the freed ones. *)
Lemma registry_step_freed p w w' :
  registry_step w w' ->
  p ∈ freed_sessions (trace w) -> p ∈ freed_sessions (trace w').
Proof.
  intros Hs Hp. destruct Hs as [ses w0 w1 _ _ Hc | w0 w1 Hf | w0 w1 _ Ht].
  - apply create_orphan_inv in Hc as [-> _]. done.
  - unfold orphan_free in Hf.
    apply bind_Some in Hf as (fin & wl & Hu & Hr).
    apply orphan_release_inv in Hr as ->.
    apply orphan_unlink_trace in Hu. cbn. rewrite Hu.
    rewrite !freed_sessions_app, !elem_of_app. auto.
  - by rewrite Ht.
Qed.

Lemma registry_steps_freed p w w' :
  rtc registry_step w w' ->
  p ∈ freed_sessions (trace w) -> p ∈ freed_sessions (trace w').
Proof.
  intros Hr. induction Hr as [|w0 w1 w2 Hs _ IH]; [done |].
  intros Hp. apply IH. eapply registry_step_freed; eauto.
Qed.

Lemma mark_all_lookup_notin ptrs :
  forall m p, p ∉ ptrs -> mark_all ptrs m !! p = m !! p.
Proof.
  induction ptrs as [|q rest IH]; intros m p Hp; [done |].
  apply not_elem_of_cons in Hp as [Hne Hp].
  unfold mark_all. cbn. fold (mark_all rest (mark m q)).
  rewrite IH by done. by apply mark_lookup_ne.
Qed.

Lemma mark_all_lookup_in ptrs :
  forall m p s,
    NoDup ptrs -> p ∈ ptrs -> m !! p = Some s ->
    mark_all ptrs m !! p
    = Some (if quiescentb s
            then SESSION.set_state SESSION_STATE_TO_BE_FREED s else s).
Proof.
  induction ptrs as [|q rest IH]; intros m p s Hnd Hp Hs.
  - by apply elem_of_nil in Hp.
  - apply NoDup_cons in Hnd as [Hq Hnd].
    unfold mark_all. cbn. fold (mark_all rest (mark m q)).
    destruct (decide (p = q)) as [->|Hne].
    + rewrite mark_all_lookup_notin by done.
      unfold mark. rewrite Hs. destruct (quiescentb s); [| done].
      by rewrite lookup_insert_eq.
    + apply elem_of_cons in Hp as [Hp|Hp]; [done |].
      apply IH; [done | done |]. by rewrite mark_lookup_ne.
Qed.

Lemma mark_all_is_Some ptrs :
  forall m q, is_Some (mark_all ptrs m !! q) <-> is_Some (m !! q).
Proof.
  induction ptrs as [|p rest IH]; intros m q; [done |].
  unfold mark_all. cbn. fold (mark_all rest (mark m p)).
  by rewrite IH, mark_is_Some.
Qed.

Lemma free_all_lookup_notin finished :
  forall m p, p ∉ finished -> free_all finished m !! p = m !! p.
Proof.
  induction finished as [|q rest IH]; intros m p Hp; [done |].
  apply not_elem_of_cons in Hp as [Hne Hp].
  unfold free_all. cbn. fold (free_all rest (delete q m)).
  rewrite IH by done. by rewrite lookup_delete_ne.
Qed.

Lemma free_all_lookup_in finished :
  forall m p, p ∈ finished -> free_all finished m !! p = None.
Proof.
  induction finished as [|q rest IH]; intros m p Hp.
  - by apply elem_of_nil in Hp.
  - unfold free_all. cbn. fold (free_all rest (delete q m)).
    destruct (decide (p ∈ rest)) as [Hin|Hnot]; [by apply IH |].
    apply elem_of_cons in Hp as [->|Hp]; [| done].
    rewrite free_all_lookup_notin by done. apply lookup_delete_eq.
Qed.

(** One run of [orphan_free] on a registry of distinct nodes that hold
    allocated sessions. *)
Lemma orphan_free_run w :
  registry_inv w ->
  registry_allocated w ->
  exists finished wl w',
    orphan_unlink w = Some (finished, wl)
    /\ orphan_release finished wl = Some (tt, w')
    /\ orphan_free w = Some (tt, w')
    /\ finished = reverse (filter (to_be_freed (sessions (heap w))) (allOrphans w))
    /\ NoDup finished
    /\ allOrphans wl
       = filter (fun p => ~ to_be_freed (sessions (heap w)) p) (allOrphans w)
    /\ sessions (heap wl) = mark_all (allOrphans w) (sessions (heap w))
    /\ trace wl
       = (trace w ++ [EvSpinlockAcquire orphanLock; EvSpinlockRelease orphanLock])%list
    /\ allOrphans w' = allOrphans wl
    /\ sessions (heap w') = free_all finished (sessions (heap wl))
    /\ trace w' = (trace wl ++ flat_map release_events finished)%list
    /\ registry_inv w'
    /\ registry_allocated w'.
Proof.
  clear_env.
  intros Hinv Halloc.
  pose proof Hinv as Hnd. apply NoDup_app in Hnd as [Hnd _].
  destruct (orphan_unlink_total w Halloc) as [[fin wl] Hu].
  pose proof Hu as Hu'. apply orphan_unlink_inv in Hu' as [Hfin Hwl]; [| done].
  assert (Hndf : NoDup fin).
  { rewrite Hfin, reverse_Permutation. apply NoDup_filter, Hnd. }
  assert (Hsl : sessions (heap wl) = mark_all (allOrphans w) (sessions (heap w)))
    by (by rewrite Hwl).
  destruct (orphan_release_total fin wl Hndf) as [[[] w'] Hr].
  { intros q Hq. rewrite Hsl. apply mark_all_is_Some, Halloc.
    rewrite Hfin in Hq. apply elem_of_reverse, list_elem_of_filter in Hq. tauto. }
  pose proof Hr as Hr'. apply orphan_release_inv in Hr' as Hw'.
  assert (Hfree : orphan_free w = Some (tt, w')).
  { unfold orphan_free. erewrite bind_run by exact Hu. exact Hr. }
  exists fin, wl, w'.
  assert (Hol : allOrphans wl
                = filter (fun p => ~ to_be_freed (sessions (heap w)) p) (allOrphans w))
    by (by rewrite Hwl).
  assert (Ho' : allOrphans w' = allOrphans wl) by (by rewrite Hw').
  assert (Hs' : sessions (heap w') = free_all fin (sessions (heap wl)))
    by (by rewrite Hw').
  repeat split; try done.
  - by rewrite Hwl.
  - by rewrite Hw'.
  - eapply registry_step_inv; [exact Hinv |]. by apply registry_scan.
  - intros q Hq. rewrite Ho', Hol in Hq.
    apply list_elem_of_filter in Hq as [Hq Hin].
    rewrite Hs', free_all_lookup_notin, Hsl.
    + apply mark_all_is_Some, Halloc, Hin.
    + rewrite Hfin. intros Hc.
      apply elem_of_reverse, list_elem_of_filter in Hc. tauto.
Qed.

(** C7. A branch session [p] is in the orphan registry, in the stopping
    state; the registry holds distinct, allocated sessions. A run of
    [orphan_free] keeps [p] registered and does not free it. It leaves
    [p] as it is while [p] has a reference or a client handle, and moves
    it to the to-be-freed state when it has neither. In that case the
    next run unlinks [p] from the registry under the lock, where nothing
    is freed, and after the lock is released it calls the free hook of
    the router for [p] and releases its memory, once; and whatever calls
    on the registry follow, [p] does not come back to the registry and
    is not freed a second time. *)
Theorem orphan_reclaimed_exactly_once (w : World) (p : addr) (s : SESSION) :
  registry_inv w ->
  registry_allocated w ->
  p ∈ allOrphans w ->
  sessions (heap w) !! p = Some s ->
  SESSION.state s = SESSION_STATE_STOPPING ->
  exists w1,
    orphan_free w = Some (tt, w1)
    /\ p ∈ allOrphans w1
    /\ (p ∉ freed_sessions (trace w1))
    /\ (~ quiescent s -> sessions (heap w1) !! p = Some s)
    /\ (quiescent s ->
        sessions (heap w1) !! p
        = Some (SESSION.set_state SESSION_STATE_TO_BE_FREED s)
        /\ (exists finished wl w2,
             orphan_unlink w1 = Some (finished, wl)
             /\ orphan_release finished wl = Some (tt, w2)
             /\ orphan_free w1 = Some (tt, w2)
             /\ p ∈ finished
             /\ NoDup finished
             /\ (p ∉ allOrphans wl)
             /\ is_Some (sessions (heap wl) !! p)
             /\ trace wl
                = (trace w1 ++ [EvSpinlockAcquire orphanLock;
                                EvSpinlockRelease orphanLock])%list
             /\ trace w2 = (trace wl ++ flat_map release_events finished)%list
             /\ sessions (heap w2) !! p = None
             /\ (forall w3,
                  rtc registry_step w2 w3 ->
                  (p ∉ allOrphans w3)
                  /\ p ∈ freed_sessions (trace w3)
                  /\ NoDup (freed_sessions (trace w3))))).
Proof.
  clear_env.
  intros Hinv Halloc Hp Hs Hst.
  destruct (orphan_free_run w Hinv Halloc)
    as (fin & wl & w1 & _ & _ & Hfree & Hfin & _ & Hol & Hsl & _ & Ho1 & Hs1
        & _ & Hinv1 & Halloc1).
  pose proof Hinv as Hnd. apply NoDup_app in Hnd as [Hnd _].
  assert (Hntbf : ~ to_be_freed (sessions (heap w)) p).
  { unfold to_be_freed. rewrite Hs. cbn. rewrite Hst. done. }
  assert (Hpfin : p ∉ fin).
  { rewrite Hfin. intros Hc.
    apply elem_of_reverse, list_elem_of_filter in Hc. tauto. }
  assert (Hp1 : p ∈ allOrphans w1).
  { rewrite Ho1, Hol. by apply list_elem_of_filter. }
  assert (Hlook : sessions (heap w1) !! p
                  = Some (if quiescentb s
                          then SESSION.set_state SESSION_STATE_TO_BE_FREED s
                          else s)).
  { rewrite Hs1, free_all_lookup_notin, Hsl by done.
    by apply mark_all_lookup_in. }
  exists w1. split; [exact Hfree |]. split; [exact Hp1 |]. split.
  { intros Hc. unfold registry_inv in Hinv1.
    apply NoDup_app in Hinv1 as (_ & Hdis & _). by apply (Hdis p). }
  split.
  { intros Hnq. rewrite Hlook.
    destruct (quiescentb s) eqn:E; [| done].
    apply quiescentb_spec in E. done. }
  intros Hq. apply quiescentb_spec in Hq. rewrite Hq in Hlook.
  split; [exact Hlook |].
  destruct (orphan_free_run w1 Hinv1 Halloc1)
    as (fin2 & wl2 & w2 & Hu2 & Hr2 & Hfree2 & Hfin2 & Hnd2 & Hol2 & Hsl2
        & Htl2 & Ho2 & Hs2 & Ht2 & Hinv2 & _).
  assert (Htbf : to_be_freed (sessions (heap w1)) p).
  { unfold to_be_freed. rewrite Hlook. by destruct s. }
  assert (Hpfin2 : p ∈ fin2).
  { rewrite Hfin2. apply elem_of_reverse, list_elem_of_filter. done. }
  exists fin2, wl2, w2.
  repeat split; try done.
  - rewrite Hol2. intros Hc. apply list_elem_of_filter in Hc. tauto.
  - rewrite Hsl2. apply mark_all_is_Some. rewrite Hlook. eauto.
  - rewrite Hs2. by apply free_all_lookup_in.
  - assert (Hfreed : p ∈ freed_sessions (trace w3)).
    { eapply registry_steps_freed; [done |].
      rewrite Ht2, freed_sessions_app, freed_sessions_release.
      apply elem_of_app. by right. }
    pose proof (registry_steps_inv _ _ Hinv2 H) as Hinv3.
    apply NoDup_app in Hinv3 as (_ & Hdis & _).
    intros Hc. by apply (Hdis p).
  - eapply registry_steps_freed; [done |].
    rewrite Ht2, freed_sessions_app, freed_sessions_release.
    apply elem_of_app. by right.
  - pose proof (registry_steps_inv _ _ Hinv2 H) as Hinv3.
    by apply NoDup_app in Hinv3 as (_ & _ & ?).
Qed.

(** C4, as the code has it. A clone was produced for an active session
    with a branch session. If the branch session is not ready when the
    dispatch starts, the clone is not forwarded to it. If it is ready
    then, and no longer ready when the clone is to be forwarded, after
    the primary buffer has gone downstream, the dispatch frees the clone
    without forwarding it, sets [active] to [0], where it stays, and
    returns [0] to the caller in place of the status of the primary
    path. *)
Theorem dispatch_drops_clone_and_reports_failure
    (my_instance : TEE_INSTANCE) (my_session : TEE_SESSION)
    (buffer clone : GWBUF) (w : World) (b : addr) (bs : SESSION) :
  truthy (TEE_SESSION.active my_session) = true ->
  TEE_SESSION.branch_session my_session = Some b ->
  sessions (heap w) !! b = Some bs ->
  (SESSION.state bs <> SESSION_STATE_ROUTER_READY ->
   exists r s' w' evs,
     route_single_query my_instance my_session buffer (Some clone) w
     = Some ((r, s'), w')
     /\ trace w' = (trace w ++ evs)%list
     /\ Forall (fun e => is_branch_route e = false) evs)
  /\ (SESSION.state bs = SESSION_STATE_ROUTER_READY ->
      forall d rval h' bs',
        TEE_SESSION.down my_session = Some d ->
        DOWNSTREAM.routeQuery d buffer (heap w) = (rval, h') ->
        sessions h' !! b = Some bs' ->
        SESSION.state bs' <> SESSION_STATE_ROUTER_READY ->
        exists s' w',
          route_single_query my_instance my_session buffer (Some clone) w
          = Some ((0, s'), w')
          /\ TEE_SESSION.active s' = 0
          /\ heap w' = h'
          /\ trace w'
             = (trace w ++ [EvDownRouteQuery buffer;
                            EvLog LOG_INFO
                              "Closed tee filter session: Child session in invalid state.";
                            EvGwbufFree clone])%list
          /\ (forall s'' w'',
                rtc (step my_instance) (s', w') (s'', w'') ->
                TEE_SESSION.active s'' = 0)).
Proof.
  intros Ha Hb Hs. split.
  - intros Hst. exists 0, my_session, w, [].
    split; [| split; [by rewrite app_nil_r | constructor]].
    apply route_single_query_not_ready.
    rewrite (branch_is_ready_state _ _ _ _ Ha Hb Hs), bool_decide_false; done.
  - intros Hst d rval h' bs' Hd Hr Hs' Hst'.
    eexists _, _. split.
    { eapply route_single_query_branch_lost; eauto. }
    split; [apply set_active_active |].
    split; [reflexivity |]. split; [reflexivity |].
    intros s'' w'' Hsteps.
    eapply inactive_forever; [| exact Hsteps]. apply set_active_active.
Qed.

(** * Further properties of the filter *)

(** ** Match engine *)

(** X1. [packet_is_required] returns [1] for a packet of more than four
    bytes whose byte at offset 4 is one of the nine required commands,
    and [0] for every other buffer. A buffer of four bytes or fewer (a
    bare header) is never required; nor is the command byte [0], which
    ends the table, nor [COM_FIELD_LIST], which the file defines and
    leaves out of the table. *)
Theorem packet_is_required_exact (queue : GWBUF) :
  (packet_is_required queue = 1
   <-> 4 < GWBUF_LENGTH queue /\ In (GWBUF_DATA queue 4) required_commands)
  /\ (packet_is_required queue = 0
      <-> ~ (4 < GWBUF_LENGTH queue /\ In (GWBUF_DATA queue 4) required_commands))
  /\ (GWBUF_LENGTH queue <= 4 -> packet_is_required queue = 0)
  /\ (GWBUF_DATA queue 4 = 0 -> packet_is_required queue = 0)
  /\ (GWBUF_DATA queue 4 = MYSQL_COM_FIELD_LIST -> packet_is_required queue = 0).
Proof.
  clear_env.
  assert (Hnot0 : ~ In 0 required_commands)
    by (intros H; apply required_scan_table in H; discriminate H).
  assert (Hnot4 : ~ In MYSQL_COM_FIELD_LIST required_commands)
    by (intros H; apply required_scan_table in H; discriminate H).
  unfold packet_is_required.
  destruct (Z.ltb_spec 4 (GWBUF_LENGTH queue)) as [Hlen|Hlen].
  - pose proof (required_scan_table (GWBUF_DATA queue 4)) as Htbl.
    destruct (required_scan_bit (GWBUF_DATA queue 4) required_packets) as [E|E];
      rewrite E in *.
    + assert (Hn : ~ In (GWBUF_DATA queue 4) required_commands)
        by (intros H; apply Htbl in H; discriminate H).
      repeat split; try tauto; try discriminate; try lia.
    + assert (Hin : In (GWBUF_DATA queue 4) required_commands)
        by (by apply Htbl).
      repeat split; try tauto; try discriminate; try lia.
      * intros H0. rewrite H0 in Hin. contradiction.
      * intros H4. rewrite H4 in Hin. contradiction.
  - repeat split; try tauto; try discriminate; try lia.
Qed.

(** X2. With one pattern configured, a packet without a required command is
    cloned by that pattern alone: under an include pattern, when its SQL
    text matches; under an exclude pattern, when its SQL text does not
    match. A packet from which no SQL text can be extracted is not
    cloned. *)
Theorem clone_query_single_pattern
    (my_instance : TEE_INSTANCE) (my_session : TEE_SESSION) (buffer : GWBUF) :
  ~ has_required_command buffer ->
  (forall incl,
      TEE_INSTANCE.match_ my_instance = Some incl ->
      TEE_INSTANCE.nomatch my_instance = None ->
      (forall sql, modutil_get_SQL buffer = Some sql ->
         (regexec (TEE_INSTANCE.re my_instance) sql = 0 ->
          clone_query my_instance my_session buffer = Some buffer)
         /\ (regexec (TEE_INSTANCE.re my_instance) sql <> 0 ->
             clone_query my_instance my_session buffer = None))
      /\ (modutil_get_SQL buffer = None ->
          clone_query my_instance my_session buffer = None))
  /\ (forall excl,
         TEE_INSTANCE.match_ my_instance = None ->
         TEE_INSTANCE.nomatch my_instance = Some excl ->
         (forall sql, modutil_get_SQL buffer = Some sql ->
            (regexec (TEE_INSTANCE.nore my_instance) sql <> 0 ->
             clone_query my_instance my_session buffer = Some buffer)
            /\ (regexec (TEE_INSTANCE.nore my_instance) sql = 0 ->
                clone_query my_instance my_session buffer = None))
         /\ (modutil_get_SQL buffer = None ->
             clone_query my_instance my_session buffer = None)).
Proof.
  clear_env.
  intros Hreq.
  assert (Hp : truthy (packet_is_required buffer) = false).
  { destruct (truthy (packet_is_required buffer)) eqn:E; [| reflexivity].
    apply packet_is_required_spec in E. contradiction. }
  split.
  - intros incl Hm Hn. unfold clone_query. rewrite Hm, Hn, Hp.
    cbn [non_null negb andb orb]. split.
    + intros sql ->. rewrite orb_false_r. split; intros H.
      * rewrite H. reflexivity.
      * apply Z.eqb_neq in H. rewrite H. reflexivity.
    + intros ->. reflexivity.
  - intros excl Hm Hn. unfold clone_query. rewrite Hm, Hn, Hp.
    cbn [non_null negb andb orb]. split.
    + intros sql ->. split; intros H.
      * apply Z.eqb_neq in H. rewrite H. reflexivity.
      * rewrite H. reflexivity.
    + intros ->. reflexivity.
Qed.

(** ** Query router *)

Lemma route_single_query_no_clone
    my_instance my_session buffer w b bs d rval h' :
  truthy (TEE_SESSION.active my_session) = true ->
  TEE_SESSION.branch_session my_session = Some b ->
  TEE_SESSION.down my_session = Some d ->
  sessions (heap w) !! b = Some bs ->
  SESSION.state bs = SESSION_STATE_ROUTER_READY ->
  DOWNSTREAM.routeQuery d buffer (heap w) = (rval, h') ->
  route_single_query my_instance my_session buffer None w
  = Some ((rval, my_session),
          set_trace (trace w ++ [EvDownRouteQuery buffer]) (set_heap h' w)).
Proof.
  intros Ha Hb Hd Hs Hst Hr.
  unfold route_single_query.
  apply bind_Some. exists true, w. split.
  { rewrite (branch_is_ready_state _ _ _ _ Ha Hb Hs), bool_decide_true; done. }
  rewrite Hd, Hb.
  unfold bind, emit, call_heap, ret; cbn.
  rewrite Hr. reflexivity.
Qed.

Lemma setDownstream_fields s d :
  TEE_SESSION.down (setDownstream s d) = Some d
  /\ TEE_SESSION.active (setDownstream s d) = TEE_SESSION.active s
  /\ TEE_SESSION.branch_session (setDownstream s d) = TEE_SESSION.branch_session s
  /\ TEE_SESSION.n_duped (setDownstream s d) = TEE_SESSION.n_duped s.
Proof. destruct s. cbn. auto. Qed.

(** X3. The healthy path. An active session whose branch session is ready
    has the query routed to the downstream set by [setDownstream] first.
    When [clone_query] makes no clone, that is all: the status of the
    downstream is returned and the session is as before. When it makes
    one and the branch session is still ready after the downstream has
    run, the clone is routed to the branch session next, the counter of
    duplicated statements goes up by one and the status is still the
    one of the downstream. *)
Theorem routeQuery_healthy
    (my_instance : TEE_INSTANCE) (my_session : TEE_SESSION) (queue : GWBUF)
    (w : World) (b : addr) (bs : SESSION) (d : DOWNSTREAM) (rval : Z) (h' : Heap) :
  truthy (TEE_SESSION.active my_session) = true ->
  TEE_SESSION.branch_session my_session = Some b ->
  sessions (heap w) !! b = Some bs ->
  SESSION.state bs = SESSION_STATE_ROUTER_READY ->
  DOWNSTREAM.routeQuery d queue (heap w) = (rval, h') ->
  let s := setDownstream my_session d in
  (clone_query my_instance s queue = None ->
   routeQuery my_instance s queue w
   = Some ((rval, s),
           set_trace (trace w ++ [EvDownRouteQuery queue]) (set_heap h' w)))
  /\ (forall clone bs',
         clone_query my_instance s queue = Some clone ->
         sessions h' !! b = Some bs' ->
         SESSION.state bs' = SESSION_STATE_ROUTER_READY ->
         routeQuery my_instance s queue w
         = Some ((rval, count_duped s),
                 set_trace
                   (trace w ++ [EvDownRouteQuery queue; EvSessionRouteQuery b clone])
                   (set_heap h' w))).
Proof.
  clear_env.
  intros Ha Hb Hs Hst Hr s.
  destruct (setDownstream_fields my_session d) as (Hd & Ha' & Hb' & _).
  fold s in Hd, Ha', Hb'. rewrite <- Ha' in Ha. rewrite <- Hb' in Hb.
  split.
  - intros Hc. unfold routeQuery. rewrite Hc.
    eapply route_single_query_no_clone; eauto.
  - intros clone bs' Hc Hs' Hst'. unfold routeQuery. rewrite Hc.
    eapply route_single_query_duplicates; eauto.
Qed.

(** X4. A packet with a required command on the healthy path: whatever the
    patterns of the instance are, the whole packet goes to the
    downstream and then to the branch session. *)
Theorem required_packet_reaches_branch
    (my_instance : TEE_INSTANCE) (my_session : TEE_SESSION) (queue : GWBUF)
    (w : World) (b : addr) (bs bs' : SESSION) (d : DOWNSTREAM) (rval : Z)
    (h' : Heap) :
  has_required_command queue ->
  truthy (TEE_SESSION.active my_session) = true ->
  TEE_SESSION.branch_session my_session = Some b ->
  TEE_SESSION.down my_session = Some d ->
  sessions (heap w) !! b = Some bs ->
  SESSION.state bs = SESSION_STATE_ROUTER_READY ->
  DOWNSTREAM.routeQuery d queue (heap w) = (rval, h') ->
  sessions h' !! b = Some bs' ->
  SESSION.state bs' = SESSION_STATE_ROUTER_READY ->
  exists s' w',
    routeQuery my_instance my_session queue w = Some ((rval, s'), w')
    /\ trace w'
       = (trace w ++ [EvDownRouteQuery queue; EvSessionRouteQuery b queue])%list.
Proof.
  clear_env.
  intros Hreq Ha Hb Hd Hs Hst Hr Hs' Hst'.
  assert (Hc : clone_query my_instance my_session queue = Some queue).
  { apply packet_is_required_spec in Hreq. unfold clone_query.
    rewrite Hreq, orb_true_r. reflexivity. }
  eexists _, _. split.
  - unfold routeQuery. rewrite Hc.
    eapply route_single_query_duplicates; eauto.
  - reflexivity.
Qed.

(** X5. What a dispatch does to the counters. The counter of duplicated
    statements goes up by one exactly when the session passed the guard
    and a clone was handed in, also when that clone is then dropped;
    the counter of rejected statements is never touched; [active] is
    cleared only together with a status of [0]. *)
Theorem route_single_query_counters
    (my_instance : TEE_INSTANCE) (s : TEE_SESSION) (buffer : GWBUF)
    (clone : option GWBUF) (w : World) (r : Z) (s' : TEE_SESSION) (w' : World) :
  route_single_query my_instance s buffer clone w = Some ((r, s'), w') ->
  exists ready,
    branch_is_ready s w = Some (ready, w)
    /\ TEE_SESSION.n_duped s'
       = (if ready && non_null clone
          then wrap_int (TEE_SESSION.n_duped s + 1)
          else TEE_SESSION.n_duped s)
    /\ TEE_SESSION.n_rejected s' = TEE_SESSION.n_rejected s
    /\ (TEE_SESSION.active s' = TEE_SESSION.active s
        \/ (TEE_SESSION.active s' = 0 /\ r = 0
            /\ ready = true /\ non_null clone = true)).
Proof.
  clear_env.
  intros H. unfold route_single_query in H.
  apply bind_Some in H as (ready & w1 & Hready & H).
  assert (w1 = w) as ->.
  { unfold branch_is_ready in Hready. run_inv; reflexivity. }
  exists ready. split; [exact Hready |].
  destruct ready; [| unfold ret in H; simplify_eq; cbn; auto].
  destruct (TEE_SESSION.down s) as [d|]; [| run_inv].
  destruct (TEE_SESSION.branch_session s) as [b|]; [| run_inv].
  apply bind_Some in H as ([] & w2 & _ & H).
  apply bind_Some in H as (rval & w3 & _ & H).
  destruct clone as [c|]; [| unfold ret in H; simplify_eq; cbn; auto].
  apply bind_Some in H as (bs & w4 & _ & H).
  destruct (bool_decide _).
  - apply bind_Some in H as ([] & w5 & _ & H).
    unfold ret in H. injection H as <- <- <-.
    destruct s; cbn; auto.
  - apply bind_Some in H as ([] & w5 & _ & H).
    apply bind_Some in H as ([] & w6 & _ & H).
    unfold ret in H. injection H as <- <- <-.
    destruct s; cbn; auto 10.
Qed.

(** X6. Deactivation is for good and takes the primary path with it: from a
    session whose [active] is [0], after any calls of the core and any
    changes of the world, every query gets status [0] and is forwarded
    nowhere. *)
Theorem deactivated_session_routes_nothing
    (my_instance : TEE_INSTANCE) (s s1 : TEE_SESSION) (w w1 : World)
    (queue : GWBUF) :
  TEE_SESSION.active s = 0 ->
  rtc (step my_instance) (s, w) (s1, w1) ->
  routeQuery my_instance s1 queue w1 = Some ((0, s1), w1).
Proof.
  clear_env.
  intros Ha Hrun.
  apply routeQuery_without_branch. left.
  eapply inactive_forever; eauto.
Qed.

(** ** Replies *)


(** ** Residual state *)

(** X8. [reset_session_state] on a buffer of fewer than five bytes returns
    [0] and leaves the session as it is. On a longer buffer it returns
    [1]: the command is the byte at offset 4, both sides wait for a
    reply, the reply counters are zero, a reply of several packets is
    expected exactly for the commands [0x1b], [0x03], [0x16], [0x17],
    [0x04] and [0x0a], and [client_multistatement] changes only for
    [0x1b], to the byte at offset 5; the activity of the session, its
    branch and its statistics are not touched. A [0x1b] packet of
    exactly five bytes makes it read the byte after the buffer. *)
Theorem reset_session_state_spec (s : TEE_SESSION) (buffer : GWBUF) :
  (GWBUF_LENGTH buffer < 5 -> reset_session_state s buffer = Some (0, s))
  /\ (5 <= GWBUF_LENGTH buffer ->
      GWBUF_DATA buffer 4 <> 0x1b \/ 5 < GWBUF_LENGTH buffer ->
      exists s',
        reset_session_state s buffer = Some (1, s')
        /\ TEE_SESSION.command s' = GWBUF_DATA buffer 4
        /\ TEE_SESSION.waiting s' = (true, true)
        /\ TEE_SESSION.replies s' = (0, 0)
        /\ TEE_SESSION.reply_packets s' = (0, 0)
        /\ TEE_SESSION.eof s' = (0, 0)
        /\ TEE_SESSION.multipacket s'
           = (multipacket_command (GWBUF_DATA buffer 4),
              multipacket_command (GWBUF_DATA buffer 4))
        /\ TEE_SESSION.client_multistatement s'
           = (if GWBUF_DATA buffer 4 =? 0x1b then GWBUF_DATA buffer 5
              else TEE_SESSION.client_multistatement s)
        /\ TEE_SESSION.active s' = TEE_SESSION.active s
        /\ TEE_SESSION.branch_session s' = TEE_SESSION.branch_session s
        /\ TEE_SESSION.client_dcb s' = TEE_SESSION.client_dcb s
        /\ TEE_SESSION.n_duped s' = TEE_SESSION.n_duped s
        /\ TEE_SESSION.n_rejected s' = TEE_SESSION.n_rejected s)
  /\ (GWBUF_LENGTH buffer = 5 -> GWBUF_DATA buffer 4 = 0x1b ->
      reset_session_state s buffer = None).
Proof.
  clear_env.
  unfold reset_session_state, multipacket_command.
  split; [| split].
  - intros H. apply Z.ltb_lt in H. rewrite H. reflexivity.
  - intros H5 H6.
    assert (E5 : (GWBUF_LENGTH buffer <? 5) = false) by (apply Z.ltb_ge; lia).
    rewrite E5.
    destruct (Z.eqb_spec (GWBUF_DATA buffer 4) 0x1b) as [Ec|Ec].
    + assert (E6 : (5 <? GWBUF_LENGTH buffer) = true)
        by (apply Z.ltb_lt; destruct H6; [contradiction | lia]).
      rewrite E6. eexists. split; [reflexivity |].
      destruct s; cbn. auto 20.
    + cbn [orb].
      destruct ((GWBUF_DATA buffer 4 =? 3) || (GWBUF_DATA buffer 4 =? 22)
                || (GWBUF_DATA buffer 4 =? 23) || (GWBUF_DATA buffer 4 =? 4)
                || (GWBUF_DATA buffer 4 =? 10));
        (eexists; split; [reflexivity |]); destruct s; cbn; auto 20.
  - intros H5 Hc. rewrite H5, Hc. reflexivity.
Qed.

(** X9. Resetting twice on the same buffer is resetting once. *)
Theorem reset_session_state_idempotent
    (s s1 : TEE_SESSION) (buffer : GWBUF) (r : Z) :
  reset_session_state s buffer = Some (r, s1) ->
  reset_session_state s1 buffer = Some (r, s1).
Proof.
  clear_env.
  unfold reset_session_state. intros H.
  destruct (GWBUF_LENGTH buffer <? 5); [by simplify_eq |].
  destruct (GWBUF_DATA buffer 4 =? 27).
  - destruct (5 <? GWBUF_LENGTH buffer); [| discriminate H].
    simplify_eq. destruct s; reflexivity.
  - destruct ((GWBUF_DATA buffer 4 =? 3) || (GWBUF_DATA buffer 4 =? 22)
              || (GWBUF_DATA buffer 4 =? 23) || (GWBUF_DATA buffer 4 =? 4)
              || (GWBUF_DATA buffer 4 =? 10));
      simplify_eq; destruct s; reflexivity.
Qed.

(** ** Closing a session *)

(** The first half of [closeSession]: the branch session is stopped and
    its router is asked to close it. *)
Lemma close_branch_run (b : option addr) (w w1 : World) :
  (match b with
   | Some bsession =>
       emit (EvSpinlockAcquire (ses_lock bsession));;
       do bs <- get_session bsession;
       (if bool_decide (SESSION.state bs <> SESSION_STATE_STOPPING)
        then put_session bsession (SESSION.set_state SESSION_STATE_STOPPING bs)
        else ret tt);;
       emit (EvSpinlockRelease (ses_lock bsession));;
       emit (EvRouterCloseSession bsession)
   | None => ret tt
   end) w = Some (tt, w1) ->
  trace w1 = (trace w ++ close_branch_events b)%list
  /\ dcbs (heap w1) = dcbs (heap w)
  /\ allOrphans w1 = allOrphans w
  /\ match b with
     | Some bsession =>
         exists bs,
           sessions (heap w) !! bsession = Some bs
           /\ sessions (heap w1)
              = <[bsession := SESSION.set_state SESSION_STATE_STOPPING bs]>
                  (sessions (heap w))
     | None => sessions (heap w1) = sessions (heap w)
     end.
Proof.
  clear_env.
  intros H. destruct b as [b|].
  - apply bind_Some in H as ([] & wa & Ha & H).
    unfold emit in Ha. injection Ha as <-.
    apply bind_Some in H as (bs & wb & Hb & H).
    apply get_session_Some in Hb as [Hb ->]. cbn in Hb.
    apply bind_Some in H as ([] & wc & Hc & H).
    apply bind_Some in H as ([] & wd & Hd & H).
    unfold emit in Hd, H. injection Hd as <-. injection H as <-.
    destruct (bool_decide_reflect (SESSION.state bs <> SESSION_STATE_STOPPING))
      as [Hne|Heq].
    + unfold put_session in Hc. injection Hc as <-. cbn.
      rewrite <- !app_assoc. repeat split. eauto.
    + unfold ret in Hc. injection Hc as <-. cbn.
      rewrite <- !app_assoc. repeat split. exists bs. split; [done |].
      assert (SESSION.set_state SESSION_STATE_STOPPING bs = bs) as ->.
      { destruct bs as [st rc cd sv]. cbn in *.
        destruct (decide (st = SESSION_STATE_STOPPING)) as [->|]; [done |].
        contradiction. }
      symmetry. by apply insert_id.
  - unfold ret in H. injection H as <-. cbn. by rewrite app_nil_r.
Qed.

(** X10. Closing an active session with a branch session, with no reply owed
    to the client: the branch session is put into the stopping state,
    whatever its state was, under its lock, and after the lock is
    released its router is asked to close it, once. No other session
    and no DCB changes, and the session structure only loses [active]. *)
Theorem closeSession_stops_branch
    (my_instance : TEE_INSTANCE) (s : TEE_SESSION) (w : World) (b : addr)
    (bs : SESSION) :
  truthy (TEE_SESSION.active s) = true ->
  TEE_SESSION.branch_session s = Some b ->
  sessions (heap w) !! b = Some bs ->
  (TEE_SESSION.waiting s).1 = false ->
  exists w',
    closeSession my_instance s w = Some (TEE_SESSION.set_active 0 s, w')
    /\ sessions (heap w') !! b
       = Some (SESSION.set_state SESSION_STATE_STOPPING bs)
    /\ (forall q, q <> b -> sessions (heap w') !! q = sessions (heap w) !! q)
    /\ dcbs (heap w') = dcbs (heap w)
    /\ allOrphans w' = allOrphans w
    /\ trace w'
       = (trace w ++ [EvSpinlockAcquire (ses_lock b);
                      EvSpinlockRelease (ses_lock b);
                      EvRouterCloseSession b])%list.
Proof.
  clear_env.
  intros Ha Hb Hs Hw.
  unfold closeSession. rewrite Ha, Hb. cbn [at_side PARENT]. rewrite Hw.
  unfold bind, emit, get_session, put_session, ret; cbn. rewrite Hs; cbn.
  destruct (bool_decide_reflect (SESSION.state bs <> SESSION_STATE_STOPPING))
    as [Hne|Heq]; cbn.
  - eexists. split; [reflexivity |]. cbn.
    rewrite lookup_insert_eq, <- !app_assoc. repeat split.
    intros q Hq. by rewrite lookup_insert_ne.
  - eexists. split; [reflexivity |]. cbn.
    rewrite <- !app_assoc. repeat split.
    rewrite Hs. f_equal. destruct bs as [st rc cd sv]. cbn in *.
    destruct (decide (st = SESSION_STATE_STOPPING)) as [->|]; [done |].
    contradiction.
Qed.

(** X11. The error reply of [closeSession]. An active session whose client
    waits for the reply to a command other than [COM_QUIT], on a DCB
    that is polling, gets the "Session closed." error packet written to
    that DCB as the last thing [closeSession] does. In every other case
    nothing is written to the client. *)
Theorem closeSession_replies_mid_query
    (my_instance : TEE_INSTANCE) (s s' : TEE_SESSION) (w w' : World) :
  closeSession my_instance s w = Some (s', w') ->
  exists evs,
    trace w' = (trace w ++ evs)%list
    /\ (forall dcb,
           truthy (TEE_SESSION.active s) = true ->
           closed_mid_query s w dcb ->
           exists evs0,
             evs = (evs0 ++ [EvLog LOG_INFO "Tee session closed mid-query.";
                             EvDcbWrite dcb session_closed_reply])%list
             /\ Forall (fun e => is_client_write e = false) evs0)
    /\ (truthy (TEE_SESSION.active s) = false
        \/ (forall dcb, ~ closed_mid_query s w dcb) ->
        Forall (fun e => is_client_write e = false) evs).
Proof.
  clear_env.
  intros H. unfold closeSession in H.
  destruct (truthy (TEE_SESSION.active s)) eqn:Ha.
  2:{ unfold ret in H. injection H as <- <-. exists []. rewrite app_nil_r.
      split; [done |]. split; [discriminate | constructor]. }
  apply bind_Some in H as ([] & w1 & Hbr & H).
  apply close_branch_run in Hbr as (Htr & Hd & _ & _).
  assert (Hbranch : Forall (fun e => is_client_write e = false)
                      (close_branch_events (TEE_SESSION.branch_session s))).
  { destruct (TEE_SESSION.branch_session s); cbn; repeat constructor. }
  apply bind_Some in H as ([] & w2 & Hmid & H).
  unfold ret in H. injection H as <- <-.
  unfold closed_mid_query. rewrite <- Hd.
  cbn [at_side PARENT] in Hmid.
  destruct (TEE_SESSION.waiting s).1 eqn:Hw.
  2:{ unfold ret in Hmid. injection Hmid as <-. eexists. split; [exact Htr |].
      split; [| done]. intros dcb _ (Hc & _). discriminate Hc. }
  destruct (Z.eqb_spec (TEE_SESSION.command s) 1) as [Hc|Hc]; cbn [negb] in Hmid.
  { unfold ret in Hmid. injection Hmid as <-. eexists. split; [exact Htr |].
    split; [| done]. intros dcb _ (_ & Hne & _). contradiction. }
  destruct (TEE_SESSION.client_dcb s) as [dcb|] eqn:Hcd.
  2:{ unfold ret in Hmid. injection Hmid as <-. eexists. split; [exact Htr |].
      split; [| done]. intros dcb _ (_ & _ & Hx & _). discriminate Hx. }
  apply bind_Some in Hmid as (d & wd & Hget & Hmid).
  apply get_dcb_Some in Hget as [Hget ->].
  destruct (bool_decide_reflect (DCB.state d = DCB_STATE_POLLING)) as [Hp|Hp].
  - apply bind_Some in Hmid as ([] & we & He & Hmid).
    unfold emit in He, Hmid. injection He as <-. injection Hmid as <-. cbn.
    exists (close_branch_events (TEE_SESSION.branch_session s)
            ++ [EvLog LOG_INFO "Tee session closed mid-query.";
                EvDcbWrite dcb session_closed_reply])%list.
    rewrite Htr, <- !app_assoc. split; [reflexivity |]. split.
    + intros dcb' _ (_ & _ & [= <-] & _). eauto.
    + intros [Hx | Hx]; [discriminate Hx |].
      exfalso. apply (Hx dcb). rewrite Hget. cbn. by rewrite Hp.
  - unfold ret in Hmid. injection Hmid as <-. eexists. split; [exact Htr |].
    split; [| done]. intros dcb' _ (_ & _ & [= <-] & Hst).
    rewrite Hget in Hst. cbn in Hst. congruence.
Qed.

(** X12. [reset_session_state] followed by [closeSession]. A session that is
    reset on a command packet and then closed, with its client DCB
    polling, has the error reply written to the client when the command
    is not [COM_QUIT], and nothing written when it is. *)
Theorem reset_then_close
    (my_instance : TEE_INSTANCE) (s s1 s2 : TEE_SESSION) (buffer : GWBUF)
    (w w2 : World) (dcb : addr) :
  reset_session_state s buffer = Some (1, s1) ->
  truthy (TEE_SESSION.active s) = true ->
  TEE_SESSION.client_dcb s = Some dcb ->
  DCB.state <$> dcbs (heap w) !! dcb = Some DCB_STATE_POLLING ->
  closeSession my_instance s1 w = Some (s2, w2) ->
  exists evs,
    trace w2 = (trace w ++ evs)%list
    /\ (GWBUF_DATA buffer 4 <> MYSQL_COM_QUIT ->
        last evs = Some (EvDcbWrite dcb session_closed_reply))
    /\ (GWBUF_DATA buffer 4 = MYSQL_COM_QUIT ->
        Forall (fun e => is_client_write e = false) evs).
Proof.
  clear_env.
  intros Hreset Ha Hcd Hp Hclose.
  assert (Hs1 : (GWBUF_LENGTH buffer <? 5) = false
                /\ TEE_SESSION.command s1 = GWBUF_DATA buffer 4
                /\ TEE_SESSION.waiting s1 = (true, true)
                /\ TEE_SESSION.active s1 = TEE_SESSION.active s
                /\ TEE_SESSION.client_dcb s1 = TEE_SESSION.client_dcb s).
  { unfold reset_session_state in Hreset.
    destruct (GWBUF_LENGTH buffer <? 5); [discriminate Hreset |].
    repeat case_match; simplify_eq; destruct s; cbn; auto. }
  destruct Hs1 as (_ & Hcmd & Hwait & Hact & Hdcb).
  unfold closeSession in Hclose. rewrite Hact, Ha in Hclose.
  apply bind_Some in Hclose as ([] & w1 & Hbr & H).
  apply close_branch_run in Hbr as (Htr & Hd & _ & _).
  apply bind_Some in H as ([] & wm & Hmid & H).
  unfold ret in H. injection H as <- <-.
  cbn [at_side PARENT] in Hmid. rewrite Hwait, Hcmd, Hdcb, Hcd in Hmid.
  cbn [fst] in Hmid. rewrite <- Hd in Hp.
  destruct (Z.eqb_spec (GWBUF_DATA buffer 4) 1) as [Hq|Hq]; cbn [negb] in Hmid.
  - unfold ret in Hmid. injection Hmid as <-. eexists. split; [exact Htr |].
    split; [intros Hne; contradiction |]. intros _.
    destruct (TEE_SESSION.branch_session s1); cbn; repeat constructor.
  - apply bind_Some in Hmid as (d & wd & Hget & Hmid).
    apply get_dcb_Some in Hget as [Hget ->].
    rewrite Hget in Hp. cbn in Hp. injection Hp as Hp.
    rewrite bool_decide_true in Hmid by done.
    apply bind_Some in Hmid as ([] & we & He & Hmid).
    unfold emit in He, Hmid. injection He as <-. injection Hmid as <-. cbn.
    exists (close_branch_events (TEE_SESSION.branch_session s1)
            ++ [EvLog LOG_INFO "Tee session closed mid-query.";
                EvDcbWrite dcb session_closed_reply])%list.
    rewrite Htr, <- !app_assoc. split; [reflexivity |]. split.
    + intros _. rewrite last_app. reflexivity.
    + intros Hx. contradiction.
Qed.

(** ** Freeing a session *)

(** [freeSession] as the branch part, the releases of the session's own
    storage and the scan of the registry. *)
Lemma freeSession_split my_instance s w w' :
  freeSession my_instance s w = Some (tt, w')
  <-> exists w1,
        (match TEE_SESSION.branch_session s with
         | Some ses =>
             do bs <- get_session ses;
             match SESSION.state bs with
             | SESSION_STATE_ROUTER_READY =>
                 emit (EvSessionPutRef ses);;
                 call_heap (session_put_ref ses)
             | SESSION_STATE_TO_BE_FREED =>
                 emit (EvRouterFreeSession ses);;
                 put_session ses (SESSION.set_state SESSION_STATE_FREE bs);;
                 free_session ses
             | SESSION_STATE_STOPPING => create_orphan ses
             | _ => ret tt
             end
         | None => ret tt
         end) w = Some (tt, w1)
        /\ orphan_free (before_scan s w1) = Some (tt, w').
Proof.
  unfold freeSession, before_scan, free_aux_events. split.
  - intros H.
    apply bind_Some in H as ([] & w1 & H1 & H). exists w1. split; [exact H1 |].
    apply bind_Some in H as ([] & w2 & H2 & H).
    apply bind_Some in H as ([] & w3 & H3 & H).
    apply bind_Some in H as ([] & w4 & H4 & H).
    unfold emit in H4. injection H4 as <-.
    destruct (TEE_SESSION.dummy_filterdef s), (TEE_SESSION.tee_replybuf s);
      unfold emit, ret in H2, H3; injection H2 as <-; injection H3 as <-;
      cbn in *; rewrite <- ?app_assoc in H; cbn in H; exact H.
  - intros (w1 & H1 & H).
    erewrite bind_run by exact H1.
    destruct (TEE_SESSION.dummy_filterdef s), (TEE_SESSION.tee_replybuf s);
      unfold bind, emit, ret; cbn in *; rewrite <- ?app_assoc; cbn; exact H.
Qed.

Lemma before_scan_fields s w1 :
  heap (before_scan s w1) = heap w1
  /\ allOrphans (before_scan s w1) = allOrphans w1
  /\ services (before_scan s w1) = services w1
  /\ freed_sessions (trace (before_scan s w1)) = freed_sessions (trace w1).
Proof.
  unfold before_scan, free_aux_events. cbn. repeat split.
  rewrite freed_sessions_app.
  destruct (TEE_SESSION.dummy_filterdef s), (TEE_SESSION.tee_replybuf s);
    cbn; by rewrite app_nil_r.
Qed.

(** What a scan does to a session [b] that is not marked as to be freed
    when the scan starts. *)
Lemma orphan_free_spares w w' b :
  registry_inv w ->
  orphan_free w = Some (tt, w') ->
  ~ to_be_freed (sessions (heap w)) b ->
  (b ∈ allOrphans w' <-> b ∈ allOrphans w)
  /\ (b ∈ freed_sessions (trace w') <-> b ∈ freed_sessions (trace w))
  /\ (b ∉ allOrphans w -> sessions (heap w') !! b = sessions (heap w) !! b)
  /\ (forall bs, b ∈ allOrphans w -> sessions (heap w) !! b = Some bs ->
        sessions (heap w') !! b
        = Some (if quiescentb bs
                then SESSION.set_state SESSION_STATE_TO_BE_FREED bs else bs)).
Proof.
  clear_env.
  intros Hinv Hfree Hb.
  pose proof Hinv as Hnd. apply NoDup_app in Hnd as [Hnd _].
  apply orphan_free_inv in Hfree as (Ho & Ht & Hs); [| exact Hnd].
  assert (Hfin : b ∉ reverse (filter (to_be_freed (sessions (heap w)))
                                (allOrphans w))).
  { intros Hc. apply elem_of_reverse, list_elem_of_filter in Hc. tauto. }
  split; [| split; [| split]].
  - rewrite Ho, list_elem_of_filter. tauto.
  - rewrite Ht, !freed_sessions_app. cbn [freed_sessions].
    rewrite freed_sessions_release, !elem_of_app, elem_of_nil. tauto.
  - intros Hnot. rewrite Hs, free_all_lookup_notin by exact Hfin.
    by apply mark_all_lookup_notin.
  - intros bs Hin Hbs. rewrite Hs, free_all_lookup_notin by exact Hfin.
    by apply mark_all_lookup_in.
Qed.

(** A scan leaves a session that is not in the registry as it is. *)
Lemma orphan_free_outside w w' b :
  registry_inv w ->
  orphan_free w = Some (tt, w') ->
  b ∉ allOrphans w ->
  (b ∉ allOrphans w')
  /\ (b ∈ freed_sessions (trace w') <-> b ∈ freed_sessions (trace w))
  /\ sessions (heap w') !! b = sessions (heap w) !! b.
Proof.
  clear_env.
  intros Hinv Hfree Hb.
  pose proof Hinv as Hnd. apply NoDup_app in Hnd as [Hnd _].
  apply orphan_free_inv in Hfree as (Ho & Ht & Hs); [| exact Hnd].
  assert (Hfin : b ∉ reverse (filter (to_be_freed (sessions (heap w)))
                                (allOrphans w))).
  { intros Hc. apply elem_of_reverse, list_elem_of_filter in Hc. tauto. }
  split; [| split].
  - rewrite Ho, list_elem_of_filter. tauto.
  - rewrite Ht, !freed_sessions_app. cbn [freed_sessions].
    rewrite freed_sessions_release, !elem_of_app, elem_of_nil. tauto.
  - rewrite Hs, free_all_lookup_notin by exact Hfin.
    by apply mark_all_lookup_notin.
Qed.

Lemma create_orphan_run ses w :
  create_orphan ses w
  = Some (tt,
          if bool_decide (alloc_tape w !! 0%nat = Some false)
          then set_alloc_tape (tail (alloc_tape w)) w
          else set_trace
                 (trace w ++ [EvSpinlockAcquire orphanLock;
                              EvSpinlockRelease orphanLock])
                 (set_allOrphans (ses :: allOrphans w)
                    (set_alloc_tape (tail (alloc_tape w)) w))).
Proof.
  clear_env.
  unfold create_orphan, bind, try_alloc, emit, get_allOrphans, put_allOrphans, ret.
  destruct w as [h sv o tape tr]; cbn.
  destruct tape as [|[] tape]; cbn; case_bool_decide as Hd;
    try discriminate Hd; try (exfalso; apply Hd; reflexivity);
    rewrite <- ?app_assoc; reflexivity.
Qed.

(** X13. A branch session that is still ready when its session structure is
    freed: the filter gives up its reference to it and does no more. It
    does not free the branch session and does not hand it to the
    registry; the scan that ends [freeSession] leaves it as
    [session_put_ref] left it. *)
Theorem freeSession_ready_branch
    (my_instance : TEE_INSTANCE) (s : TEE_SESSION) (w : World) (b : addr)
    (bs : SESSION) (h1 : Heap) :
  TEE_SESSION.branch_session s = Some b ->
  sessions (heap w) !! b = Some bs ->
  SESSION.state bs = SESSION_STATE_ROUTER_READY ->
  session_put_ref b (heap w) = (tt, h1) ->
  registry_inv w ->
  registry_allocated (set_heap h1 w) ->
  b ∉ allOrphans w ->
  exists w',
    freeSession my_instance s w = Some (tt, w')
    /\ trace w'
       = (trace w ++ EvSessionPutRef b :: free_aux_events s
          ++ [EvSpinlockAcquire orphanLock; EvSpinlockRelease orphanLock]
          ++ flat_map release_events
               (reverse (filter (to_be_freed (sessions h1)) (allOrphans w))))%list
    /\ (b ∉ allOrphans w')
    /\ (b ∈ freed_sessions (trace w') <-> b ∈ freed_sessions (trace w))
    /\ sessions (heap w') !! b = sessions h1 !! b.
Proof.
  intros Hb Hs Hst Hput Hinv Halloc Hnot.
  set (w1 := set_heap h1 (set_trace (trace w ++ [EvSessionPutRef b]) w)).
  assert (Hinv1 : registry_inv (before_scan s w1)).
  { unfold registry_inv.
    destruct (before_scan_fields s w1) as (_ & -> & _ & ->). cbn.
    rewrite freed_sessions_app. cbn. rewrite app_nil_r. exact Hinv. }
  assert (Halloc1 : registry_allocated (before_scan s w1)).
  { intros q. destruct (before_scan_fields s w1) as (-> & -> & _). apply Halloc. }
  destruct (orphan_free_run _ Hinv1 Halloc1)
    as (fin & wl & w' & _ & _ & Hfree & _).
  exists w'. split.
  { apply freeSession_split. exists w1. split; [| exact Hfree].
    rewrite Hb. unfold bind, get_session. rewrite Hs, Hst. cbn.
    unfold call_heap. cbn. rewrite Hput. reflexivity. }
  pose proof Hfree as Hfree'.
  apply orphan_free_inv in Hfree' as (_ & Ht & _);
    [| by apply NoDup_app in Hinv1 as [? _]].
  split.
  { rewrite Ht. cbn. rewrite <- !app_assoc. reflexivity. }
  destruct (orphan_free_outside _ _ b Hinv1 Hfree) as (Ho & Hf & Hl);
    [exact Hnot |].
  split; [exact Ho |]. split; [| exact Hl].
  rewrite Hf. destruct (before_scan_fields s w1) as (_ & _ & _ & ->). cbn.
  rewrite freed_sessions_app. cbn. by rewrite app_nil_r.
Qed.

(** X14. A branch session that is marked as to be freed when its session
    structure is freed: [freeSession] calls the free hook of its router
    and releases its memory on the spot, before anything else. It is
    gone from the sessions of the core, it is not in the registry, and
    in the whole trace it is freed once. *)
Theorem freeSession_frees_marked_branch
    (my_instance : TEE_INSTANCE) (s : TEE_SESSION) (w : World) (b : addr)
    (bs : SESSION) :
  TEE_SESSION.branch_session s = Some b ->
  sessions (heap w) !! b = Some bs ->
  SESSION.state bs = SESSION_STATE_TO_BE_FREED ->
  registry_inv w ->
  registry_allocated w ->
  b ∉ allOrphans w ->
  b ∉ freed_sessions (trace w) ->
  exists w' evs,
    freeSession my_instance s w = Some (tt, w')
    /\ trace w'
       = (trace w ++ [EvRouterFreeSession b; EvFreeSession b]
          ++ free_aux_events s ++ evs)%list
    /\ sessions (heap w') !! b = None
    /\ (b ∉ allOrphans w')
    /\ b ∈ freed_sessions (trace w')
    /\ NoDup (freed_sessions (trace w')).
Proof.
  clear_env.
  intros Hb Hs Hst Hinv Halloc Hnot Hnf.
  set (w1 := set_trace (trace w ++ [EvRouterFreeSession b; EvFreeSession b])
               (with_sessions
                  (delete b (<[b := SESSION.set_state SESSION_STATE_FREE bs]>
                               (sessions (heap w)))) w)).
  assert (Hfr1 : freed_sessions (trace (before_scan s w1))
                 = (freed_sessions (trace w) ++ [b])%list).
  { destruct (before_scan_fields s w1) as (_ & _ & _ & ->). cbn.
    by rewrite freed_sessions_app. }
  assert (Hinv1 : registry_inv (before_scan s w1)).
  { unfold registry_inv. rewrite Hfr1.
    destruct (before_scan_fields s w1) as (_ & -> & _). cbn.
    rewrite app_assoc. apply NoDup_app. split; [exact Hinv |]. split.
    - intros x Hx Hxb. apply list_elem_of_singleton in Hxb as ->.
      apply elem_of_app in Hx as [Hx | Hx]; contradiction.
    - apply NoDup_singleton. }
  assert (Halloc1 : registry_allocated (before_scan s w1)).
  { intros q. destruct (before_scan_fields s w1) as (-> & -> & _). cbn.
    intros Hq. assert (q <> b) by (intros ->; contradiction).
    rewrite lookup_delete_ne, lookup_insert_ne by done. by apply Halloc. }
  destruct (orphan_free_run _ Hinv1 Halloc1)
    as (fin & wl & w' & _ & _ & Hfree & _ & _ & _ & _ & _ & _ & _ & _ & Hinv' & _).
  pose proof Hfree as Hfree'.
  apply orphan_free_inv in Hfree' as (_ & Ht & _);
    [| by apply NoDup_app in Hinv1 as [? _]].
  exists w',
    ([EvSpinlockAcquire orphanLock; EvSpinlockRelease orphanLock]
     ++ flat_map release_events
          (reverse
             (filter (to_be_freed (sessions (heap (before_scan s w1))))
                (allOrphans (before_scan s w1)))))%list.
  split.
  { apply freeSession_split. exists w1. split; [| exact Hfree].
    rewrite Hb. unfold bind, get_session. rewrite Hs, Hst. cbn.
    unfold w1, with_sessions, set_trace, set_heap, set_sessions, emit; cbn.
    rewrite <- app_assoc. reflexivity. }
  split.
  { rewrite Ht. cbn. rewrite <- !app_assoc. reflexivity. }
  destruct (orphan_free_outside _ _ b Hinv1 Hfree) as (Ho & Hf & Hl).
  { by destruct (before_scan_fields s w1) as (_ & -> & _). }
  split.
  { rewrite Hl. destruct (before_scan_fields s w1) as (-> & _). cbn.
    apply lookup_delete_eq. }
  split; [exact Ho |]. split.
  - apply Hf. rewrite Hfr1. apply elem_of_app. right. by apply list_elem_of_singleton.
  - apply NoDup_app in Hinv' as (_ & _ & Hnd). exact Hnd.
Qed.

(** X15. A branch session that is stopping when its session structure is
    freed is handed to the registry, at its head, and survives the scan
    that ends [freeSession]: it is not freed in that call, and the scan
    marks it as to be freed when it has no reference and no client
    handle. When the node of the registry cannot be allocated, the
    branch session is neither registered nor freed. *)
Theorem freeSession_defers_stopping_branch
    (my_instance : TEE_INSTANCE) (s : TEE_SESSION) (w : World) (b : addr)
    (bs : SESSION) :
  TEE_SESSION.branch_session s = Some b ->
  sessions (heap w) !! b = Some bs ->
  SESSION.state bs = SESSION_STATE_STOPPING ->
  registry_inv w ->
  registry_allocated w ->
  b ∉ allOrphans w ->
  b ∉ freed_sessions (trace w) ->
  exists w',
    freeSession my_instance s w = Some (tt, w')
    /\ (b ∉ freed_sessions (trace w'))
    /\ (alloc_tape w !! 0%nat <> Some false ->
        allOrphans w'
        = b :: filter (fun p => ~ to_be_freed (sessions (heap w)) p) (allOrphans w)
        /\ sessions (heap w') !! b
           = Some (if quiescentb bs
                   then SESSION.set_state SESSION_STATE_TO_BE_FREED bs
                   else bs))
    /\ (alloc_tape w !! 0%nat = Some false ->
        (b ∉ allOrphans w') /\ sessions (heap w') !! b = Some bs).
Proof.
  clear_env.
  intros Hb Hs Hst Hinv Halloc Hnot Hnf.
  assert (Hntbf : ~ to_be_freed (sessions (heap w)) b).
  { unfold to_be_freed. rewrite Hs. cbn. rewrite Hst. discriminate. }
  pose proof (create_orphan_run b w) as Hco.
  set (w1 := if bool_decide (alloc_tape w !! 0%nat = Some false)
             then set_alloc_tape (tail (alloc_tape w)) w
             else set_trace
                    (trace w ++ [EvSpinlockAcquire orphanLock;
                                 EvSpinlockRelease orphanLock])
                    (set_allOrphans (b :: allOrphans w)
                       (set_alloc_tape (tail (alloc_tape w)) w))) in *.
  assert (Hw1 : heap w1 = heap w
                /\ freed_sessions (trace w1) = freed_sessions (trace w)
                /\ allOrphans w1
                   = (if bool_decide (alloc_tape w !! 0%nat = Some false)
                      then allOrphans w else b :: allOrphans w)).
  { subst w1. destruct (bool_decide _); cbn; repeat split.
    rewrite freed_sessions_app. cbn. by rewrite app_nil_r. }
  destruct Hw1 as (Hh1 & Hf1 & Ho1).
  assert (Hinv1 : registry_inv (before_scan s w1)).
  { unfold registry_inv.
    destruct (before_scan_fields s w1) as (_ & -> & _ & ->).
    rewrite Hf1, Ho1. destruct (bool_decide _); [exact Hinv |].
    cbn. apply NoDup_cons. split; [| exact Hinv].
    rewrite elem_of_app. tauto. }
  assert (Halloc1 : registry_allocated (before_scan s w1)).
  { intros q. destruct (before_scan_fields s w1) as (-> & -> & _).
    rewrite Hh1, Ho1. destruct (bool_decide _); [apply Halloc |].
    intros [-> | Hq]%elem_of_cons; [by rewrite Hs | by apply Halloc]. }
  destruct (orphan_free_run _ Hinv1 Halloc1)
    as (fin & wl & w' & _ & _ & Hfree & _).
  exists w'. split.
  { apply freeSession_split. exists w1. split; [| exact Hfree].
    rewrite Hb. unfold bind, get_session. rewrite Hs, Hst. cbn. exact Hco. }
  assert (Hntbf1 : ~ to_be_freed (sessions (heap (before_scan s w1))) b).
  { destruct (before_scan_fields s w1) as (-> & _). by rewrite Hh1. }
  destruct (orphan_free_spares _ _ b Hinv1 Hfree Hntbf1) as (Ho & Hf & Hout & Hin).
  destruct (before_scan_fields s w1) as (Hbh & Hbo & _ & Hbf).
  rewrite Hbh, Hbo, Hbf, Hh1, Hf1, Ho1 in *.
  split; [by rewrite Hf |]. split.
  - intros Hok. rewrite bool_decide_false in * by exact Hok. split.
    + pose proof Hinv1 as Hnd. apply NoDup_app in Hnd as [Hnd _].
      apply orphan_free_inv in Hfree as (Hreg & _); [| exact Hnd].
      rewrite Hreg, Hbh, Hbo. by rewrite filter_cons_True.
    + apply Hin; [by left | exact Hs].
  - intros Hfail. rewrite bool_decide_true in * by exact Hfail. split.
    + by rewrite Ho.
    + rewrite Hout; [exact Hs | exact Hnot].
Qed.

(** ** Locks *)

Lemma locks_ok_app held tr1 tr2 :
  locks_ok held tr1 = true -> locks_ok None tr2 = true ->
  locks_ok held (tr1 ++ tr2) = true.
Proof.
  clear_env.
  revert held. induction tr1 as [|e tr1 IH]; intros held H1 H2.
  - destruct held; [discriminate H1 | exact H2].
  - destruct e; cbn in *;
      apply andb_true_iff in H1 as [Ha Hb]; rewrite Ha; cbn; by apply IH.
Qed.

Lemma locks_ok_quiet tr :
  Forall (fun e => is_quiet e = true) tr ->
  locks_ok None tr = true /\ freed_sessions tr = [].
Proof.
  clear_env.
  induction 1 as [|e tr He _ [IH1 IH2]]; [done |].
  destruct e; cbn in *; try discriminate He; done.
Qed.

Lemma locks_ok_release finished :
  locks_ok None (flat_map release_events finished) = true.
Proof.
  clear_env.
  induction finished as [|p rest IH]; [done | exact IH].
Qed.

Lemma locks_ok_free_aux s : locks_ok None (free_aux_events s) = true.
Proof.
  clear_env.
  unfold free_aux_events.
  by destruct (TEE_SESSION.dummy_filterdef s), (TEE_SESSION.tee_replybuf s).
Qed.

Lemma orphan_free_trace w w' :
  orphan_free w = Some (tt, w') ->
  exists finished,
    trace w'
    = (trace w ++ [EvSpinlockAcquire orphanLock; EvSpinlockRelease orphanLock]
       ++ flat_map release_events finished)%list
    /\ services w' = services w
    /\ alloc_tape w' = alloc_tape w
    /\ dcbs (heap w') = dcbs (heap w).
Proof.
  clear_env.
  intros H. unfold orphan_free in H.
  apply bind_Some in H as (fin & wl & Hu & Hr).
  pose proof (orphan_unlink_trace _ _ _ Hu) as Ht.
  apply orphan_release_inv in Hr as ->.
  exists fin. cbn. rewrite Ht, <- app_assoc.
  split; [reflexivity |].
  unfold orphan_unlink in Hu.
  apply bind_Some in Hu as ([] & wa & Ha & Hu).
  unfold emit in Ha. injection Ha as <-.
  apply bind_Some in Hu as (ptrs & wb & Hb & Hu).
  unfold get_allOrphans in Hb. injection Hb as <- <-.
  apply bind_Some in Hu as (r & wc & Hscan & Hu).
  apply bind_Some in Hu as ([] & wd & Hd & Hu).
  unfold put_allOrphans in Hd. injection Hd as <-.
  apply bind_Some in Hu as ([] & we & He & Hu).
  unfold emit in He. injection He as <-.
  unfold ret in Hu. injection Hu as _ <-. cbn.
  assert (Hsc : forall ptrs fin0 w0 r0 w1,
             orphan_scan ptrs fin0 w0 = Some (r0, w1) ->
             services w1 = services w0 /\ alloc_tape w1 = alloc_tape w0
             /\ dcbs (heap w1) = dcbs (heap w0)).
  { clear. induction ptrs as [|p ptrs IH]; intros fin0 w0 r0 w1 H; cbn in H.
    - unfold ret in H. by simplify_eq.
    - apply bind_Some in H as (s & wa & Hs & H).
      apply get_session_Some in Hs as [_ ->].
      apply bind_Some in H as ([] & wb & Hp & H).
      apply bind_Some in H as (r & wc & Hrec & H).
      unfold ret in H. injection H as _ <-.
      apply IH in Hrec as (-> & -> & ->).
      destruct (_ && _); unfold put_session, ret in Hp; by simplify_eq. }
  apply Hsc in Hscan as (-> & -> & ->). done.
Qed.

(** The events of a run of [freeSession]: those for the branch session,
    the releases of the session's own storage, and the scan. *)
Lemma freeSession_trace my_instance s w w' :
  freeSession my_instance s w = Some (tt, w') ->
  exists ev1 finished,
    trace w'
    = (trace w ++ ev1 ++ free_aux_events s
       ++ [EvSpinlockAcquire orphanLock; EvSpinlockRelease orphanLock]
       ++ flat_map release_events finished)%list
    /\ (ev1 = []
        \/ (exists b, ev1 = [EvSessionPutRef b])
        \/ (exists b, ev1 = [EvRouterFreeSession b; EvFreeSession b])
        \/ ev1 = [EvSpinlockAcquire orphanLock; EvSpinlockRelease orphanLock]).
Proof.
  intros H. apply freeSession_split in H as (w1 & Hbr & Hfree).
  apply orphan_free_trace in Hfree as (fin & Ht & _).
  assert (Hev : exists ev1,
             trace w1 = (trace w ++ ev1)%list
             /\ (ev1 = []
                 \/ (exists b, ev1 = [EvSessionPutRef b])
                 \/ (exists b, ev1 = [EvRouterFreeSession b; EvFreeSession b])
                 \/ ev1 = [EvSpinlockAcquire orphanLock;
                           EvSpinlockRelease orphanLock])).
  { destruct (TEE_SESSION.branch_session s) as [b|].
    2:{ unfold ret in Hbr. injection Hbr as <-. exists []. rewrite app_nil_r. auto. }
    apply bind_Some in Hbr as (bs & wa & Hs & Hbr).
    apply get_session_Some in Hs as [_ ->].
    destruct (SESSION.state bs);
      try (unfold ret in Hbr; injection Hbr as <-; exists [];
           rewrite app_nil_r; by auto).
    - apply bind_Some in Hbr as ([] & wb & He & Hbr).
      unfold emit in He. injection He as <-.
      apply call_heap_Some in Hbr as [_ ->]. exists [EvSessionPutRef b]. eauto.
    - rewrite create_orphan_run in Hbr. injection Hbr as <-.
      destruct (bool_decide _); cbn.
      + exists []. rewrite app_nil_r. auto.
      + eexists. split; [reflexivity |]. auto.
    - apply bind_Some in Hbr as ([] & wb & He & Hbr).
      unfold emit in He. injection He as <-.
      apply bind_Some in Hbr as ([] & wc & Hp & Hbr).
      unfold put_session in Hp. injection Hp as <-.
      unfold free_session in Hbr.
      apply bind_Some in Hbr as ([] & wd & Hd & Hbr).
      injection Hd as <-. unfold emit in Hbr. injection Hbr as <-. cbn.
      exists [EvRouterFreeSession b; EvFreeSession b].
      rewrite <- app_assoc. eauto 6. }
  destruct Hev as (ev1 & Ht1 & Hl1).
  exists ev1, fin. split; [| exact Hl1].
  rewrite Ht. unfold before_scan. cbn. rewrite Ht1, <- !app_assoc. reflexivity.
Qed.

(** X16. No call leaves the file while the filter holds a spinlock, and no
    lock is held when [freeSession] returns: the registry lock is taken
    and released around the update of the registry in [create_orphan]
    and around the scan in [orphan_free]; the hooks of the routers, the
    releases of memory and [session_put_ref] all run with no lock
    held. *)
Theorem freeSession_calls_outside_locks
    (my_instance : TEE_INSTANCE) (s : TEE_SESSION) (w w' : World) :
  freeSession my_instance s w = Some (tt, w') ->
  exists evs,
    trace w' = (trace w ++ evs)%list /\ locks_ok None evs = true.
Proof.
  intros H. apply freeSession_trace in H as (ev1 & fin & Ht & Hev).
  eexists. split; [exact Ht |].
  apply locks_ok_app.
  { destruct Hev as [-> | [[b ->] | [[b ->] | ->]]]; reflexivity. }
  apply locks_ok_app; [apply locks_ok_free_aux |].
  cbn. apply locks_ok_release.
Qed.

(** ** What a scan of the registry leaves alone *)


(** ** The calls of the core on a live session *)

Lemma route_single_query_frame my_instance s buffer clone w r s' w' :
  route_single_query my_instance s buffer clone w = Some ((r, s'), w') ->
  exists evs,
    trace w' = (trace w ++ evs)%list
    /\ Forall (fun e => is_quiet e = true) evs
    /\ allOrphans w' = allOrphans w
    /\ services w' = services w
    /\ alloc_tape w' = alloc_tape w.
Proof.
  clear_env.
  intros H. unfold route_single_query in H.
  apply bind_Some in H as (ready & w1 & Hready & H).
  assert (w1 = w) as ->.
  { unfold branch_is_ready in Hready. run_inv; reflexivity. }
  destruct ready.
  2:{ unfold ret in H. simplify_eq. exists []. by rewrite app_nil_r. }
  destruct (TEE_SESSION.down s) as [d|]; [| run_inv].
  destruct (TEE_SESSION.branch_session s) as [b|]; [| run_inv].
  apply bind_Some in H as ([] & w2 & He & H).
  unfold emit in He. injection He as <-.
  apply bind_Some in H as (rval & w3 & Hc & H).
  apply call_heap_Some in Hc as [_ ->].
  destruct clone as [c|].
  2:{ unfold ret in H. simplify_eq. eexists. split; [reflexivity |].
      repeat constructor. }
  apply bind_Some in H as (bs & w4 & Hg & H).
  apply get_session_Some in Hg as [_ ->].
  destruct (bool_decide _).
  - apply bind_Some in H as ([] & w5 & He & H).
    unfold emit in He. injection He as <-.
    unfold ret in H. injection H as _ _ <-. cbn.
    exists [EvDownRouteQuery buffer; EvSessionRouteQuery b c].
    rewrite <- app_assoc. split; [reflexivity |]. repeat constructor.
  - apply bind_Some in H as ([] & w5 & He & H).
    unfold emit in He. injection He as <-.
    apply bind_Some in H as ([] & w6 & He & H).
    unfold emit in He. injection He as <-.
    unfold ret in H. injection H as _ _ <-. cbn.
    exists (dropped_clone_events buffer c). unfold dropped_clone_events.
    rewrite <- !app_assoc. split; [reflexivity |]. repeat constructor.
Qed.

Lemma diagnostic_frame my_instance my_session dcb w w' :
  diagnostic my_instance my_session dcb w = Some (tt, w') ->
  exists evs,
    w' = set_trace (trace w ++ evs) w
    /\ Forall (fun e => is_quiet e = true) evs.
Proof.
  clear_env.
  intros H. unfold diagnostic in H.
  assert (Hopt : forall (o : option string) (f : string -> diag_line) w0 w1,
             (match o with
              | Some x => emit (EvDcbPrintf dcb (f x))
              | None => ret tt
              end) w0 = Some (tt, w1) ->
             exists ev, w1 = set_trace (trace w0 ++ ev) w0
                        /\ Forall (fun e => is_quiet e = true) ev).
  { intros [x|] f w0 w1 H0.
    - unfold emit in H0. injection H0 as <-. eexists. split; [reflexivity |].
      repeat constructor.
    - unfold ret in H0. injection H0 as <-. exists []. rewrite app_nil_r.
      by destruct w0. }
  apply bind_Some in H as ([] & w1 & H1 & H).
  apply Hopt in H1 as (e1 & -> & Hq1).
  apply bind_Some in H as (svc & w2 & H2 & H).
  assert (w2 = set_trace (trace w ++ e1) w) as ->.
  { unfold deref_service in H2.
    destruct (TEE_INSTANCE.service my_instance); [| discriminate H2].
    by apply get_service_Some in H2 as [_ ->]. }
  apply bind_Some in H as ([] & w3 & H3 & H).
  unfold emit in H3. injection H3 as <-.
  apply bind_Some in H as ([] & w4 & H4 & H).
  apply Hopt in H4 as (e4 & -> & Hq4).
  apply bind_Some in H as ([] & w5 & H5 & H).
  apply Hopt in H5 as (e5 & -> & Hq5).
  apply bind_Some in H as ([] & w6 & H6 & H).
  apply Hopt in H6 as (e6 & -> & Hq6).
  destruct my_session as [s|].
  - apply bind_Some in H as ([] & w7 & H7 & H).
    unfold emit in H7, H. injection H7 as <-. injection H as <-. cbn.
    exists (e1 ++ [EvDcbPrintf dcb (DiagService (SERVICE.name svc))] ++ e4 ++ e5
            ++ e6 ++ [EvDcbPrintf dcb (DiagDuped (TEE_SESSION.n_duped s));
                      EvDcbPrintf dcb (DiagRejected (TEE_SESSION.n_rejected s))])%list.
    rewrite <- !app_assoc. split; [reflexivity |].
    repeat (apply Forall_app; split); try done; repeat constructor.
  - unfold ret in H. injection H as <-. cbn.
    exists (e1 ++ [EvDcbPrintf dcb (DiagService (SERVICE.name svc))] ++ e4 ++ e5
            ++ e6)%list.
    rewrite <- !app_assoc. split; [reflexivity |].
    repeat (apply Forall_app; split); try done; repeat constructor.
Qed.

(** X18. The calls of the core on a live session keep to the session: none
    of them takes the registry lock or returns holding a lock, none
    releases a session of the core or touches the registry, and none
    allocates. Only [freeSession] does those things. *)
Theorem live_calls_leave_registry_alone
    (my_instance : TEE_INSTANCE) (c : call) (s s' : TEE_SESSION) (w w' : World) :
  run_call my_instance c s w = Some (s', w') ->
  exists evs,
    trace w' = (trace w ++ evs)%list
    /\ locks_ok None evs = true
    /\ freed_sessions evs = []
    /\ Forall (fun e => e <> EvSpinlockAcquire orphanLock) evs
    /\ allOrphans w' = allOrphans w
    /\ services w' = services w
    /\ alloc_tape w' = alloc_tape w.
Proof.
  clear_env.
  assert (Hquiet : forall evs,
             Forall (fun e => is_quiet e = true) evs ->
             locks_ok None evs = true /\ freed_sessions evs = []
             /\ Forall (fun e => e <> EvSpinlockAcquire orphanLock) evs).
  { intros evs Hq. destruct (locks_ok_quiet evs Hq) as [H1 H2].
    split; [done |]. split; [done |].
    eapply Forall_impl; [exact Hq |]. intros e He ->. discriminate He. }
  destruct c; cbn [run_call]; intros H.
  - unfold ret in H. simplify_eq. exists []. by rewrite app_nil_r.
  - unfold ret in H. simplify_eq. exists []. by rewrite app_nil_r.
  - apply bind_Some in H as ([r s1] & w1 & H & Hret).
    unfold ret in Hret. simplify_eq.
    unfold routeQuery in H.
    apply route_single_query_frame in H as (evs & Ht & Hq & Hrest).
    exists evs. destruct (Hquiet evs Hq) as (? & ? & ?). tauto.
  - apply bind_Some in H as (r & w1 & H & Hret).
    unfold ret in Hret. simplify_eq.
    unfold clientReply in H. destruct (TEE_SESSION.up s'); [| discriminate H].
    apply bind_Some in H as ([] & w2 & He & H).
    unfold emit in He. injection He as <-.
    apply call_heap_Some in H as [_ ->]. cbn.
    exists [EvUpClientReply reply].
    repeat split; repeat constructor; discriminate.
  - apply bind_Some in H as ([] & w1 & H & Hret).
    unfold ret in Hret. simplify_eq.
    apply diagnostic_frame in H as (evs & -> & Hq).
    exists evs. destruct (Hquiet evs Hq) as (? & ? & ?). done.
  - unfold closeSession in H.
    destruct (truthy (TEE_SESSION.active s)).
    2:{ unfold ret in H. simplify_eq. exists []. by rewrite app_nil_r. }
    apply bind_Some in H as ([] & w1 & Hbr & H).
    pose proof Hbr as Hbr'.
    apply close_branch_run in Hbr' as (Htr & _ & Ho & _).
    assert (Hfr : services w1 = services w /\ alloc_tape w1 = alloc_tape w).
    { destruct (TEE_SESSION.branch_session s) as [b|];
        [| unfold ret in Hbr; by simplify_eq].
      apply bind_Some in Hbr as ([] & wa & Ha & Hbr).
      unfold emit in Ha. injection Ha as <-.
      apply bind_Some in Hbr as (bs & wb & Hb & Hbr).
      apply get_session_Some in Hb as [_ ->].
      apply bind_Some in Hbr as ([] & wc & Hc & Hbr).
      apply bind_Some in Hbr as ([] & wd & Hd & Hbr).
      unfold emit in Hd, Hbr. injection Hd as <-. injection Hbr as <-.
      destruct (bool_decide _); unfold put_session, ret in Hc; by simplify_eq. }
    destruct Hfr as [Hsv Hal].
    apply bind_Some in H as ([] & w2 & Hmid & H).
    unfold ret in H. injection H as _ <-.
    assert (Hm : exists ev2, w2 = set_trace (trace w1 ++ ev2) w1
                             /\ Forall (fun e => is_quiet e = true) ev2).
    { assert (Hnil : forall w0, exists ev2 : list event,
                 w0 = set_trace (trace w0 ++ ev2) w0
                 /\ Forall (fun e => is_quiet e = true) ev2).
      { intros w0. exists []. rewrite app_nil_r. by destruct w0. }
      destruct (at_side _ _); [| unfold ret in Hmid; simplify_eq; apply Hnil].
      destruct (negb _); [| unfold ret in Hmid; simplify_eq; apply Hnil].
      destruct (TEE_SESSION.client_dcb s) as [dcb|];
        [| unfold ret in Hmid; simplify_eq; apply Hnil].
      apply bind_Some in Hmid as (d & wd & Hget & Hmid).
      apply get_dcb_Some in Hget as [_ ->].
      destruct (bool_decide _); [| unfold ret in Hmid; simplify_eq; apply Hnil].
      apply bind_Some in Hmid as ([] & we & He & Hmid).
      unfold emit in He, Hmid. injection He as <-. injection Hmid as <-. cbn.
      exists [EvLog LOG_INFO "Tee session closed mid-query.";
              EvDcbWrite dcb session_closed_reply].
      rewrite <- app_assoc. split; [reflexivity |]. repeat constructor. }
    destruct Hm as (ev2 & -> & Hq2). cbn.
    exists (close_branch_events (TEE_SESSION.branch_session s) ++ ev2)%list.
    rewrite Htr, <- app_assoc. split; [reflexivity |].
    destruct (Hquiet ev2 Hq2) as (Hl2 & Hf2 & Hn2).
    split; [| split; [| split]].
    + apply locks_ok_app; [| exact Hl2].
      destruct (TEE_SESSION.branch_session s); [| done].
      cbn. by rewrite bool_decide_true.
    + rewrite freed_sessions_app, Hf2.
      by destruct (TEE_SESSION.branch_session s).
    + apply Forall_app. split; [| exact Hn2].
      destruct (TEE_SESSION.branch_session s); cbn; repeat constructor; discriminate.
    + done.
Qed.

(** ** Fields that the entry points leave alone *)

Lemma keeps_unused_refl s : keeps_unused s s.
Proof. unfold keeps_unused. auto 10. Qed.

Lemma keeps_unused_trans s1 s2 s3 :
  keeps_unused s1 s2 -> keeps_unused s2 s3 -> keeps_unused s1 s3.
Proof.
  unfold keeps_unused.
  intros (A1 & B1 & C1 & D1 & E1 & F1) (A2 & B2 & C2 & D2 & E2 & F2).
  repeat split; congruence.
Qed.

Lemma run_call_keeps_unused my_instance c s w s' w' :
  run_call my_instance c s w = Some (s', w') -> keeps_unused s s'.
Proof.
  destruct c; cbn [run_call]; intros H.
  - unfold ret in H. simplify_eq. destruct s. unfold keeps_unused. cbn. auto 10.
  - unfold ret in H. simplify_eq. destruct s. unfold keeps_unused. cbn. auto 10.
  - apply bind_Some in H as ([r s1] & w1 & H & Hret).
    unfold ret in Hret. simplify_eq. cbn.
    apply route_single_query_session in H as [-> | [-> | ->]];
      destruct s; unfold keeps_unused; cbn; auto 10.
  - apply bind_Some in H as (r & w1 & _ & Hret).
    unfold ret in Hret. simplify_eq. apply keeps_unused_refl.
  - apply bind_Some in H as (r & w1 & _ & Hret).
    unfold ret in Hret. simplify_eq. apply keeps_unused_refl.
  - apply closeSession_session in H as [(_ & -> & _) | ->].
    + apply keeps_unused_refl.
    + destruct s; unfold keeps_unused; cbn; auto 10.
Qed.

Lemma steps_keep_unused my_instance x y :
  rtc (step my_instance) x y -> keeps_unused x.1 y.1.
Proof.
  induction 1 as [x | x y z Hxy _ IH].
  - apply keeps_unused_refl.
  - eapply keeps_unused_trans; [| exact IH].
    destruct Hxy as [c s w s' w' H | s w w']; cbn.
    + eapply run_call_keeps_unused, H.
    + apply keeps_unused_refl.
Qed.

(** The fields of a session structure as [newSession] returns it. *)
Lemma newSession_initial my_instance session w s0 w0 :
  newSession my_instance session w = Some (Some s0, w0) ->
  TEE_SESSION.n_rejected s0 = 0
  /\ TEE_SESSION.dummy_filterdef s0 = None
  /\ TEE_SESSION.tee_replybuf s0 = None
  /\ TEE_SESSION.command s0 = 0
  /\ TEE_SESSION.client_dcb s0
     = (sessions (heap w) !! session) ≫= SESSION.client_dcb
  /\ TEE_SESSION.instance s0 = my_instance.
Proof.
  intros H. unfold newSession in H.
  apply bind_Some in H as (ses & wa & Hs & H).
  apply get_session_Some in Hs as [Hs ->]. rewrite Hs. cbn [mbind option_bind].
  run_inv;
    repeat match goal with
           | H : source_gate _ _ _ _ = Some _ |- _ =>
               apply source_gate_session in H as [-> | ->]
           | H : user_gate _ _ _ _ = Some _ |- _ =>
               apply user_gate_session in H as [-> | ->]
           end; cbn; auto 10.
Qed.

(** X19. The counter of rejected statements is never written: in every state
    that a session reaches from [newSession], under any calls of the
    core and any changes of the world, it is [0], and the last two
    lines of [diagnostic] for the session are the number of duplicated
    statements and a number of rejected statements of [0]. *)
Theorem rejected_counter_stays_zero
    (my_instance : TEE_INSTANCE) (session : addr) (w w0 w1 : World)
    (s0 s1 : TEE_SESSION) :
  newSession my_instance session w = Some (Some s0, w0) ->
  rtc (step my_instance) (s0, w0) (s1, w1) ->
  TEE_SESSION.n_rejected s1 = 0
  /\ forall dcb w2,
       diagnostic my_instance (Some s1) dcb w1 = Some (tt, w2) ->
       exists evs,
         trace w2
         = (trace w1 ++ evs
            ++ [EvDcbPrintf dcb (DiagDuped (TEE_SESSION.n_duped s1));
                EvDcbPrintf dcb (DiagRejected 0)])%list.
Proof.
  intros Hnew Hrun.
  apply newSession_initial in Hnew as (Hn0 & _).
  apply steps_keep_unused in Hrun as (Hn & _). cbn in Hn.
  rewrite Hn0 in Hn. split; [exact Hn |].
  intros dcb w2 H. unfold diagnostic in H.
  apply bind_Some in H as ([] & wa & H1 & H).
  apply bind_Some in H as (svc & wb & H2 & H).
  apply bind_Some in H as ([] & wc & H3 & H).
  apply bind_Some in H as ([] & wd & H4 & H).
  apply bind_Some in H as ([] & we & H5 & H).
  apply bind_Some in H as ([] & wf & H6 & H).
  apply bind_Some in H as ([] & wg & H7 & H).
  unfold emit in H7, H. injection H7 as <-. injection H as <-. cbn.
  rewrite Hn.
  assert (Hopt : forall (o : option string) (f : string -> diag_line) wx wy,
             (match o with
              | Some x => emit (EvDcbPrintf dcb (f x))
              | None => ret tt
              end) wx = Some (tt, wy) ->
             exists ev, trace wy = (trace wx ++ ev)%list).
  { intros [x|] f wx wy H0.
    - unfold emit in H0. injection H0 as <-. by eexists.
    - unfold ret in H0. injection H0 as <-. exists []. by rewrite app_nil_r. }
  apply Hopt in H1 as (e1 & E1). apply Hopt in H4 as (e4 & E4).
  apply Hopt in H5 as (e5 & E5). apply Hopt in H6 as (e6 & E6).
  assert (wb = wa) as ->.
  { unfold deref_service in H2.
    destruct (TEE_INSTANCE.service my_instance); [| discriminate H2].
    by apply get_service_Some in H2 as [_ ->]. }
  unfold emit in H3. injection H3 as <-. cbn in E4.
  rewrite E6, E5, E4, E1.
  exists (e1 ++ [EvDcbPrintf dcb (DiagService (SERVICE.name svc))] ++ e4 ++ e5
          ++ e6)%list.
  rewrite <- !app_assoc. reflexivity.
Qed.

(** X20. The dummy filter definition and the reply buffer of a session are
    never set: when a session that [newSession] returned is freed, in
    whatever state it has reached, [freeSession] calls neither
    [filter_free] nor [gwbuf_free], and releases the session structure
    once. *)
Theorem freeSession_releases_structure_only
    (my_instance : TEE_INSTANCE) (session : addr) (w w0 w1 w2 : World)
    (s0 s1 : TEE_SESSION) :
  newSession my_instance session w = Some (Some s0, w0) ->
  rtc (step my_instance) (s0, w0) (s1, w1) ->
  freeSession my_instance s1 w1 = Some (tt, w2) ->
  exists evs1 evs2,
    trace w2 = (trace w1 ++ evs1 ++ EvFreeTeeSession :: evs2)%list
    /\ Forall (fun e => is_aux_release e = false /\ e <> EvFreeTeeSession)
         (evs1 ++ evs2).
Proof.
  intros Hnew Hrun Hfree.
  apply newSession_initial in Hnew as (_ & Hd0 & Hb0 & _).
  apply steps_keep_unused in Hrun as (_ & Hd & Hb & _). cbn in Hd, Hb.
  rewrite Hd0 in Hd. rewrite Hb0 in Hb.
  apply freeSession_trace in Hfree as (ev1 & fin & Ht & Hev).
  unfold free_aux_events in Ht. rewrite Hd, Hb in Ht. cbn in Ht.
  exists ev1. eexists. split; [exact Ht |].
  apply Forall_app. split.
  - destruct Hev as [-> | [[b ->] | [[b ->] | ->]]];
      repeat constructor; discriminate.
  - repeat (constructor; [split; [reflexivity | discriminate] |]).
    clear. induction fin as [|p fin IH]; [constructor |].
    cbn. repeat (constructor; [split; [reflexivity | discriminate] |]).
    exact IH.
Qed.

(** ** Instance construction *)

Lemma createInstance_allocated name options params w i w' :
  createInstance name options params w = Some (Some i, w') ->
  allocations_succeed 1 w.
Proof.
  intros H. unfold createInstance in H.
  apply bind_Some in H as (ok & w1 & Hal & H).
  destruct ok; [| unfold ret in H; discriminate H].
  unfold try_alloc in Hal. intros n Hn.
  assert (n = 0%nat) as -> by lia.
  destruct (alloc_tape w) as [|[] tape]; cbn; [done | done | discriminate Hal].
Qed.

(** X21. The instance that [createInstance] returns. Each of [service],
    [source], [user], [match] and [exclude] has the value of its last
    occurrence among the parameters, and is unset when the parameter
    does not occur; the target service is the one that the last
    [service] parameter names, and it exists; the patterns that are set
    compiled, with the flags of the options. *)
Theorem createInstance_keeps_last_values
    (name : string) (options : option (list string))
    (params : option (list FILTER_PARAMETER)) (w w' : World) (i : TEE_INSTANCE) :
  createInstance name options params w = Some (Some i, w') ->
  TEE_INSTANCE.service i
  = param_value "service" (default [] params) ≫= service_find
  /\ is_Some (TEE_INSTANCE.service i)
  /\ TEE_INSTANCE.source i = param_value "source" (default [] params)
  /\ TEE_INSTANCE.userName i = param_value "user" (default [] params)
  /\ TEE_INSTANCE.match_ i = param_value "match" (default [] params)
  /\ TEE_INSTANCE.nomatch i = param_value "exclude" (default [] params)
  /\ (forall m, TEE_INSTANCE.match_ i = Some m ->
        regcomp m (configured_cflags options) = 0
        /\ TEE_INSTANCE.re i = mk_regex m (configured_cflags options))
  /\ (forall n, TEE_INSTANCE.nomatch i = Some n ->
        regcomp n (configured_cflags options) = 0
        /\ TEE_INSTANCE.nore i = mk_regex n (configured_cflags options)).
Proof.
  clear_env.
  intros H.
  pose proof (createInstance_allocated _ _ _ _ _ _ H) as Halloc.
  destruct (createInstance_run name options params w Halloc)
    as (i1 & r & evs & Hf & Hrun & Hiff & _ & Hres).
  rewrite Hrun in H. injection H as -> _.
  specialize (Hres i eq_refl). subst i.
  assert (Hok : ~ (TEE_INSTANCE.service i1 = None
                   \/ regcomp_fails (TEE_INSTANCE.match_ i1)
                        (configured_cflags options) = true
                   \/ regcomp_fails (TEE_INSTANCE.nomatch i1)
                        (configured_cflags options) = true)).
  { intros Hc. apply Hiff in Hc. discriminate Hc. }
  destruct Hf as (Hsv & Hma & Hno & Hso & Hus & _).
  cbn [blank_instance TEE_INSTANCE.service TEE_INSTANCE.match_
         TEE_INSTANCE.nomatch TEE_INSTANCE.source TEE_INSTANCE.userName] in *.
  rewrite from_option_Some_None in Hma, Hno, Hso, Hus.
  unfold with_patterns.
  destruct i1 as [sv so us ma r0 no nr]. cbn in *. subst.
  split; [by destruct (param_value "service" (default [] params)) |].
  split.
  { destruct (param_value "service" (default [] params) ≫= service_find)
      eqn:E; [eauto |].
    exfalso. apply Hok. left.
    destruct (param_value "service" (default [] params)); exact E. }
  do 4 (split; [reflexivity |]).
  split.
  - intros m Hm. rewrite Hm. split; [| reflexivity].
    destruct (Z.eq_dec (regcomp m (configured_cflags options)) 0) as [|Hne];
      [done |].
    exfalso. apply Hok. right. left. rewrite Hm. cbn. by apply truthy_true.
  - intros n Hn. rewrite Hn. split; [| reflexivity].
    destruct (Z.eq_dec (regcomp n (configured_cflags options)) 0) as [|Hne];
      [done |].
    exfalso. apply Hok. right. right. rewrite Hn. cbn. by apply truthy_true.
Qed.

(** *** The flags of the patterns *)

Lemma strcasecmp_extended o :
  strcasecmp_eq o "extended" = true ->
  strcasecmp_eq o "ignorecase" = false /\ strcasecmp_eq o "case" = false.
Proof.
  clear_env.
  unfold strcasecmp_eq. intros H. apply String.eqb_eq in H. rewrite H.
  split; reflexivity.
Qed.

Section Flags.

Hypothesis Hdisjoint : Z.land REG_ICASE REG_EXTENDED = 0.

Lemma flag_bits n :
  0 <= n -> Z.testbit REG_ICASE n && Z.testbit REG_EXTENDED n = false.
Proof using Hdisjoint.
  clear_env.
  intros Hn. rewrite <- Z.land_spec, Hdisjoint. apply Z.bits_0.
Qed.

Ltac bitwise :=
  apply Z.bits_inj'; intros n Hn;
  pose proof (flag_bits n Hn) as Hb;
  repeat first [ rewrite Z.lor_spec | rewrite Z.land_spec
               | rewrite Z.lnot_spec by exact Hn | rewrite Z.bits_0 ];
  destruct (Z.testbit REG_ICASE n), (Z.testbit REG_EXTENDED n);
  try discriminate Hb; reflexivity.

Lemma option_cflags_step (bi be : bool) (o : string) :
  option_cflags
    (Z.lor (if bi then REG_ICASE else 0) (if be then REG_EXTENDED else 0)) o
  = Z.lor
      (if (if strcasecmp_eq o "ignorecase" then true
           else if strcasecmp_eq o "case" then false else bi)
       then REG_ICASE else 0)
      (if be || strcasecmp_eq o "extended" then REG_EXTENDED else 0).
Proof using Hdisjoint.
  clear_env.
  unfold option_cflags.
  destruct (strcasecmp_eq o "extended") eqn:Ee.
  - destruct (strcasecmp_extended o Ee) as [-> ->].
    rewrite orb_true_r. destruct bi, be; bitwise.
  - rewrite orb_false_r.
    destruct (strcasecmp_eq o "ignorecase"); [destruct bi, be; bitwise |].
    destruct (strcasecmp_eq o "case"); [destruct bi, be; bitwise |].
    reflexivity.
Qed.

Lemma fold_option_cflags options :
  forall bi be : bool,
    fold_left option_cflags options
      (Z.lor (if bi then REG_ICASE else 0) (if be then REG_EXTENDED else 0))
    = Z.lor
        (if fold_left
              (fun b o =>
                 if strcasecmp_eq o "ignorecase" then true
                 else if strcasecmp_eq o "case" then false
                 else b) options bi
         then REG_ICASE else 0)
        (if be || uses_extended options then REG_EXTENDED else 0).
Proof using Hdisjoint.
  clear_env.
  induction options as [|o rest IH]; intros bi be.
  - cbn. by rewrite orb_false_r.
  - cbn [fold_left]. rewrite option_cflags_step, IH.
    unfold uses_extended. cbn [existsb]. by rewrite orb_assoc.
Qed.

(** X22. The flags that the patterns are compiled with, for flag values
    [REG_ICASE] and [REG_EXTENDED] that share no bit. Matching is
    without regard to case by default; the options are read in their
    order, in any case of letters: [case] turns the flag for that off
    and [ignorecase] turns it on again, so the last of them decides;
    [extended] asks for extended patterns wherever it stands; and every
    other option leaves the flags as they are. *)
Theorem patterns_compiled_with_option_flags
    (name : string) (options : option (list string))
    (params : option (list FILTER_PARAMETER)) (w w' : World) (i : TEE_INSTANCE) :
  createInstance name options params w = Some (Some i, w') ->
  (forall m, TEE_INSTANCE.match_ i = Some m ->
     TEE_INSTANCE.re i = mk_regex m (option_flags (default [] options)))
  /\ (forall n, TEE_INSTANCE.nomatch i = Some n ->
        TEE_INSTANCE.nore i = mk_regex n (option_flags (default [] options))).
Proof using Hdisjoint.
  clear_env.
  intros H.
  pose proof (createInstance_allocated _ _ _ _ _ _ H) as Halloc.
  destruct (createInstance_run name options params w Halloc)
    as (i1 & r & evs & _ & Hrun & _ & _ & Hres).
  rewrite Hrun in H. injection H as -> _.
  specialize (Hres i eq_refl). subst i.
  assert (Hflags : configured_cflags options = option_flags (default [] options)).
  { unfold configured_cflags, option_flags, ignores_case.
    pose proof (fold_option_cflags (default [] options) true false) as Hfold.
    cbn [orb] in Hfold. rewrite Z.lor_0_r in Hfold. exact Hfold. }
  rewrite Hflags. unfold with_patterns.
  destruct i1 as [sv so us ma r0 no nr]. cbn.
  split; intros x ->; reflexivity.
Qed.

End Flags.

(** ** Session creation *)

(** A client that fails no activation gate passes both. *)
Lemma gates_pass my_instance session s w :
  ~ gate_mismatch my_instance session ->
  (do s1 <- source_gate my_instance session s;
   user_gate my_instance session s1) w = Some (s, w).
Proof.
  intros Hgate. unfold source_gate, user_gate, bind, ret.
  assert (Hsrc : forall source remote,
             TEE_INSTANCE.source my_instance = Some source ->
             session_get_remote session = Some remote ->
             String.eqb remote source = true).
  { intros source remote H1 H2. apply String.eqb_eq.
    destruct (String.eqb_spec remote source) as [|Hne]; [done |].
    exfalso. apply Hgate. left. eauto. }
  assert (Husr : forall name user,
             TEE_INSTANCE.userName my_instance = Some name ->
             session_getUser session = Some user ->
             String.eqb user name = true).
  { intros name user H1 H2. apply String.eqb_eq.
    destruct (String.eqb_spec user name) as [|Hne]; [done |].
    exfalso. apply Hgate. right. eauto. }
  destruct (TEE_INSTANCE.source my_instance) as [source|];
    [destruct (session_get_remote session) as [remote|];
     [rewrite (Hsrc source remote eq_refl eq_refl) |] |];
    cbn;
    (destruct (TEE_INSTANCE.userName my_instance) as [name|];
     [destruct (session_getUser session) as [user|];
      [rewrite (Husr name user eq_refl eq_refl) |] |]);
    reflexivity.
Qed.

(** [newSession] up to the creation of the branch session, for a
    session that passes the recursion checks and the gates. *)
Lemma newSession_passes_gates my_instance session w ses :
  no_recursion my_instance session w ->
  allocations_succeed 2 w ->
  ~ gate_mismatch my_instance session ->
  sessions (heap w) !! session = Some ses ->
  newSession my_instance session w
  = (let my_session := fresh_session my_instance ses in
     emit (EvDcbClone (SESSION.client_dcb ses));;
     do dcb <- call_heap (dcb_clone (SESSION.client_dcb ses));
     match dcb with
     | None =>
         freeSession my_instance my_session;;
         emit clone_error;;
         ret None
     | Some dcb =>
         emit (EvSessionAlloc (TEE_INSTANCE.service my_instance) dcb);;
         do bses <- call_heap
                      (session_alloc (TEE_INSTANCE.service my_instance) dcb);
         match bses with
         | None =>
             emit (EvDcbClose dcb);;
             freeSession my_instance my_session;;
             emit alloc_error;;
             ret None
         | Some bses =>
             ret (Some (TEE_SESSION.set_branch_dcb (Some dcb)
                          (TEE_SESSION.set_branch_session (Some bses)
                             my_session)))
         end
     end) (after_checks w).
Proof.
  intros (ses' & t & target & own & ht & Hs & Ht & Htg & Hown & Hne & Hloop)
    Halloc Hgate Hs'.
  assert (ses' = ses) as -> by congruence.
  destruct (try_alloc_succeeds 1 w Halloc) as [Hal1 Halloc1].
  set (w1 := set_alloc_tape (tail (alloc_tape w)) w) in *.
  set (w2 := set_trace (trace w1 ++ [EvHashtableFree]) w1).
  assert (Halloc2 : allocations_succeed 1 w2)
    by (eapply allocations_succeed_tape; [| exact Halloc1]; reflexivity).
  destruct (try_alloc_succeeds 0 w2 Halloc2) as [Hal2 _].
  set (w3 := set_alloc_tape (tail (alloc_tape w2)) w2) in *.
  unfold newSession.
  erewrite bind_run by (apply get_session_Some; eauto).
  rewrite Ht. cbn [deref_service].
  erewrite bind_run by (apply get_service_Some; eauto).
  erewrite bind_run by (apply get_service_Some; eauto).
  apply String.eqb_neq in Hne. rewrite Hne.
  erewrite bind_run by exact Hal1.
  erewrite (bind_run get_services) by reflexivity.
  change (services w1) with (services w). rewrite Hloop.
  erewrite bind_run by reflexivity.
  change (truthy 0) with false. cbv iota.
  erewrite bind_run by exact Hal2.
  fold (fresh_session my_instance ses).
  pose proof (gates_pass my_instance session (fresh_session my_instance ses)
                w3 Hgate) as Hg.
  apply bind_Some in Hg as (sa & wa & Hsrc & Husr).
  erewrite bind_run by exact Hsrc.
  erewrite bind_run by exact Husr.
  change (truthy (TEE_SESSION.active (fresh_session my_instance ses))) with true.
  cbv iota zeta. reflexivity.
Qed.

(** X23. A client that passes the recursion checks and fails no activation
    gate (no source and no user is configured, or the client has the
    configured ones) gets an active session with a branch session, when
    the core can clone the client DCB and create a session on the
    target service: the DCB is cloned from the client's, the branch
    session is created for the target service on the clone, and both
    are stored in the session structure. The structure has no
    downstream and no upstream yet and has duplicated nothing. *)
Theorem newSession_opens_branch
    (my_instance : TEE_INSTANCE) (session : addr) (w : World) (ses : SESSION)
    (dcb : addr) (h1 : Heap) (bses : addr) (h2 : Heap) :
  no_recursion my_instance session w ->
  allocations_succeed 2 w ->
  ~ gate_mismatch my_instance session ->
  sessions (heap w) !! session = Some ses ->
  dcb_clone (SESSION.client_dcb ses) (heap w) = (Some dcb, h1) ->
  session_alloc (TEE_INSTANCE.service my_instance) dcb h1 = (Some bses, h2) ->
  exists s0 w0,
    newSession my_instance session w = Some (Some s0, w0)
    /\ TEE_SESSION.active s0 = 1
    /\ TEE_SESSION.branch_session s0 = Some bses
    /\ TEE_SESSION.branch_dcb s0 = Some dcb
    /\ TEE_SESSION.client_dcb s0 = SESSION.client_dcb ses
    /\ TEE_SESSION.down s0 = None
    /\ TEE_SESSION.up s0 = None
    /\ TEE_SESSION.n_duped s0 = 0
    /\ heap w0 = h2
    /\ allOrphans w0 = allOrphans w
    /\ trace w0
       = (trace w ++ [EvHashtableFree; EvDcbClone (SESSION.client_dcb ses);
                      EvSessionAlloc (TEE_INSTANCE.service my_instance) dcb])%list.
Proof.
  intros Hrec Halloc Hgate Hs Hclone Hsalloc.
  rewrite (newSession_passes_gates _ _ _ _ Hrec Halloc Hgate Hs).
  cbv zeta. unfold bind, emit, call_heap, ret, after_checks. cbn.
  rewrite Hclone. cbn. rewrite Hsalloc. cbn.
  eexists _, _. split; [reflexivity |]. cbn.
  rewrite <- !app_assoc. repeat split.
Qed.

(** The run of [freeSession] on the session structure of a session
    that did not get its branch session. *)
Lemma freeSession_fresh my_instance ses w :
  registry_inv w ->
  registry_allocated w ->
  exists w' finished,
    freeSession my_instance (fresh_session my_instance ses) w = Some (tt, w')
    /\ trace w'
       = (trace w ++ [EvFreeTeeSession; EvSpinlockAcquire orphanLock;
                      EvSpinlockRelease orphanLock]
          ++ flat_map release_events finished)%list.
Proof.
  clear_env.
  intros Hinv Halloc.
  set (s := fresh_session my_instance ses).
  assert (Hinv1 : registry_inv (before_scan s w)).
  { unfold registry_inv.
    by destruct (before_scan_fields s w) as (_ & -> & _ & ->). }
  assert (Halloc1 : registry_allocated (before_scan s w)).
  { intros q. destruct (before_scan_fields s w) as (-> & -> & _). apply Halloc. }
  destruct (orphan_free_run _ Hinv1 Halloc1)
    as (fin & wl & w' & _ & _ & Hfree & _).
  pose proof Hfree as Htr.
  apply orphan_free_trace in Htr as (finished & Ht & _).
  exists w', finished. split.
  - apply freeSession_split. exists w. split; [reflexivity | exact Hfree].
  - rewrite Ht. unfold before_scan, free_aux_events. cbn.
    rewrite <- !app_assoc. reflexivity.
Qed.

(** X24. When the branch session cannot be created, [newSession] undoes what
    it has done and returns no session. If the client DCB cannot be
    cloned, no session is asked for: the session structure is released
    and the error is logged. If the clone is made and the session
    cannot be created on it, the clone is closed first. In both cases
    the release of the session structure ends with a scan of the
    registry. *)
Theorem newSession_cleans_up_after_failure
    (my_instance : TEE_INSTANCE) (session : addr) (w : World) (ses : SESSION) :
  no_recursion my_instance session w ->
  allocations_succeed 2 w ->
  ~ gate_mismatch my_instance session ->
  sessions (heap w) !! session = Some ses ->
  registry_inv w ->
  (forall h1,
      dcb_clone (SESSION.client_dcb ses) (heap w) = (None, h1) ->
      registry_allocated (set_heap h1 w) ->
      exists w' finished,
        newSession my_instance session w = Some (None, w')
        /\ trace w'
           = (trace w
              ++ [EvHashtableFree; EvDcbClone (SESSION.client_dcb ses);
                  EvFreeTeeSession; EvSpinlockAcquire orphanLock;
                  EvSpinlockRelease orphanLock]
              ++ flat_map release_events finished ++ [clone_error])%list)
  /\ (forall dcb h1 h2,
         dcb_clone (SESSION.client_dcb ses) (heap w) = (Some dcb, h1) ->
         session_alloc (TEE_INSTANCE.service my_instance) dcb h1 = (None, h2) ->
         registry_allocated (set_heap h2 w) ->
         exists w' finished,
           newSession my_instance session w = Some (None, w')
           /\ trace w'
              = (trace w
                 ++ [EvHashtableFree; EvDcbClone (SESSION.client_dcb ses);
                     EvSessionAlloc (TEE_INSTANCE.service my_instance) dcb;
                     EvDcbClose dcb; EvFreeTeeSession;
                     EvSpinlockAcquire orphanLock; EvSpinlockRelease orphanLock]
                 ++ flat_map release_events finished ++ [alloc_error])%list).
Proof.
  intros Hrec Halloc Hgate Hs Hinv.
  rewrite (newSession_passes_gates _ _ _ _ Hrec Halloc Hgate Hs).
  cbv zeta. split.
  - intros h1 Hclone Hreg.
    set (wa := set_heap h1
                 (set_trace (trace (after_checks w)
                             ++ [EvDcbClone (SESSION.client_dcb ses)])
                    (after_checks w))).
    destruct (freeSession_fresh my_instance ses wa) as (w' & fin & Hfree & Ht).
    { unfold registry_inv, wa, after_checks. cbn.
      rewrite !freed_sessions_app. cbn. by rewrite !app_nil_r. }
    { exact Hreg. }
    eexists _, fin. split.
    + unfold bind at 1, emit at 1. unfold bind at 1, call_heap at 1.
      cbn [heap after_checks set_trace set_alloc_tape]. rewrite Hclone.
      fold wa. erewrite bind_run by exact Hfree. reflexivity.
    + cbn. rewrite Ht. unfold wa, after_checks. cbn.
      rewrite <- !app_assoc. reflexivity.
  - intros dcb h1 h2 Hclone Hsalloc Hreg.
    set (wa := set_trace
                 (((trace (after_checks w)
                    ++ [EvDcbClone (SESSION.client_dcb ses)])
                   ++ [EvSessionAlloc (TEE_INSTANCE.service my_instance) dcb])
                  ++ [EvDcbClose dcb])
                 (set_heap h2 (after_checks w))).
    destruct (freeSession_fresh my_instance ses wa) as (w' & fin & Hfree & Ht).
    { unfold registry_inv, wa, after_checks. cbn.
      rewrite !freed_sessions_app. cbn. by rewrite !app_nil_r. }
    { exact Hreg. }
    eexists _, fin. split.
    + unfold bind at 1, emit at 1. unfold bind at 1, call_heap at 1.
      cbn [heap after_checks set_trace set_alloc_tape]. rewrite Hclone.
      unfold bind at 1, emit at 1. unfold bind at 1, call_heap at 1.
      cbn [heap set_trace set_heap]. rewrite Hsalloc.
      unfold bind at 1, emit at 1. cbn [heap set_trace set_heap trace].
      erewrite bind_run by exact Hfree. reflexivity.
    + cbn. rewrite Ht. unfold wa, after_checks. cbn.
      rewrite <- !app_assoc. reflexivity.
Qed.

(** X25. Failed allocations in [newSession]. When the table of visited
    services cannot be allocated, [detect_loops] returns [-1], which
    [newSession] takes for a loop: it reports a recursive use of the
    filter and returns no session, although the configuration has no
    recursion. When the session structure cannot be allocated,
    [newSession] returns no session and logs nothing. *)
Theorem newSession_allocation_failures
    (my_instance : TEE_INSTANCE) (session : addr) (w : World) (ses : SESSION)
    (t : addr) (target own : SERVICE) :
  sessions (heap w) !! session = Some ses ->
  TEE_INSTANCE.service my_instance = Some t ->
  services w !! t = Some target ->
  services w !! SESSION.service ses = Some own ->
  SERVICE.name target <> SERVICE.name own ->
  (forall tape,
      alloc_tape w = false :: tape ->
      detect_loops (loop_fuel (services w)) (services w) my_instance None
        (Some (SESSION.service ses)) = Some (-1, None)
      /\ newSession my_instance session w
         = Some (None,
                 set_trace (trace w ++ [EvHashtableFree; recursion_error])
                   (set_alloc_tape tape w)))
  /\ (forall tape ht,
         alloc_tape w = true :: false :: tape ->
         detect_loops (loop_fuel (services w)) (services w) my_instance
           (Some ∅) (Some (SESSION.service ses)) = Some (0, ht) ->
         newSession my_instance session w
         = Some (None,
                 set_trace (trace w ++ [EvHashtableFree])
                   (set_alloc_tape tape w))).
Proof.
  clear_env.
  intros Hs Ht Htg Hown Hne. split.
  - intros tape Htape.
    assert (Hloop : detect_loops (loop_fuel (services w)) (services w)
                      my_instance None (Some (SESSION.service ses))
                    = Some (-1, None)) by reflexivity.
    split; [exact Hloop |].
    rewrite (newSession_loop my_instance session w ses t target own false
               (set_alloc_tape tape w) (-1) None Hs Ht Htg Hown Hne).
    + reflexivity.
    + unfold try_alloc. rewrite Htape. reflexivity.
    + exact Hloop.
    + discriminate.
  - intros tape ht Htape Hloop. unfold newSession.
    erewrite bind_run by (apply get_session_Some; eauto).
    rewrite Ht. cbn [deref_service].
    erewrite bind_run by (apply get_service_Some; eauto).
    erewrite bind_run by (apply get_service_Some; eauto).
    apply String.eqb_neq in Hne. rewrite Hne.
    erewrite (bind_run try_alloc)
      by (unfold try_alloc; rewrite Htape; reflexivity).
    erewrite (bind_run get_services) by reflexivity.
    cbn [services set_alloc_tape]. rewrite Hloop.
    erewrite bind_run by reflexivity.
    change (truthy 0) with false. cbv iota.
    erewrite (bind_run try_alloc) by reflexivity.
    reflexivity.
Qed.

(** ** Loop detector *)

Lemma detect_loops_filters_app recurse l1 l2 ht :
  detect_loops_filters recurse (l1 ++ l2) ht
  = match detect_loops_filters recurse l1 ht with
    | Some (r, ht1) =>
        if truthy r then Some (1, ht1) else detect_loops_filters recurse l2 ht1
    | None => None
    end.
Proof.
  clear_env.
  revert ht. induction l1 as [|f l1 IH]; intros ht; cbn; [reflexivity |].
  destruct (String.eqb _ _); [| apply IH].
  destruct (FILTER_DEF.filter f) as [ninst|]; [| apply IH].
  destruct (recurse ninst ht _) as [[r ht']|]; [| reflexivity].
  destruct (truthy r); [reflexivity | apply IH].
Qed.

(** A walk that ends returns a truth value and a table that holds the
    names it started with. *)
Lemma detect_loops_filters_grows
    (recurse : TEE_INSTANCE -> option HASHTABLE -> option addr
               -> option (Z * option HASHTABLE)) :
  (forall inst ht a x, recurse inst (Some ht) a = Some x -> walk_result ht (Some x)) ->
  forall filters ht x,
    detect_loops_filters recurse filters (Some ht) = Some x ->
    walk_result ht (Some x).
Proof.
  clear_env.
  intros Hrec. induction filters as [|f fs IH]; intros ht x H; cbn in H.
  - injection H as <-. exists 0, ht. auto.
  - destruct (String.eqb _ _); [| by apply IH].
    destruct (FILTER_DEF.filter f) as [ninst|]; [| by apply IH].
    destruct (recurse ninst (Some ht) _) as [[r hto]|] eqn:E; [| discriminate H].
    apply Hrec in E as (r' & ht1 & [= -> ->] & Hsub & Hr).
    destruct (truthy r').
    + injection H as <-. exists 1, ht1. auto.
    + apply IH in H as (r2 & ht2 & -> & Hsub2 & Hr2).
      exists r2, ht2. split; [done |]. split; [by etrans | done].
Qed.

Lemma detect_loops_grows svcs fuel :
  forall inst ht a x,
    detect_loops fuel svcs inst (Some ht) a = Some x -> walk_result ht (Some x).
Proof.
  clear_env.
  induction fuel as [|fuel IH]; intros inst ht a x H; [discriminate H |].
  cbn in H. destruct (a ≫= (svcs !!.)) as [svc|]; [| discriminate H].
  unfold hashtable_add in H.
  destruct (decide (SERVICE.name svc ∈ ht)); cbn in H.
  - injection H as <-. exists 1, ht. auto.
  - apply (detect_loops_filters_grows _ IH) in H as (r & ht' & -> & Hsub & Hr).
    exists r, ht'. split; [done |]. split; [| done].
    etrans; [apply union_subseteq_r | exact Hsub].
Qed.

(** A walk that finds no loop leaves in the table the name of every
    service that the chains of tee filters reach from its start. *)
Lemma detect_loops_visits svcs fuel :
  forall inst ht a ht',
    detect_loops fuel svcs inst (Some ht) (Some a) = Some (0, Some ht') ->
    forall c sc,
      rtc (tees_to svcs) a c -> svcs !! c = Some sc -> SERVICE.name sc ∈ ht'.
Proof.
  clear_env.
  induction fuel as [|fuel IH]; intros inst ht a ht' H c sc Hreach Hc;
    [discriminate H |].
  cbn in H. destruct (svcs !! a) as [sa|] eqn:Ha; [| discriminate H].
  cbn in H. unfold hashtable_add in H.
  destruct (decide (SERVICE.name sa ∈ ht)); cbn in H; [discriminate H |].
  assert (Hfs : forall fs h0 h1,
             detect_loops_filters (detect_loops fuel svcs) fs (Some h0)
             = Some (0, Some h1) ->
             h0 ⊆ h1
             /\ forall f ninst b,
                  In f fs -> FILTER_DEF.module f = "tee" ->
                  FILTER_DEF.filter f = Some ninst ->
                  TEE_INSTANCE.service ninst = Some b ->
                  rtc (tees_to svcs) b c -> SERVICE.name sc ∈ h1).
  { clear H. induction fs as [|g fs IHfs]; intros h0 h1 H; cbn in H.
    - injection H as <-. split; [done |]. intros f ninst b [].
    - destruct (String.eqb_spec (FILTER_DEF.module g) "tee") as [Hg|Hg].
      2:{ apply IHfs in H as [Hsub Hall]. split; [done |].
          intros f ninst b [<- | Hin] Hm; [contradiction | eauto]. }
      destruct (FILTER_DEF.filter g) as [gi|] eqn:Hgi.
      2:{ apply IHfs in H as [Hsub Hall]. split; [done |].
          intros f ninst b [<- | Hin] Hm Hf; [congruence | eauto]. }
      destruct (detect_loops fuel svcs gi (Some h0) (TEE_INSTANCE.service gi))
        as [[r hto]|] eqn:E; [| discriminate H].
      pose proof (detect_loops_grows _ _ _ _ _ _ E)
        as (r' & h2 & [= -> ->] & Hsub2 & Hr).
      destruct Hr as [-> | ->]; [| discriminate H].
      change (truthy 0) with false in H. cbv iota in H.
      apply IHfs in H as [Hsub Hall]. split; [by etrans |].
      intros f ninst b [<- | Hin] Hm Hf Hb Hr; [| eauto].
      apply Hsub. rewrite Hgi in Hf. injection Hf as <-. rewrite Hb in E.
      eapply IH; eauto. }
  destruct (Hfs _ _ _ H) as [Hsub Hall].
  apply rtc_inv in Hreach
    as [Heq | (b & (sa' & f & ninst & Ha' & Hin & Hm & Hf & Hb) & Hr)].
  - subst a. rewrite Ha in Hc. injection Hc as <-.
    apply Hsub, elem_of_union. left. by apply elem_of_singleton.
  - rewrite Ha in Ha'. injection Ha' as <-. eauto.
Qed.

(** A tee filter in the list whose target is reported as a loop from
    any larger table makes the loop over the filters report one. *)
Lemma detect_loops_filters_hit svcs fuel :
  services_wf svcs ->
  forall fs ht f ninst b,
    (forall g gi, In g fs -> FILTER_DEF.module g = "tee" ->
                  FILTER_DEF.filter g = Some gi ->
                  exists t, TEE_INSTANCE.service gi = Some t /\ is_Some (svcs !! t)) ->
    (size (service_names svcs ∖ ht) < fuel)%nat ->
    In f fs -> FILTER_DEF.module f = "tee" ->
    FILTER_DEF.filter f = Some ninst ->
    TEE_INSTANCE.service ninst = Some b ->
    (forall ht2, ht ⊆ ht2 ->
       exists ht3,
         detect_loops fuel svcs ninst (Some ht2) (Some b) = Some (1, Some ht3)) ->
    exists ht',
      detect_loops_filters (detect_loops fuel svcs) fs (Some ht)
      = Some (1, Some ht').
Proof.
  clear_env.
  intros Hwf. induction fs as [|g fs IH];
    intros ht f ninst b Hfs Hsize Hin Hm Hf Hb Hhit; [destruct Hin |].
  assert (Hfs' : forall g gi, In g fs -> FILTER_DEF.module g = "tee" ->
                   FILTER_DEF.filter g = Some gi ->
                   exists t, TEE_INSTANCE.service gi = Some t
                             /\ is_Some (svcs !! t))
    by (intros; eapply Hfs; [right |..]; eauto).
  cbn. destruct (String.eqb_spec (FILTER_DEF.module g) "tee") as [Hg|Hg].
  2:{ destruct Hin as [<- | Hin]; [contradiction | eauto]. }
  destruct (FILTER_DEF.filter g) as [gi|] eqn:Hgi.
  2:{ destruct Hin as [<- | Hin]; [congruence | eauto]. }
  destruct (Hfs g gi) as (t & Ht & Hsome); [by left | done | done |].
  rewrite Ht.
  destruct (detect_loops_total svcs Hwf fuel gi ht t Hsome Hsize)
    as (r & ht1 & Hrun & Hsub & Hr).
  rewrite Hrun. destruct Hr as [-> | ->]; [| by eexists].
  change (truthy 0) with false. cbv iota.
  destruct Hin as [<- | Hin].
  - exfalso. rewrite Hgi in Hf. injection Hf as <-.
    rewrite Ht in Hb. injection Hb as <-.
    destruct (Hhit ht) as (ht3 & Hrun'); [done |]. congruence.
  - eapply IH; eauto.
    + eapply Nat.le_lt_trans; [| exact Hsize].
      by apply subseteq_size, difference_mono_l.
    + intros ht2 Hsub2. apply Hhit. by etrans.
Qed.

(** The walk from a service that has a tee filter whose target is
    reported as a loop from any table with the name of the service. *)
Lemma detect_loops_through svcs fuel inst ht t st f ninst b :
  services_wf svcs ->
  svcs !! t = Some st ->
  (size (service_names svcs ∖ ht) < S fuel)%nat ->
  In f (SERVICE.filters st) -> FILTER_DEF.module f = "tee" ->
  FILTER_DEF.filter f = Some ninst ->
  TEE_INSTANCE.service ninst = Some b ->
  (forall ht2, {[SERVICE.name st]} ∪ ht ⊆ ht2 ->
     (size (service_names svcs ∖ ht2) < fuel)%nat ->
     exists ht3,
       detect_loops fuel svcs ninst (Some ht2) (Some b) = Some (1, Some ht3)) ->
  exists ht',
    detect_loops (S fuel) svcs inst (Some ht) (Some t) = Some (1, Some ht').
Proof.
  clear_env.
  intros Hwf Ht Hsize Hin Hm Hf Hb Hhit.
  cbn. rewrite Ht. cbn. unfold hashtable_add.
  destruct (decide (SERVICE.name st ∈ ht)) as [|Hnot]; cbn; [by eexists |].
  pose proof (unvisited_decreases (service_names svcs) ht (SERVICE.name st)
                (service_names_elem _ _ _ Ht) Hnot) as Hlt.
  apply (detect_loops_filters_hit svcs fuel Hwf (SERVICE.filters st) _ f ninst b);
    [| lia | exact Hin | exact Hm | exact Hf | exact Hb |].
  - intros g gi Hg. eapply Hwf; eauto.
  - intros ht2 Hsub. apply Hhit; [exact Hsub |].
    eapply Nat.le_lt_trans; [by apply subseteq_size, difference_mono_l |]. lia.
Qed.

(** A walk that starts at a service from which the chains of tee
    filters reach a service whose name is in the table reports a
    loop. *)
Lemma detect_loops_revisits svcs :
  services_wf svcs ->
  forall t c,
    rtc (tees_to svcs) t c ->
    forall sc, svcs !! c = Some sc ->
    forall fuel inst ht,
      SERVICE.name sc ∈ ht ->
      (size (service_names svcs ∖ ht) < fuel)%nat ->
      exists ht',
        detect_loops fuel svcs inst (Some ht) (Some t) = Some (1, Some ht').
Proof.
  clear_env.
  intros Hwf t c Hreach.
  induction Hreach as [c | t b c Htb _ IH]; intros sc Hc fuel inst ht Hname Hsize.
  - destruct fuel as [|fuel]; [lia |].
    cbn. rewrite Hc. cbn. unfold hashtable_add.
    rewrite decide_True by exact Hname. cbn. by eexists.
  - destruct fuel as [|fuel]; [lia |].
    destruct Htb as (st & f & ninst & Ht & Hin & Hm & Hf & Hb).
    eapply detect_loops_through; eauto.
    intros ht2 Hsub Hsize2. eapply IH; eauto.
    apply Hsub, elem_of_union. by right.
Qed.

Lemma loop_fuel_bound svcs (ht : gset string) :
  (size (service_names svcs ∖ ht) < loop_fuel svcs)%nat.
Proof.
  clear_env.
  unfold loop_fuel. pose proof (service_names_size svcs).
  assert (size (service_names svcs ∖ ht) <= size (service_names svcs))%nat
    by (apply subseteq_size, subseteq_difference_l; reflexivity).
  lia.
Qed.

(** X26. Every cycle is found. When a chain of tee filters, with their
    instances created, leads from the service of the session back to
    it, [detect_loops] reports a loop and [newSession] returns no
    session, with the recursion error as the last line of its log;
    the services are such that every created tee instance points to a
    service. *)
Theorem cycle_of_tee_filters_is_refused
    (my_instance : TEE_INSTANCE) (session : addr) (w : World) (ses : SESSION)
    (t : addr) (target own : SERVICE) (b : addr) :
  sessions (heap w) !! session = Some ses ->
  TEE_INSTANCE.service my_instance = Some t ->
  services w !! t = Some target ->
  services w !! SESSION.service ses = Some own ->
  services_wf (services w) ->
  tees_to (services w) (SESSION.service ses) b ->
  rtc (tees_to (services w)) b (SESSION.service ses) ->
  (exists ht,
      detect_loops (loop_fuel (services w)) (services w) my_instance (Some ∅)
        (Some (SESSION.service ses)) = Some (1, Some ht))
  /\ exists w',
       newSession my_instance session w = Some (None, w')
       /\ last (trace w') = Some recursion_error.
Proof.
  clear_env.
  intros Hs Ht Htg Hown Hwf (st & f & ninst & Ha & Hin & Hm & Hf & Hb) Hback.
  assert (Hloop : exists ht,
             detect_loops (loop_fuel (services w)) (services w) my_instance
               (Some ∅) (Some (SESSION.service ses)) = Some (1, Some ht)).
  { unfold loop_fuel. eapply detect_loops_through; eauto.
    - apply (loop_fuel_bound (services w) ∅).
    - intros ht2 Hsub Hsize2.
      eapply (detect_loops_revisits (services w) Hwf b _ Hback st Ha); eauto.
      apply Hsub, elem_of_union. left. by apply elem_of_singleton. }
  split; [exact Hloop |]. destruct Hloop as (ht & Hloop).
  assert (own = st) as -> by congruence.
  destruct (decide (SERVICE.name target = SERVICE.name st)) as [Heq|Hne].
  - exists (set_trace (trace w ++ [recursion_error]) w). split.
    + by apply (newSession_same_service _ _ _ ses t target st).
    + cbn. apply last_snoc.
  - destruct (try_alloc w) as [[ok w1]|] eqn:Hal.
    2:{ unfold try_alloc in Hal. destruct (alloc_tape w); discriminate Hal. }
    exists (set_trace (trace w1 ++ [EvHashtableFree; recursion_error]) w1).
    split; [| cbn; by rewrite last_app].
    destruct ok.
    + apply (newSession_loop _ _ _ ses t target st true w1 1 (Some ht));
        try done.
    + apply (newSession_loop _ _ _ ses t target st false w1 (-1) None);
        try done.
Qed.

(** X27. A service that is reached along two tee filters of one service is
    reported as a loop, whether or not a chain leads back: the table of
    visited names is never cleared, so the second visit finds the name
    that the first one left. *)
Theorem shared_target_is_reported_as_loop
    (svcs : gmap addr SERVICE) (inst : TEE_INSTANCE) (a : addr) (sa : SERVICE)
    (l1 l2 : list FILTER_DEF) (f1 f2 : FILTER_DEF) (n1 n2 : TEE_INSTANCE)
    (b1 b2 d : addr) :
  services_wf svcs ->
  svcs !! a = Some sa ->
  SERVICE.filters sa = (l1 ++ f1 :: l2)%list ->
  In f2 l2 ->
  FILTER_DEF.module f1 = "tee" ->
  FILTER_DEF.filter f1 = Some n1 ->
  TEE_INSTANCE.service n1 = Some b1 ->
  FILTER_DEF.module f2 = "tee" ->
  FILTER_DEF.filter f2 = Some n2 ->
  TEE_INSTANCE.service n2 = Some b2 ->
  rtc (tees_to svcs) b1 d ->
  rtc (tees_to svcs) b2 d ->
  is_Some (svcs !! d) ->
  exists ht,
    detect_loops (loop_fuel svcs) svcs inst (Some ∅) (Some a)
    = Some (1, Some ht).
Proof.
  clear_env.
  intros Hwf Ha Hfs Hin2 Hm1 Hf1 Hb1 Hm2 Hf2 Hb2 Hr1 Hr2 [sd Hd].
  assert (Hwfa : forall g gi, In g (SERVICE.filters sa) ->
                   FILTER_DEF.module g = "tee" ->
                   FILTER_DEF.filter g = Some gi ->
                   exists t, TEE_INSTANCE.service gi = Some t
                             /\ is_Some (svcs !! t))
    by (intros g gi Hg Hmg Hfg; exact (Hwf a sa g gi Ha Hg Hmg Hfg)).
  unfold loop_fuel. cbn. rewrite Ha. cbn. unfold hashtable_add.
  rewrite decide_False by apply not_elem_of_empty. cbn.
  set (tbl := ({[SERVICE.name sa]} ∪ ∅ : gset string)).
  set (fuel := size svcs).
  assert (Hsize : forall ht : gset string,
             tbl ⊆ ht -> (size (service_names svcs ∖ ht) < fuel)%nat).
  { intros ht Hsub.
    pose proof (unvisited_decreases (service_names svcs) ∅ (SERVICE.name sa)
                  (service_names_elem _ _ _ Ha) (not_elem_of_empty _)) as Hlt.
    pose proof (loop_fuel_bound svcs ∅) as Hb. unfold loop_fuel in Hb.
    assert (size (service_names svcs ∖ ht) <= size (service_names svcs ∖ tbl))%nat
      by (by apply subseteq_size, difference_mono_l).
    subst fuel tbl. lia. }
  rewrite Hfs, detect_loops_filters_app.
  destruct (detect_loops_filters_total svcs fuel l1) with (ht := tbl)
    as (r & ht1 & -> & Hsub1 & Hr).
  { intros. by apply detect_loops_total. }
  { intros g gi Hg. apply Hwfa. rewrite Hfs. apply in_or_app. by left. }
  { by apply Hsize. }
  destruct Hr as [-> | ->]; [| by eexists].
  change (truthy 0) with false. cbv iota.
  assert (Hhit : forall ht2, ht1 ⊆ ht2 -> SERVICE.name sd ∈ ht2 ->
             exists ht3,
               detect_loops fuel svcs n2 (Some ht2) (Some b2)
               = Some (1, Some ht3)).
  { intros ht2 Hsub2 Hname.
    eapply (detect_loops_revisits svcs Hwf b2 d Hr2 sd Hd); eauto.
    apply Hsize. by etrans. }
  cbn. rewrite Hm1. cbn. rewrite Hf1, Hb1.
  destruct (Hwfa f1 n1) as (t1 & Ht1 & Hsome1);
    [rewrite Hfs; apply in_or_app; right; by left | done | done |].
  rewrite Hb1 in Ht1. injection Ht1 as <-.
  destruct (detect_loops_total svcs Hwf fuel n1 ht1 b1 Hsome1 (Hsize _ Hsub1))
    as (r & ht2 & Hrun & Hsub2 & Hr).
  rewrite Hrun. destruct Hr as [-> | ->]; [| by eexists].
  change (truthy 0) with false. cbv iota.
  pose proof (detect_loops_visits _ _ _ _ _ _ Hrun d sd Hr1 Hd) as Hname.
  eapply (detect_loops_filters_hit svcs fuel Hwf l2 ht2 f2 n2 b2); eauto.
  - intros g gi Hg. apply Hwfa. rewrite Hfs. apply in_or_app. right. by right.
  - apply Hsize. by etrans.
  - intros ht3 Hsub3. apply Hhit; [by etrans | by apply Hsub3].
Qed.

(** X28. [detect_loops] reads the tee filters whose instances are created
    and nothing else: taking every other filter out of every service
    leaves each of its results as it is. *)
Theorem detect_loops_reads_resolved_tees_only
    (svcs : gmap addr SERVICE) (fuel : nat) (inst : TEE_INSTANCE)
    (ht : option HASHTABLE) (a : option addr) :
  detect_loops fuel (only_resolved_tees <$> svcs) inst ht a
  = detect_loops fuel svcs inst ht a.
Proof.
  clear_env.
  revert inst ht a. induction fuel as [|fuel IH]; intros inst ht a; [done |].
  cbn. destruct ht as [tbl|]; [| done].
  assert (Hl : a ≫= ((only_resolved_tees <$> svcs) !!.)
               = only_resolved_tees <$> (a ≫= (svcs !!.))).
  { destruct a as [a|]; [| done]. cbn. by rewrite lookup_fmap. }
  rewrite Hl. destruct (a ≫= (svcs !!.)) as [svc|]; [| done]. cbn.
  destruct (hashtable_add tbl (SERVICE.name svc)) as [added tbl1].
  destruct (added =? 0); [done |].
  generalize (Some tbl1). clear -IH.
  induction (SERVICE.filters svc) as [|g fs IHfs]; intros h; [done |].
  cbn. unfold resolved_tee at 1.
  destruct (String.eqb (FILTER_DEF.module g) "tee") eqn:Hg; cbn; [| apply IHfs].
  destruct (FILTER_DEF.filter g) as [gi|] eqn:Hgi; cbn; [| apply IHfs].
  rewrite Hg, Hgi, IH.
  destruct (detect_loops fuel svcs gi h _) as [[r h1]|]; [| done].
  destruct (truthy r); [done | apply IHfs].
Qed.

End Tee.

(** * The theorems on the scenarios *)

(** C1: the session of a client that fails the source gate. The
    downstream would accept the query with status [1]; the dispatch
    returns [0] and leaves the world as it is, so the query is not
    forwarded down the primary path. *)
Example inactive_session_query_not_forwarded :
  exists s0 w0,
    newSession sim_remote sim_user sim_dcb_clone sim_session_alloc sim_put_ref
      source_instance 10 scenario_world = Some (Some s0, w0)
    /\ TEE_SESSION.active s0 = 0
    /\ DOWNSTREAM.routeQuery accepting_downstream (com_query "SELECT 1") (heap w0)
       = (1, heap w0)
    /\ routeQuery sim_regexec sim_get_SQL source_instance
         (setDownstream s0 accepting_downstream) (com_query "SELECT 1") w0
       = Some ((0, setDownstream s0 accepting_downstream), w0).
Proof.
  eexists _, _. split; [vm_compute; reflexivity |].
  split; [reflexivity |]. split; reflexivity.
Qed.

Lemma clone_query_unfiltered_or_required_witness :
  has_required_command com_quit
  /\ clone_query sim_regexec sim_get_SQL pattern_instance
       (active_session accepting_downstream) com_quit = Some com_quit.
Proof.
  assert (H : has_required_command com_quit).
  { exists MYSQL_COM_QUIT. split; [reflexivity | left; reflexivity]. }
  split; [exact H |].
  apply (clone_query_unfiltered_or_required sim_regexec sim_get_SQL
           pattern_instance (active_session accepting_downstream) com_quit).
  right. exact H.
Defined.

Lemma clone_query_both_patterns_witness :
  TEE_INSTANCE.match_ pattern_instance = Some "SELECT"
  /\ TEE_INSTANCE.nomatch pattern_instance = Some "SELECT secret"
  /\ ~ has_required_command (com_query "INSERT INTO t VALUES(1)")
  /\ sim_get_SQL (com_query "INSERT INTO t VALUES(1)")
     = Some "INSERT INTO t VALUES(1)"
  /\ (clone_query sim_regexec sim_get_SQL pattern_instance
        (active_session accepting_downstream)
        (com_query "INSERT INTO t VALUES(1)")
      = Some (com_query "INSERT INTO t VALUES(1)")
      <-> sim_regexec (TEE_INSTANCE.re pattern_instance) "INSERT INTO t VALUES(1)" = 0
          \/ sim_regexec (TEE_INSTANCE.nore pattern_instance)
               "INSERT INTO t VALUES(1)" <> 0).
Proof.
  assert (H : ~ has_required_command (com_query "INSERT INTO t VALUES(1)")).
  { intros (c & Hc & Hin). vm_compute in Hc. injection Hc as <-.
    vm_compute in Hin. intuition discriminate. }
  split; [reflexivity |]. split; [reflexivity |]. split; [exact H |].
  split; [reflexivity |].
  apply (clone_query_both_patterns sim_regexec sim_get_SQL pattern_instance
           (active_session accepting_downstream)
           (com_query "INSERT INTO t VALUES(1)") "SELECT" "SELECT secret"
           eq_refl eq_refl H).
  reflexivity.
Defined.

(** C4 as stated fails, whichever moment "dispatch time" is. The branch
    session is stopping when the dispatch starts: the status is [0], the
    session structure and the world are as they were, so the clone is
    not freed, [active] is still [1] and nothing is counted. The router
    of the branch session tears it down while the primary buffer is
    routed: the downstream returned [1], the dispatch returns [0], and
    the counter of rejected queries is as it was while the counter of
    duplicated ones has gone up. *)
Lemma torn_down_branch_fails_dispatch :
  (route_single_query (tee_instance_to 2) (active_session accepting_downstream)
     (com_query "SELECT 1") (Some (com_query "SELECT 1")) stopping_world
   = Some ((0, active_session accepting_downstream), stopping_world)
   /\ TEE_SESSION.active (active_session accepting_downstream) = 1)
  /\ exists s' w',
       route_single_query (tee_instance_to 2) (active_session teardown_downstream)
         (com_query "SELECT 1") (Some (com_query "SELECT 1")) active_world
       = Some ((0, s'), w')
       /\ (DOWNSTREAM.routeQuery teardown_downstream (com_query "SELECT 1")
             (heap active_world)).1 = 1
       /\ TEE_SESSION.n_rejected s'
          = TEE_SESSION.n_rejected (active_session teardown_downstream)
       /\ TEE_SESSION.n_duped s'
          = TEE_SESSION.n_duped (active_session teardown_downstream) + 1.
Proof.
  split; [split; reflexivity |].
  eexists _, _. split; [vm_compute; reflexivity |].
  split; [reflexivity |]. split; reflexivity.
Qed.

Lemma dispatch_drops_clone_and_reports_failure_witness :
  truthy (TEE_SESSION.active (active_session teardown_downstream)) = true
  /\ sessions (heap active_world) !! 11%nat = Some branch_session_11
  /\ exists s' w',
       route_single_query (tee_instance_to 2) (active_session teardown_downstream)
         (com_query "SELECT 1") (Some (com_query "SELECT 1")) active_world
       = Some ((0, s'), w')
       /\ TEE_SESSION.active s' = 0
       /\ In (EvGwbufFree (com_query "SELECT 1")) (trace w').
Proof.
  split; [reflexivity |]. split; [reflexivity |].
  destruct (proj2 (dispatch_drops_clone_and_reports_failure sim_regexec
                     sim_get_SQL sim_err_msg
                     (tee_instance_to 2) (active_session teardown_downstream)
                     (com_query "SELECT 1") (com_query "SELECT 1") active_world
                     11%nat branch_session_11 eq_refl eq_refl eq_refl)
              eq_refl teardown_downstream 1
              (DOWNSTREAM.routeQuery teardown_downstream (com_query "SELECT 1")
                 (heap active_world)).2
              (SESSION.set_state SESSION_STATE_STOPPING branch_session_11)
              eq_refl eq_refl eq_refl)
    as (s' & w' & Hrun & Ha & _ & Ht & _); [discriminate |].
  exists s', w'. split; [exact Hrun |]. split; [exact Ha |].
  rewrite Ht. apply in_or_app. right. right. right. left. reflexivity.
Defined.

Lemma newSession_refuses_recursion_witness :
  sessions (heap (config_world chain_ABA)) !! 10%nat = Some client_session
  /\ services (config_world chain_ABA) !! 2%nat
     = Some (SERVICE.mk "B" [tee_to 1])
  /\ exists w',
       newSession sim_remote sim_user sim_dcb_clone sim_session_alloc
         sim_put_ref (tee_instance_to 2) 10 (config_world chain_ABA)
       = Some (None, w').
Proof.
  split; [reflexivity |]. split; [reflexivity |].
  destruct chain_ABA_loop as [ht Hloop].
  apply (proj1 (newSession_refuses_recursion sim_remote sim_user sim_dcb_clone
                  sim_session_alloc sim_put_ref)
           (tee_instance_to 2) 10%nat (config_world chain_ABA) client_session
           2%nat (SERVICE.mk "B" [tee_to 1]) (SERVICE.mk "A" [tee_to 2])
           eq_refl eq_refl eq_refl eq_refl).
  right. exists 1, ht. split; [discriminate | exact Hloop].
Defined.



Lemma scenario_allocations n : allocations_succeed n scenario_world.
Proof. intros i _. cbn. rewrite lookup_nil. discriminate. Qed.




Lemma orphan_world_inv : registry_inv orphan_world.
Proof.
  unfold registry_inv. cbn. apply NoDup_singleton.
Qed.

Lemma orphan_world_allocated : registry_allocated orphan_world.
Proof.
  intros q Hq. cbn in Hq. apply list_elem_of_singleton in Hq as ->.
  exists orphan_30. reflexivity.
Qed.

Lemma orphan_30_quiescent : quiescent orphan_30.
Proof. repeat split. Qed.

Lemma orphan_reclaimed_exactly_once_witness :
  registry_inv orphan_world
  /\ registry_allocated orphan_world
  /\ 30%nat ∈ allOrphans orphan_world
  /\ sessions (heap orphan_world) !! 30%nat = Some orphan_30
  /\ SESSION.state orphan_30 = SESSION_STATE_STOPPING
  /\ exists w1 w2,
       orphan_free orphan_world = Some (tt, w1)
       /\ 30%nat ∈ allOrphans w1
       /\ sessions (heap w1) !! 30%nat
          = Some (SESSION.set_state SESSION_STATE_TO_BE_FREED orphan_30)
       /\ orphan_free w1 = Some (tt, w2)
       /\ sessions (heap w2) !! 30%nat = None
       /\ 30%nat ∈ freed_sessions (trace w2)
       /\ NoDup (freed_sessions (trace w2)).
Proof.
  assert (Hin : 30%nat ∈ allOrphans orphan_world) by (cbn; apply list_elem_of_here).
  split; [exact orphan_world_inv |]. split; [exact orphan_world_allocated |].
  split; [exact Hin |]. split; [reflexivity |]. split; [reflexivity |].
  destruct (orphan_reclaimed_exactly_once orphan_world 30%nat orphan_30
              orphan_world_inv orphan_world_allocated Hin eq_refl eq_refl)
    as (w1 & Hfree & Hreg & _ & _ & Hq).
  destruct (Hq orphan_30_quiescent)
    as (Hlook & fin & wl & w2 & _ & _ & Hfree2 & _ & _ & _ & _ & _ & _ & Hgone
        & Hlater).
  destruct (Hlater w2 (rtc_refl _ _)) as (_ & Hfreed & Hnd).
  exists w1, w2. auto 10.
Defined.

Lemma closeSession_idempotent_witness :
  exists s1 w1,
    closeSession sim_err_msg (tee_instance_to 2)
      (active_session accepting_downstream) active_world = Some (s1, w1)
    /\ In (EvRouterCloseSession 11%nat) (trace w1)
    /\ closeSession sim_err_msg (tee_instance_to 2) s1 w1 = Some (s1, w1).
Proof.
  destruct (closeSession sim_err_msg (tee_instance_to 2)
              (active_session accepting_downstream) active_world)
    as [[s1 w1]|] eqn:E; [| vm_compute in E; discriminate E].
  exists s1, w1. split; [reflexivity |]. split.
  - vm_compute in E. injection E as <- <-. cbn. auto.
  - apply (closeSession_idempotent sim_err_msg (tee_instance_to 2)
             (active_session accepting_downstream) s1 active_world w1 E).
Defined.

(** C9 as stated fails: a parameter and an option that the filter does
    not support are written to the log, and the instance is created. *)
Lemma unsupported_parameter_and_option_accepted :
  exists i w',
    createInstance sim_regcomp sim_REG_ICASE sim_REG_EXTENDED sim_service_find
      sim_standard_parameter "tee" (Some ["bogus"])
      (Some [FILTER_PARAMETER.mk "service" "branch_svc";
             FILTER_PARAMETER.mk "colour" "red"])
      scenario_world = Some (Some i, w')
    /\ In (EvLog LOG_ERR "tee: Unexpected parameter: colour") (trace w')
    /\ In (EvLog LOG_ERR "tee: unsupported option: bogus") (trace w').
Proof.
  eexists _, _. split; [vm_compute; reflexivity |].
  split; cbn; auto.
Qed.

Lemma createInstance_fails_iff_config_error_witness :
  allocations_succeed 1 scenario_world
  /\ exists r evs,
       createInstance sim_regcomp sim_REG_ICASE sim_REG_EXTENDED sim_service_find
         sim_standard_parameter "tee" None
         (Some [FILTER_PARAMETER.mk "service" "branch_svc";
                FILTER_PARAMETER.mk "match" "("])
         scenario_world
       = Some (r, set_trace (trace scenario_world ++ evs)
                    (set_alloc_tape (tail (alloc_tape scenario_world))
                       scenario_world))
       /\ (r = None <->
           config_error sim_regcomp sim_REG_ICASE sim_REG_EXTENDED
             sim_service_find None
             (Some [FILTER_PARAMETER.mk "service" "branch_svc";
                    FILTER_PARAMETER.mk "match" "("])).
Proof.
  split; [exact (scenario_allocations 1) |].
  destruct (createInstance_fails_iff_config_error sim_regcomp sim_REG_ICASE
              sim_REG_EXTENDED sim_service_find sim_standard_parameter "tee"
              None
              (Some [FILTER_PARAMETER.mk "service" "branch_svc";
                     FILTER_PARAMETER.mk "match" "("])
              scenario_world (scenario_allocations 1))
    as (r & evs & Hrun & Hiff & _).
  exists r, evs. split; [exact Hrun | exact Hiff].
Defined.

Lemma waiting_never_set_witness :
  exists s0 w0 s1 w1,
    newSession sim_remote sim_user sim_dcb_clone sim_session_alloc sim_put_ref
      (tee_instance_to 2) 10 scenario_world = Some (Some s0, w0)
    /\ rtc (step sim_regexec sim_get_SQL sim_err_msg (tee_instance_to 2))
         (s0, w0) (s1, w1)
    /\ In (EvSessionRouteQuery 11%nat (com_query "SELECT 1")) (trace w1)
    /\ In (EvRouterCloseSession 11%nat) (trace w1)
    /\ TEE_SESSION.waiting s1 = (false, false).
Proof.
  destruct (newSession sim_remote sim_user sim_dcb_clone sim_session_alloc
              sim_put_ref (tee_instance_to 2) 10 scenario_world)
    as [[[s0|] w0]|] eqn:Hnew;
    [| vm_compute in Hnew; discriminate Hnew
     | vm_compute in Hnew; discriminate Hnew].
  destruct (run_call sim_regexec sim_get_SQL sim_err_msg (tee_instance_to 2)
              (Call_setDownstream accepting_downstream) s0 w0)
    as [[sa wa]|] eqn:Ha; [| discriminate Ha].
  destruct (run_call sim_regexec sim_get_SQL sim_err_msg (tee_instance_to 2)
              (Call_routeQuery (com_query "SELECT 1")) sa wa)
    as [[sb wb]|] eqn:Hb;
    [| vm_compute in Hnew; injection Hnew as <- <-;
       vm_compute in Ha; injection Ha as <- <-;
       vm_compute in Hb; discriminate Hb].
  destruct (run_call sim_regexec sim_get_SQL sim_err_msg (tee_instance_to 2)
              Call_closeSession sb wb)
    as [[sc wc]|] eqn:Hc;
    [| vm_compute in Hnew; injection Hnew as <- <-;
       vm_compute in Ha; injection Ha as <- <-;
       vm_compute in Hb; injection Hb as <- <-;
       vm_compute in Hc; discriminate Hc].
  assert (Hrun : rtc (step sim_regexec sim_get_SQL sim_err_msg (tee_instance_to 2))
                   (s0, w0) (sc, wc)).
  { eapply rtc_l; [eapply step_call, Ha |].
    eapply rtc_l; [eapply step_call, Hb |].
    eapply rtc_l; [eapply step_call, Hc |]. apply rtc_refl. }
  exists s0, w0, sc, wc. split; [reflexivity |]. split; [exact Hrun |].
  split; [| split].
  - vm_compute in Hnew; injection Hnew as <- <-.
    vm_compute in Ha; injection Ha as <- <-.
    vm_compute in Hb; injection Hb as <- <-.
    vm_compute in Hc; injection Hc as <- <-. cbn. auto 10.
  - vm_compute in Hnew; injection Hnew as <- <-.
    vm_compute in Ha; injection Ha as <- <-.
    vm_compute in Hb; injection Hb as <- <-.
    vm_compute in Hc; injection Hc as <- <-. cbn. auto 10.
  - apply (waiting_never_set sim_regexec sim_get_SQL sim_err_msg sim_remote
             sim_user sim_dcb_clone sim_session_alloc sim_put_ref
             (tee_instance_to 2) 10%nat scenario_world w0 wc s0 sc Hnew Hrun).
Defined.

(** * The further properties on the scenarios *)

Lemma select_not_required : ~ has_required_command (com_query "SELECT 1").
Proof.
  intros (c & Hc & Hin). vm_compute in Hc. injection Hc as <-.
  vm_compute in Hin. intuition discriminate.
Qed.

Lemma quit_required : has_required_command com_quit.
Proof. exists MYSQL_COM_QUIT. split; [reflexivity | left; reflexivity]. Qed.

Lemma clone_query_single_pattern_witness :
  ~ has_required_command (com_query "SELECT 1")
  /\ clone_query sim_regexec sim_get_SQL include_instance
       (active_session accepting_downstream) (com_query "SELECT 1")
     = Some (com_query "SELECT 1")
  /\ clone_query sim_regexec sim_get_SQL exclude_instance
       (active_session accepting_downstream) (com_query "SELECT 1")
     = Some (com_query "SELECT 1").
Proof.
  split; [exact select_not_required |]. split.
  - apply (proj1 (proj1 (proj1 (clone_query_single_pattern sim_regexec
                                  sim_get_SQL include_instance
                                  (active_session accepting_downstream)
                                  (com_query "SELECT 1") select_not_required)
                           "SELECT" eq_refl eq_refl)
                    "SELECT 1" eq_refl)).
    reflexivity.
  - apply (proj1 (proj1 (proj2 (clone_query_single_pattern sim_regexec
                                  sim_get_SQL exclude_instance
                                  (active_session accepting_downstream)
                                  (com_query "SELECT 1") select_not_required)
                           "SELECT secret" eq_refl eq_refl)
                    "SELECT 1" eq_refl)).
    discriminate.
Defined.

Lemma routeQuery_healthy_witness :
  routeQuery sim_regexec sim_get_SQL (tee_instance_to 2)
    (setDownstream (active_session teardown_downstream) accepting_downstream)
    (com_query "SELECT 1") active_world
  = Some ((1, count_duped
                (setDownstream (active_session teardown_downstream)
                   accepting_downstream)),
          set_trace
            (trace active_world
             ++ [EvDownRouteQuery (com_query "SELECT 1");
                 EvSessionRouteQuery 11%nat (com_query "SELECT 1")])
            (set_heap (heap active_world) active_world)).
Proof.
  apply (proj2 (routeQuery_healthy sim_regexec sim_get_SQL (tee_instance_to 2)
                  (active_session teardown_downstream) (com_query "SELECT 1")
                  active_world 11%nat branch_session_11 accepting_downstream 1
                  (heap active_world) eq_refl eq_refl eq_refl eq_refl eq_refl)
           (com_query "SELECT 1") branch_session_11 eq_refl eq_refl eq_refl).
Defined.

Lemma required_packet_reaches_branch_witness :
  has_required_command com_quit
  /\ exists s' w',
       routeQuery sim_regexec sim_get_SQL pattern_instance
         (active_session accepting_downstream) com_quit active_world
       = Some ((1, s'), w')
       /\ trace w'
          = [EvDownRouteQuery com_quit; EvSessionRouteQuery 11%nat com_quit].
Proof.
  split; [exact quit_required |].
  apply (required_packet_reaches_branch sim_regexec sim_get_SQL pattern_instance
           (active_session accepting_downstream) com_quit active_world 11%nat
           branch_session_11 branch_session_11 accepting_downstream 1
           (heap active_world) quit_required eq_refl eq_refl eq_refl eq_refl
           eq_refl eq_refl eq_refl eq_refl).
Defined.

Lemma route_single_query_counters_witness :
  exists s' w',
    route_single_query (tee_instance_to 2) (active_session teardown_downstream)
      (com_query "SELECT 1") (Some (com_query "SELECT 1")) active_world
    = Some ((0, s'), w')
    /\ TEE_SESSION.n_duped s' = 1
    /\ TEE_SESSION.n_rejected s' = 0.
Proof.
  destruct (route_single_query (tee_instance_to 2)
              (active_session teardown_downstream) (com_query "SELECT 1")
              (Some (com_query "SELECT 1")) active_world)
    as [[[r s'] w']|] eqn:E; [| vm_compute in E; discriminate E].
  destruct (route_single_query_counters (tee_instance_to 2)
              (active_session teardown_downstream) (com_query "SELECT 1")
              (Some (com_query "SELECT 1")) active_world r s' w' E)
    as (ready & Hready & Hd & Hr & _).
  vm_compute in Hready. injection Hready as <-.
  assert (r = 0) as -> by (vm_compute in E; congruence).
  exists s', w'. split; [reflexivity |]. split; [exact Hd | exact Hr].
Defined.

Lemma deactivated_session_routes_nothing_witness :
  routeQuery sim_regexec sim_get_SQL (tee_instance_to 2)
    (TEE_SESSION.set_active 0 (active_session accepting_downstream))
    (com_query "SELECT 1") stopping_world
  = Some ((0, TEE_SESSION.set_active 0 (active_session accepting_downstream)),
          stopping_world).
Proof.
  apply (deactivated_session_routes_nothing sim_regexec sim_get_SQL sim_err_msg
           (tee_instance_to 2)
           (TEE_SESSION.set_active 0 (active_session accepting_downstream))
           (TEE_SESSION.set_active 0 (active_session accepting_downstream))
           active_world stopping_world (com_query "SELECT 1") eq_refl).
  apply rtc_once. apply step_world.
Defined.

Lemma reset_session_state_idempotent_witness :
  reset_session_state (active_session accepting_downstream) (com_query "SELECT 1")
  = Some (1, waiting_session)
  /\ reset_session_state waiting_session (com_query "SELECT 1")
     = Some (1, waiting_session).
Proof.
  split; [reflexivity |].
  apply (reset_session_state_idempotent (active_session accepting_downstream)
           waiting_session (com_query "SELECT 1") 1 eq_refl).
Defined.

Lemma closeSession_stops_branch_witness :
  exists w',
    closeSession sim_err_msg (tee_instance_to 2)
      (active_session accepting_downstream) active_world
    = Some (TEE_SESSION.set_active 0 (active_session accepting_downstream), w')
    /\ sessions (heap w') !! 11%nat
       = Some (SESSION.set_state SESSION_STATE_STOPPING branch_session_11).
Proof.
  destruct (closeSession_stops_branch sim_err_msg (tee_instance_to 2)
              (active_session accepting_downstream) active_world 11%nat
              branch_session_11 eq_refl eq_refl eq_refl eq_refl)
    as (w' & Hrun & Hst & _).
  exists w'. split; [exact Hrun | exact Hst].
Defined.

Lemma waiting_session_mid_query :
  closed_mid_query waiting_session active_world 20%nat.
Proof. repeat split. discriminate. Qed.

Lemma closeSession_replies_mid_query_witness :
  exists s' w' evs0,
    closeSession sim_err_msg (tee_instance_to 2) waiting_session active_world
    = Some (s', w')
    /\ trace w'
       = (trace active_world
          ++ evs0 ++ [EvLog LOG_INFO "Tee session closed mid-query.";
                      EvDcbWrite 20%nat (session_closed_reply sim_err_msg)])%list.
Proof.
  destruct (closeSession sim_err_msg (tee_instance_to 2) waiting_session
              active_world)
    as [[s' w']|] eqn:E; [| vm_compute in E; discriminate E].
  destruct (closeSession_replies_mid_query sim_err_msg (tee_instance_to 2)
              waiting_session s' active_world w' E)
    as (evs & Ht & Hmid & _).
  destruct (Hmid 20%nat eq_refl waiting_session_mid_query) as (evs0 & -> & _).
  exists s', w', evs0. split; [reflexivity | exact Ht].
Defined.

Lemma reset_then_close_witness :
  exists s2 w2,
    closeSession sim_err_msg (tee_instance_to 2) waiting_session active_world
    = Some (s2, w2)
    /\ last (trace w2)
       = Some (EvDcbWrite 20%nat (session_closed_reply sim_err_msg)).
Proof.
  destruct (closeSession sim_err_msg (tee_instance_to 2) waiting_session
              active_world)
    as [[s2 w2]|] eqn:E; [| vm_compute in E; discriminate E].
  destruct (reset_then_close sim_err_msg (tee_instance_to 2)
              (active_session accepting_downstream) waiting_session s2
              (com_query "SELECT 1") active_world w2 20%nat
              eq_refl eq_refl eq_refl eq_refl E)
    as (evs & Ht & Hlast & _).
  exists s2, w2. split; [reflexivity |].
  rewrite Ht. cbn [trace active_world app]. apply Hlast. discriminate.
Defined.

Lemma empty_registry_inv w :
  allOrphans w = [] -> freed_sessions (trace w) = [] -> registry_inv w.
Proof. unfold registry_inv. intros -> ->. apply NoDup_nil_2. Qed.

Lemma empty_registry_allocated w : allOrphans w = [] -> registry_allocated w.
Proof. intros H q Hq. rewrite H in Hq. by apply not_elem_of_nil in Hq. Qed.

Lemma freeSession_ready_branch_witness :
  exists w',
    freeSession sim_put_ref (tee_instance_to 2)
      (active_session accepting_downstream) active_world = Some (tt, w')
    /\ (11%nat ∉ allOrphans w')
    /\ sessions (heap w') !! 11%nat = Some branch_session_11.
Proof.
  destruct (freeSession_ready_branch sim_put_ref (tee_instance_to 2)
              (active_session accepting_downstream) active_world 11%nat
              branch_session_11 (heap active_world) eq_refl eq_refl eq_refl
              eq_refl (empty_registry_inv active_world eq_refl eq_refl)
              (empty_registry_allocated
                 (set_heap (heap active_world) active_world) eq_refl)
              (not_elem_of_nil _))
    as (w' & Hrun & _ & Hreg & _ & Hlook).
  exists w'. split; [exact Hrun |]. split; [exact Hreg | exact Hlook].
Defined.

Lemma freeSession_frees_marked_branch_witness :
  exists w',
    freeSession sim_put_ref (tee_instance_to 2)
      (active_session accepting_downstream) marked_world = Some (tt, w')
    /\ sessions (heap w') !! 11%nat = None
    /\ 11%nat ∈ freed_sessions (trace w')
    /\ NoDup (freed_sessions (trace w')).
Proof.
  destruct (freeSession_frees_marked_branch sim_put_ref (tee_instance_to 2)
              (active_session accepting_downstream) marked_world 11%nat
              (SESSION.set_state SESSION_STATE_TO_BE_FREED branch_session_11)
              eq_refl eq_refl eq_refl
              (empty_registry_inv marked_world eq_refl eq_refl)
              (empty_registry_allocated marked_world eq_refl)
              (not_elem_of_nil _)
              (not_elem_of_nil _))
    as (w' & evs & Hrun & _ & Hgone & _ & Hfreed & Hnd).
  exists w'. auto.
Defined.

Lemma freeSession_defers_stopping_branch_witness :
  exists w',
    freeSession sim_put_ref (tee_instance_to 2)
      (active_session accepting_downstream) stopping_world = Some (tt, w')
    /\ (11%nat ∉ freed_sessions (trace w'))
    /\ allOrphans w' = [11%nat]
    /\ sessions (heap w') !! 11%nat
       = Some (SESSION.set_state SESSION_STATE_STOPPING branch_session_11).
Proof.
  destruct (freeSession_defers_stopping_branch sim_put_ref (tee_instance_to 2)
              (active_session accepting_downstream) stopping_world 11%nat
              (SESSION.set_state SESSION_STATE_STOPPING branch_session_11)
              eq_refl eq_refl eq_refl
              (empty_registry_inv stopping_world eq_refl eq_refl)
              (empty_registry_allocated stopping_world eq_refl)
              (not_elem_of_nil _)
              (not_elem_of_nil _))
    as (w' & Hrun & Hnot & Hok & _).
  destruct Hok as [Hreg Hlook]; [discriminate |].
  exists w'. split; [exact Hrun |]. split; [exact Hnot |].
  split; [exact Hreg | exact Hlook].
Defined.

Lemma freeSession_calls_outside_locks_witness :
  exists w' evs,
    freeSession sim_put_ref (tee_instance_to 2)
      (active_session accepting_downstream) stopping_world = Some (tt, w')
    /\ trace w' = (trace stopping_world ++ evs)%list
    /\ locks_ok None evs = true.
Proof.
  destruct (freeSession sim_put_ref (tee_instance_to 2)
              (active_session accepting_downstream) stopping_world)
    as [[[] w']|] eqn:E; [| vm_compute in E; discriminate E].
  destruct (freeSession_calls_outside_locks sim_put_ref (tee_instance_to 2)
              (active_session accepting_downstream) stopping_world w' E)
    as (evs & Ht & Hl).
  exists w', evs. auto.
Defined.


Lemma live_calls_leave_registry_alone_witness :
  exists s' w',
    run_call sim_regexec sim_get_SQL sim_err_msg (tee_instance_to 2)
      Call_closeSession (active_session accepting_downstream) active_world
    = Some (s', w')
    /\ allOrphans w' = allOrphans active_world
    /\ freed_sessions (trace w') = [].
Proof.
  destruct (run_call sim_regexec sim_get_SQL sim_err_msg (tee_instance_to 2)
              Call_closeSession (active_session accepting_downstream)
              active_world)
    as [[s' w']|] eqn:E; [| vm_compute in E; discriminate E].
  destruct (live_calls_leave_registry_alone sim_regexec sim_get_SQL sim_err_msg
              (tee_instance_to 2) Call_closeSession
              (active_session accepting_downstream) s' active_world w' E)
    as (evs & Ht & _ & Hf & _ & Ho & _).
  exists s', w'. split; [reflexivity |]. split; [exact Ho |].
  rewrite Ht. cbn [trace active_world app]. exact Hf.
Defined.

Lemma rejected_counter_stays_zero_witness :
  exists s0 w0 s1 w1,
    newSession sim_remote sim_user sim_dcb_clone sim_session_alloc sim_put_ref
      (tee_instance_to 2) 10 scenario_world = Some (Some s0, w0)
    /\ rtc (step sim_regexec sim_get_SQL sim_err_msg (tee_instance_to 2))
         (s0, w0) (s1, w1)
    /\ TEE_SESSION.n_duped s1 = 1
    /\ TEE_SESSION.n_rejected s1 = 0.
Proof.
  destruct (newSession sim_remote sim_user sim_dcb_clone sim_session_alloc
              sim_put_ref (tee_instance_to 2) 10 scenario_world)
    as [[[s0|] w0]|] eqn:Hnew;
    [| vm_compute in Hnew; discriminate Hnew
     | vm_compute in Hnew; discriminate Hnew].
  destruct (run_call sim_regexec sim_get_SQL sim_err_msg (tee_instance_to 2)
              (Call_setDownstream teardown_downstream) s0 w0)
    as [[sa wa]|] eqn:Ha; [| discriminate Ha].
  destruct (run_call sim_regexec sim_get_SQL sim_err_msg (tee_instance_to 2)
              (Call_routeQuery (com_query "SELECT 1")) sa wa)
    as [[sb wb]|] eqn:Hb;
    [| vm_compute in Hnew; injection Hnew as <- <-;
       vm_compute in Ha; injection Ha as <- <-;
       vm_compute in Hb; discriminate Hb].
  assert (Hrun : rtc (step sim_regexec sim_get_SQL sim_err_msg (tee_instance_to 2))
                   (s0, w0) (sb, wb)).
  { eapply rtc_l; [eapply step_call, Ha |].
    eapply rtc_l; [eapply step_call, Hb |]. apply rtc_refl. }
  exists s0, w0, sb, wb. split; [reflexivity |]. split; [exact Hrun |]. split.
  - vm_compute in Hnew; injection Hnew as <- <-.
    vm_compute in Ha; injection Ha as <- <-.
    vm_compute in Hb; injection Hb as <- <-. reflexivity.
  - apply (rejected_counter_stays_zero sim_regexec sim_get_SQL sim_err_msg
             sim_remote sim_user sim_dcb_clone sim_session_alloc sim_put_ref
             (tee_instance_to 2) 10%nat scenario_world w0 wb s0 sb Hnew Hrun).
Defined.

Lemma freeSession_releases_structure_only_witness :
  exists s0 w0 w2 evs1 evs2,
    newSession sim_remote sim_user sim_dcb_clone sim_session_alloc sim_put_ref
      (tee_instance_to 2) 10 scenario_world = Some (Some s0, w0)
    /\ freeSession sim_put_ref (tee_instance_to 2) s0 w0 = Some (tt, w2)
    /\ trace w2 = (trace w0 ++ evs1 ++ EvFreeTeeSession :: evs2)%list
    /\ Forall (fun e => is_aux_release e = false /\ e <> EvFreeTeeSession)
         (evs1 ++ evs2).
Proof.
  destruct (newSession sim_remote sim_user sim_dcb_clone sim_session_alloc
              sim_put_ref (tee_instance_to 2) 10 scenario_world)
    as [[[s0|] w0]|] eqn:Hnew;
    [| vm_compute in Hnew; discriminate Hnew
     | vm_compute in Hnew; discriminate Hnew].
  destruct (freeSession sim_put_ref (tee_instance_to 2) s0 w0)
    as [[[] w2]|] eqn:Hfree;
    [| vm_compute in Hnew; injection Hnew as <- <-;
       vm_compute in Hfree; discriminate Hfree].
  destruct (freeSession_releases_structure_only sim_regexec sim_get_SQL
              sim_err_msg sim_remote sim_user sim_dcb_clone sim_session_alloc
              sim_put_ref (tee_instance_to 2) 10%nat scenario_world w0 w0 w2
              s0 s0 Hnew (rtc_refl _ _) Hfree)
    as (evs1 & evs2 & Ht & Hall).
  exists s0, w0, w2, evs1, evs2. auto.
Defined.

Lemma createInstance_keeps_last_values_witness :
  exists i w',
    createInstance sim_regcomp sim_REG_ICASE sim_REG_EXTENDED sim_service_find
      sim_standard_parameter "tee" None (Some repeated_params) scenario_world
    = Some (Some i, w')
    /\ TEE_INSTANCE.service i = Some 2%nat
    /\ TEE_INSTANCE.match_ i = Some "INSERT"
    /\ TEE_INSTANCE.userName i = Some "app"
    /\ TEE_INSTANCE.source i = None.
Proof.
  destruct (createInstance sim_regcomp sim_REG_ICASE sim_REG_EXTENDED
              sim_service_find sim_standard_parameter "tee" None
              (Some repeated_params) scenario_world)
    as [[[i|] w']|] eqn:E;
    [| vm_compute in E; discriminate E | vm_compute in E; discriminate E].
  destruct (createInstance_keeps_last_values sim_regcomp sim_REG_ICASE
              sim_REG_EXTENDED sim_service_find sim_standard_parameter "tee"
              None (Some repeated_params) scenario_world w' i E)
    as (Hsv & _ & Hso & Hus & Hma & _).
  exists i, w'. split; [reflexivity |].
  split; [exact Hsv |]. split; [exact Hma |]. split; [exact Hus | exact Hso].
Defined.

Lemma patterns_compiled_with_option_flags_witness :
  Z.land sim_REG_ICASE sim_REG_EXTENDED = 0
  /\ exists i w',
       createInstance sim_regcomp sim_REG_ICASE sim_REG_EXTENDED
         sim_service_find sim_standard_parameter "tee"
         (Some ["case"; "EXTENDED"]) (Some repeated_params) scenario_world
       = Some (Some i, w')
       /\ TEE_INSTANCE.re i = mk_regex "INSERT" sim_REG_EXTENDED.
Proof.
  split; [reflexivity |].
  destruct (createInstance sim_regcomp sim_REG_ICASE sim_REG_EXTENDED
              sim_service_find sim_standard_parameter "tee"
              (Some ["case"; "EXTENDED"]) (Some repeated_params) scenario_world)
    as [[[i|] w']|] eqn:E;
    [| vm_compute in E; discriminate E | vm_compute in E; discriminate E].
  exists i, w'. split; [reflexivity |].
  apply (proj1 (patterns_compiled_with_option_flags sim_regcomp sim_REG_ICASE
                  sim_REG_EXTENDED sim_service_find sim_standard_parameter
                  eq_refl "tee" (Some ["case"; "EXTENDED"])
                  (Some repeated_params) scenario_world w' i E) "INSERT").
  vm_compute in E. injection E as <- _. reflexivity.
Defined.

Lemma matching_no_loop :
  exists ht,
    detect_loops (loop_fuel scenario_services) scenario_services
      matching_instance (Some ∅) (Some 1%nat) = Some (0, ht).
Proof. eexists. vm_compute. reflexivity. Qed.

Lemma matching_no_recursion : no_recursion matching_instance 10 scenario_world.
Proof.
  destruct matching_no_loop as [ht Hloop].
  exists client_session, 2%nat, (SERVICE.mk "branch_svc" []),
    (SERVICE.mk "main_svc" [tee_to 2]), ht.
  repeat split; try reflexivity; [discriminate | exact Hloop].
Qed.

Lemma matching_gates : ~ gate_mismatch sim_remote sim_user matching_instance 10.
Proof.
  intros [(src & rem & Hs & Hr & Hne) | (nm & usr & Hn & Hu & Hne)].
  - injection Hs as <-. injection Hr as <-. by apply Hne.
  - injection Hn as <-. injection Hu as <-. by apply Hne.
Qed.

Lemma newSession_opens_branch_witness :
  ~ gate_mismatch sim_remote sim_user matching_instance 10
  /\ exists s0 w0,
       newSession sim_remote sim_user sim_dcb_clone sim_session_alloc
         sim_put_ref matching_instance 10 scenario_world = Some (Some s0, w0)
       /\ TEE_SESSION.active s0 = 1
       /\ TEE_SESSION.branch_session s0 = Some 11%nat
       /\ TEE_SESSION.branch_dcb s0 = Some 21%nat.
Proof.
  split; [exact matching_gates |].
  destruct (newSession_opens_branch sim_remote sim_user sim_dcb_clone
              sim_session_alloc sim_put_ref matching_instance 10%nat
              scenario_world client_session 21%nat
              (sim_dcb_clone (Some 20%nat) (heap scenario_world)).2 11%nat
              (sim_session_alloc (Some 2%nat) 21%nat
                 (sim_dcb_clone (Some 20%nat) (heap scenario_world)).2).2
              matching_no_recursion (scenario_allocations 2) matching_gates
              eq_refl eq_refl eq_refl)
    as (s0 & w0 & Hrun & Ha & Hb & Hd & _).
  exists s0, w0. auto.
Defined.

Lemma newSession_cleans_up_after_failure_witness :
  (exists w',
      newSession sim_remote sim_user failing_dcb_clone sim_session_alloc
        sim_put_ref matching_instance 10 scenario_world = Some (None, w')
      /\ In (EvDcbClone (Some 20%nat)) (trace w')
      /\ In EvFreeTeeSession (trace w'))
  /\ exists w',
       newSession sim_remote sim_user sim_dcb_clone failing_session_alloc
         sim_put_ref matching_instance 10 scenario_world = Some (None, w')
       /\ In (EvDcbClose 21%nat) (trace w')
       /\ In EvFreeTeeSession (trace w').
Proof.
  split.
  - destruct (proj1 (newSession_cleans_up_after_failure sim_remote sim_user
                       failing_dcb_clone sim_session_alloc sim_put_ref
                       matching_instance 10%nat scenario_world client_session
                       matching_no_recursion (scenario_allocations 2)
                       matching_gates eq_refl
                       (empty_registry_inv scenario_world eq_refl eq_refl))
                (heap scenario_world) eq_refl
                (empty_registry_allocated
                   (set_heap (heap scenario_world) scenario_world) eq_refl))
      as (w' & fin & Hrun & Ht).
    exists w'. split; [exact Hrun |]. rewrite Ht. cbn. auto.
  - destruct (proj2 (newSession_cleans_up_after_failure sim_remote sim_user
                       sim_dcb_clone failing_session_alloc sim_put_ref
                       matching_instance 10%nat scenario_world client_session
                       matching_no_recursion (scenario_allocations 2)
                       matching_gates eq_refl
                       (empty_registry_inv scenario_world eq_refl eq_refl))
                21%nat (sim_dcb_clone (Some 20%nat) (heap scenario_world)).2
                (sim_dcb_clone (Some 20%nat) (heap scenario_world)).2
                eq_refl eq_refl
                (empty_registry_allocated
                   (set_heap (sim_dcb_clone (Some 20%nat)
                                (heap scenario_world)).2 scenario_world)
                   eq_refl))
      as (w' & fin & Hrun & Ht).
    exists w'. split; [exact Hrun |]. rewrite Ht. cbn. auto 10.
Defined.

Lemma newSession_allocation_failures_witness :
  newSession sim_remote sim_user sim_dcb_clone sim_session_alloc sim_put_ref
    matching_instance 10 no_memory_world
  = Some (None,
          set_trace (trace no_memory_world ++ [EvHashtableFree; recursion_error])
            (set_alloc_tape [] no_memory_world)).
Proof.
  apply (proj1 (newSession_allocation_failures sim_remote sim_user sim_dcb_clone
                  sim_session_alloc sim_put_ref matching_instance 10%nat
                  no_memory_world client_session 2%nat
                  (SERVICE.mk "branch_svc" []) (SERVICE.mk "main_svc" [tee_to 2])
                  eq_refl eq_refl eq_refl eq_refl ltac:(discriminate))
           [] eq_refl).
Defined.

(** The configurations of services of the scenarios are well formed. *)
Ltac solve_services_wf :=
  intros a svc f ninst Ha Hin Hm Hf;
  repeat (apply lookup_insert_Some in Ha as [[<- <-] | [_ Ha]]);
  try (rewrite lookup_empty in Ha; discriminate Ha);
  cbn in Hin;
  repeat (destruct Hin as [<- | Hin]);
  try destruct Hin;
  cbn in Hf; injection Hf as <-;
  eexists; (split; [reflexivity | eexists; reflexivity]).

Lemma chain_ABA_wf : services_wf chain_ABA.
Proof. unfold chain_ABA. solve_services_wf. Qed.

Lemma diamond_wf : services_wf diamond.
Proof. unfold diamond. solve_services_wf. Qed.

Lemma cycle_of_tee_filters_is_refused_witness :
  tees_to chain_ABA 1%nat 2%nat
  /\ rtc (tees_to chain_ABA) 2%nat 1%nat
  /\ exists w',
       newSession sim_remote sim_user sim_dcb_clone sim_session_alloc
         sim_put_ref (tee_instance_to 2) 10 (config_world chain_ABA)
       = Some (None, w')
       /\ last (trace w') = Some recursion_error.
Proof.
  assert (H12 : tees_to chain_ABA 1%nat 2%nat).
  { exists (SERVICE.mk "A" [tee_to 2]), (tee_to 2), (tee_instance_to 2).
    repeat split. by left. }
  assert (H21 : tees_to chain_ABA 2%nat 1%nat).
  { exists (SERVICE.mk "B" [tee_to 1]), (tee_to 1), (tee_instance_to 1).
    repeat split. by left. }
  split; [exact H12 |]. split; [apply rtc_once, H21 |].
  apply (proj2 (cycle_of_tee_filters_is_refused sim_remote sim_user
                  sim_dcb_clone sim_session_alloc sim_put_ref
                  (tee_instance_to 2) 10%nat (config_world chain_ABA)
                  client_session 2%nat (SERVICE.mk "B" [tee_to 1])
                  (SERVICE.mk "A" [tee_to 2]) 2%nat eq_refl eq_refl eq_refl
                  eq_refl chain_ABA_wf H12 (rtc_once _ _ H21))).
Defined.

(** In the diamond every tee filter points to a service with a larger
    address, so no chain leads back. *)
Lemma diamond_edges a b : tees_to diamond a b -> (a < b)%nat.
Proof.
  intros (svc & f & ninst & Ha & Hin & Hm & Hf & Hb). unfold diamond in Ha.
  repeat (apply lookup_insert_Some in Ha as [[<- <-] | [_ Ha]]);
    try (rewrite lookup_empty in Ha; discriminate Ha);
    cbn in Hin;
    repeat (destruct Hin as [<- | Hin]);
    try destruct Hin;
    cbn in Hf; injection Hf as <-; cbn in Hb; injection Hb as <-; lia.
Qed.

Lemma diamond_acyclic a b :
  tees_to diamond a b -> ~ rtc (tees_to diamond) b a.
Proof.
  intros Hab Hba. apply diamond_edges in Hab.
  assert (Hle : (b <= a)%nat).
  { clear Hab. induction Hba as [|x y z Hxy _ IH]; [lia |].
    apply diamond_edges in Hxy. lia. }
  lia.
Qed.

Lemma shared_target_is_reported_as_loop_witness :
  rtc (tees_to diamond) 2%nat 4%nat
  /\ rtc (tees_to diamond) 3%nat 4%nat
  /\ (forall a b, tees_to diamond a b -> ~ rtc (tees_to diamond) b a)
  /\ exists ht,
       detect_loops (loop_fuel diamond) diamond (tee_instance_to 2) (Some ∅)
         (Some 1%nat) = Some (1, Some ht).
Proof.
  assert (H24 : tees_to diamond 2%nat 4%nat).
  { exists (SERVICE.mk "B" [tee_to 4]), (tee_to 4), (tee_instance_to 4).
    repeat split. by left. }
  assert (H34 : tees_to diamond 3%nat 4%nat).
  { exists (SERVICE.mk "C" [tee_to 4]), (tee_to 4), (tee_instance_to 4).
    repeat split. by left. }
  split; [apply rtc_once, H24 |]. split; [apply rtc_once, H34 |].
  split; [exact diamond_acyclic |].
  apply (shared_target_is_reported_as_loop diamond (tee_instance_to 2) 1%nat
           (SERVICE.mk "A" [tee_to 2; tee_to 3]) [] [tee_to 3] (tee_to 2)
           (tee_to 3) (tee_instance_to 2) (tee_instance_to 3) 2%nat 3%nat
           4%nat diamond_wf eq_refl eq_refl (or_introl eq_refl) eq_refl
           eq_refl eq_refl eq_refl eq_refl eq_refl (rtc_once _ _ H24)
           (rtc_once _ _ H34)).
  by eexists.
Defined.
